(** * The session-scoped event pipeline of [app.py]

    A shallow embedding of the Flask front end of the MCP agent: the
    process-wide registry [message_queues], the tool adapter
    [call_mcp_tool], the two LangGraph nodes [route_request] and
    [generate_response], the request handler [chat] with its background
    thread [process_message], and the server-sent-events generator of
    [stream].

    Python values that travel through the pipeline are JSON values; the
    Groq client, the tool server and the formatting of compound values are
    external and enter as an explicit [World].

    The server is threaded, so its behaviour is given as an interleaving
    of atomic steps.  In a request thread a membership test on
    [message_queues], a subscript on it, a [put] on a queue object and an
    external call are one step each; [chat], up to the start of its
    thread, is one step; and so is one resumption of the stream generator,
    from a [yield] to the next. *)

From Stdlib Require Import ZArith Ascii.
From stdpp Require Import gmap strings list pretty.

Local Open Scope string_scope.
Local Open Scope list_scope.

(** ** Python values *)

(** What [json.loads] and [response.json()] produce.  JSON numbers are kept
    as integers; a dict is the list of its items, with distinct keys, in
    insertion order. *)
#[local] Unset Elimination Schemes.
Inductive PyVal : Type :=
| PyNone
| PyBool (b : bool)
| PyInt (z : Z)
| PyStr (s : string)
| PyList (items : list PyVal)
| PyDict (items : list (string * PyVal)).
#[local] Set Elimination Schemes.

(** [bool(v)] *)
Definition py_truthy (v : PyVal) : bool :=
  match v with
  | PyNone => false
  | PyBool b => b
  | PyInt z => negb (Z.eqb z 0)
  | PyStr s => negb (String.eqb s EmptyString)
  | PyList items => match items with [] => false | _ => true end
  | PyDict items => match items with [] => false | _ => true end
  end.

(** [v == s] for a string literal [s] *)
Definition py_eq_str (v : PyVal) (s : string) : bool :=
  match v with
  | PyStr s' => String.eqb s' s
  | _ => false
  end.

(** [d.get(key)] on the items of a dict *)
Fixpoint dict_get (key : string) (items : list (string * PyVal)) : option PyVal :=
  match items with
  | [] => None
  | (k, v) :: rest => if String.eqb k key then Some v else dict_get key rest
  end.

(** [type(v).__name__] *)
Definition py_type_name (v : PyVal) : string :=
  match v with
  | PyNone => "NoneType"
  | PyBool _ => "bool"
  | PyInt _ => "int"
  | PyStr _ => "str"
  | PyList _ => "list"
  | PyDict _ => "dict"
  end.

(** Exceptions.  [External] stands for whatever the Groq client, [requests]
    or [response.json()] raise (timeouts included); its payload is [str(e)]. *)
Inductive Exn : Type :=
| External (msg : string)
| AttributeError (msg : string)
| KeyError (key : string).

(** [v.get(key, default)]: only a dict has the method. *)
Definition py_get (v : PyVal) (key : string) (dflt : PyVal) : Exn + PyVal :=
  match v with
  | PyDict items => inr (default dflt (dict_get key items))
  | _ => inl (AttributeError
                ("'" +:+ py_type_name v +:+ "' object has no attribute 'get'"))
  end.

(** ** Events and queues *)

(** The dicts the pipeline puts on a queue, by their ["type"] key. *)
Inductive Event : Type :=
| EvStatus (message : string)
| EvRouting (tool reasoning : PyVal)
| EvFinal (response : string).

(** [message.get("type") == "final"] *)
Definition is_final (ev : Event) : bool :=
  match ev with
  | EvFinal _ => true
  | _ => false
  end.

Definition is_routing (ev : Event) : bool :=
  match ev with
  | EvRouting _ _ => true
  | _ => false
  end.

(** A [queue.Queue] object: the items not yet taken, oldest first.
    [history] is a ghost field, every item ever put, in arrival order. *)
Record Queue : Type := mkQueue {
  pending : list Event;
  history : list Event
}.

Definition empty_queue : Queue := mkQueue [] [].

Definition queue_put (ev : Event) (q : Queue) : Queue :=
  mkQueue (pending q ++ [ev]) (history q ++ [ev]).

(** ** The outside world *)

(** The JSON reply of the tool server: its status code, and what
    [response.json()] gives (or raises). *)
Record HttpResponse : Type := mkHttpResponse {
  status_code : Z;
  json : Exn + PyVal
}.

(** Calls that leave the process, in the order they are made. *)
Inductive ExtCall : Type :=
| CallOracle (prompt : string)
| CallTool (url : string) (body : PyVal)
| CallComposer (messages : list (string * string)).

Definition is_tool_call (c : ExtCall) : bool :=
  match c with
  | CallTool _ _ => true
  | _ => false
  end.

(** Everything [app.py] does not define.  The three services answer as a
    function of the request and of the number of external calls made so
    far, so the same request may be answered differently over time.
    - [oracle]: the routing completion followed by
      [json.loads(response.choices[0].message.content)];
    - [http_post]: [requests.post(url, json=body, timeout=15)];
    - [composer]: the answering completion and its
      [response.choices[0].message.content];
    - [py_repr]: [str(v)] for a list or a dict;
    - [json_dumps]: [json.dumps(v, indent=2)]. *)
Record World : Type := mkWorld {
  oracle : nat -> string -> Exn + PyVal;
  http_post : nat -> string -> PyVal -> Exn + HttpResponse;
  composer : nat -> list (string * string) -> Exn + string;
  py_repr : PyVal -> string;
  json_dumps : PyVal -> string
}.

(** [str(v)], as an f-string formats a value *)
Definition py_str (w : World) (v : PyVal) : string :=
  match v with
  | PyNone => "None"
  | PyBool true => "True"
  | PyBool false => "False"
  | PyInt z => pretty z
  | PyStr s => s
  | _ => py_repr w v
  end.

(** [str(e)] *)
Definition exn_str (w : World) (e : Exn) : string :=
  match e with
  | External msg => msg
  | AttributeError msg => msg
  | KeyError key => py_repr w (PyStr key)
  end.

(** ** Process state *)

(** [message_queues] maps a session id to a queue object; [heap] holds the
    objects, so that a generator can keep draining a queue that is no
    longer registered.  [calls] logs the external calls. *)
Record State : Type := mkState {
  message_queues : gmap string nat;
  heap : gmap nat Queue;
  next_queue : nat;
  calls : list ExtCall
}.

Definition initial_state : State := mkState ∅ ∅ 0 [].

(** The queue object registered for a session, if any. *)
Definition channel (session_id : string) (st : State) : option Queue :=
  q ← message_queues st !! session_id; heap st !! q.

Definition channel_history (session_id : string) (st : State) : list Event :=
  from_option history [] (channel session_id st).

Definition queue_history (q : nat) (st : State) : list Event :=
  from_option history [] (heap st !! q).

Definition queue_pending (q : nat) (st : State) : list Event :=
  from_option pending [] (heap st !! q).

(** [queue.Queue()] *)
Definition new_queue (st : State) : nat * State :=
  (next_queue st,
   mkState (message_queues st) (<[next_queue st := empty_queue]> (heap st))
           (S (next_queue st)) (calls st)).

(** [message_queues[session_id] = q] *)
Definition set_item (session_id : string) (q : nat) (st : State) : State :=
  mkState (<[session_id := q]> (message_queues st)) (heap st)
          (next_queue st) (calls st).

(** [del message_queues[session_id]] *)
Definition del_item (session_id : string) (st : State) : State :=
  mkState (delete session_id (message_queues st)) (heap st)
          (next_queue st) (calls st).

(** [q.put(ev)] on a queue object *)
Definition heap_put (q : nat) (ev : Event) (st : State) : State :=
  mkState (message_queues st) (alter (queue_put ev) q (heap st))
          (next_queue st) (calls st).

(** What a guarded put amounts to when nothing else runs in between:
    the event joins the session's queue if there is one, else nothing. *)
Definition push (session_id : string) (ev : Event) (st : State) : State :=
  match message_queues st !! session_id with
  | Some q => heap_put q ev st
  | None => st
  end.

Definition log_call (c : ExtCall) (st : State) : State :=
  mkState (message_queues st) (heap st) (next_queue st) (calls st ++ [c]).

(** ** Programs over the process state *)

(** The code of a request thread, as a tree of its atomic steps; a
    continuation receives what the step returns or raises.
    - [Contains]: [session_id in message_queues];
    - [GetItem]: [message_queues[session_id]], raising [KeyError];
    - [QueuePut]: [q.put(ev)] on a queue object already in hand;
    - [AskOracle], [HttpPost], [AskComposer]: the external calls. *)
Inductive Prog (A : Type) : Type :=
| Ret (a : A)
| Raise (e : Exn)
| Contains (session_id : string) (k : bool -> Prog A)
| GetItem (session_id : string) (k : Exn + nat -> Prog A)
| QueuePut (q : nat) (ev : Event) (k : Prog A)
| AskOracle (prompt : string) (k : Exn + PyVal -> Prog A)
| HttpPost (url : string) (body : PyVal) (k : Exn + HttpResponse -> Prog A)
| AskComposer (messages : list (string * string)) (k : Exn + string -> Prog A).

Arguments Ret {A} a.
Arguments Raise {A} e.
Arguments Contains {A} session_id k.
Arguments GetItem {A} session_id k.
Arguments QueuePut {A} q ev k.
Arguments AskOracle {A} prompt k.
Arguments HttpPost {A} url body k.
Arguments AskComposer {A} messages k.

Fixpoint prog_bind {A B : Type} (p : Prog A) (f : A -> Prog B) : Prog B :=
  match p with
  | Ret a => f a
  | Raise e => Raise e
  | Contains sid k => Contains sid (fun r => prog_bind (k r) f)
  | GetItem sid k => GetItem sid (fun r => prog_bind (k r) f)
  | QueuePut q ev k => QueuePut q ev (prog_bind k f)
  | AskOracle prompt k => AskOracle prompt (fun r => prog_bind (k r) f)
  | HttpPost url body k => HttpPost url body (fun r => prog_bind (k r) f)
  | AskComposer messages k => AskComposer messages (fun r => prog_bind (k r) f)
  end.

#[global] Instance prog_mret : MRet Prog := @Ret.
#[global] Instance prog_mbind : MBind Prog := fun A B f p => prog_bind p f.

(** [try: body / except Exception as e: handler(e)] *)
Fixpoint try_except {A : Type} (body : Prog A) (handler : Exn -> Prog A) : Prog A :=
  match body with
  | Ret a => Ret a
  | Raise e => handler e
  | Contains sid k => Contains sid (fun r => try_except (k r) handler)
  | GetItem sid k => GetItem sid (fun r => try_except (k r) handler)
  | QueuePut q ev k => QueuePut q ev (try_except k handler)
  | AskOracle prompt k => AskOracle prompt (fun r => try_except (k r) handler)
  | HttpPost url body' k => HttpPost url body' (fun r => try_except (k r) handler)
  | AskComposer messages k =>
      AskComposer messages (fun r => try_except (k r) handler)
  end.

(** A value or the exception raised in its place. *)
Definition lift {A : Type} (r : Exn + A) : Prog A :=
  match r with
  | inl e => Raise e
  | inr a => Ret a
  end.

Definition contains (session_id : string) : Prog bool := Contains session_id Ret.
Definition get_item (session_id : string) : Prog nat := GetItem session_id lift.
Definition queue_obj_put (q : nat) (ev : Event) : Prog unit := QueuePut q ev (Ret tt).
Definition ask_oracle (prompt : string) : Prog PyVal := AskOracle prompt lift.
Definition requests_post (url : string) (body : PyVal) : Prog HttpResponse :=
  HttpPost url body lift.
Definition ask_composer (messages : list (string * string)) : Prog string :=
  AskComposer messages lift.

(** [message_queues[session_id].put(payload)]: the subscript is evaluated
    first, then the argument, then the call. *)
Definition put_item (session_id : string) (payload : Prog Event) : Prog unit :=
  q ← get_item session_id;
  ev ← payload;
  queue_obj_put q ev.

(** [if session_id in message_queues: message_queues[session_id].put(payload)] *)
Definition put_if_live (session_id : string) (payload : Prog Event) : Prog unit :=
  live ← contains session_id;
  if live : bool then put_item session_id payload else Ret tt.

(** [session_id in message_queues] *)
Definition is_live (session_id : string) (st : State) : bool :=
  match message_queues st !! session_id with
  | Some _ => true
  | None => false
  end.

(** [message_queues[session_id]] *)
Definition lookup_item (session_id : string) (st : State) : Exn + nat :=
  match message_queues st !! session_id with
  | Some q => inr q
  | None => inl (KeyError session_id)
  end.

(** One atomic step of a program; a finished program stays as it is. *)
Definition prog_step {A : Type} (w : World) (p : Prog A) (st : State)
  : Prog A * State :=
  match p with
  | Ret _ | Raise _ => (p, st)
  | Contains sid k => (k (is_live sid st), st)
  | GetItem sid k => (k (lookup_item sid st), st)
  | QueuePut q ev k => (k, heap_put q ev st)
  | AskOracle prompt k =>
      (k (oracle w (length (calls st)) prompt), log_call (CallOracle prompt) st)
  | HttpPost url body k =>
      (k (http_post w (length (calls st)) url body), log_call (CallTool url body) st)
  | AskComposer messages k =>
      (k (composer w (length (calls st)) messages),
       log_call (CallComposer messages) st)
  end.

Definition finished {A : Type} (p : Prog A) : bool :=
  match p with
  | Ret _ | Raise _ => true
  | _ => false
  end.

(** A program run to its end with nothing else in between. *)
Fixpoint exec {A : Type} (w : World) (p : Prog A) (st : State)
  : (Exn + A) * State :=
  match p with
  | Ret a => (inr a, st)
  | Raise e => (inl e, st)
  | Contains sid k => exec w (k (is_live sid st)) st
  | GetItem sid k => exec w (k (lookup_item sid st)) st
  | QueuePut q ev k => exec w k (heap_put q ev st)
  | AskOracle prompt k =>
      exec w (k (oracle w (length (calls st)) prompt))
           (log_call (CallOracle prompt) st)
  | HttpPost url body k =>
      exec w (k (http_post w (length (calls st)) url body))
           (log_call (CallTool url body) st)
  | AskComposer messages k =>
      exec w (k (composer w (length (calls st)) messages))
           (log_call (CallComposer messages) st)
  end.

(** ** The tool adapter *)

Definition MCP_SERVER_URL : string := "http://localhost:5000".

(** [{"success": False, "error": error}] *)
Definition failure (error : string) : PyVal :=
  PyDict [("success", PyBool false); ("error", PyStr error)].

(** [call_mcp_tool] (app.py, lines 34-47) *)
Definition call_mcp_tool (w : World) (tool : string) (arguments : PyVal)
  : Prog PyVal :=
  try_except
    (response ← requests_post (MCP_SERVER_URL +:+ "/tools/call")
                  (PyDict [("name", PyStr tool); ("arguments", arguments)]);
     if Z.eqb (status_code response) 200
     then lift (json response)
     else Ret (failure ("HTTP " +:+ pretty (status_code response))))
    (fun e => Ret (failure ("Request failed: " +:+ exn_str w e))).

(** ** The two nodes of the graph *)

(** [AgentState] (lines 53-57), the state dict of the graph.  [msg] is
    always there; a missing [tool_result] reads as [PyNone] through
    [state.get]. *)
Record AgentState : Type := mkAgentState {
  msg : string;
  tool_result : PyVal;
  result : option string;
  session_id : option string
}.

Definition dq : string := String "034"%char EmptyString.
Definition nl : string := String "010"%char EmptyString.
Definition quoted (s : string) : string := dq +:+ s +:+ dq.

(** The f-string [routing_prompt] (lines 70-85) *)
Definition routing_prompt (user_request : string) : string :=
  "Analyze this user request and determine which tool to use:" +:+ nl +:+
  nl +:+
  "User request: " +:+ user_request +:+ nl +:+
  nl +:+
  "Available tools:" +:+ nl +:+
  "1. get_weather - Get current weather for a city. Requires: city name" +:+ nl +:+
  "2. web_search - Search the web for information. Requires: search query" +:+ nl +:+
  nl +:+
  "Respond in JSON format with:" +:+ nl +:+
  "{" +:+ nl +:+
  "    " +:+ quoted "tool" +:+ ": " +:+ quoted "get_weather" +:+ " | " +:+
     quoted "web_search" +:+ " | " +:+ quoted "none" +:+ "," +:+ nl +:+
  "    " +:+ quoted "parameters" +:+ ": {" +:+ quoted "city" +:+ ": " +:+
     quoted "..." +:+ "} or {" +:+ quoted "query" +:+ ": " +:+ quoted "..." +:+
     "} or null," +:+ nl +:+
  "    " +:+ quoted "reasoning" +:+ ": " +:+ quoted "brief explanation" +:+ nl +:+
  "}" +:+ nl +:+
  nl +:+
  "Only use tools if clearly needed. For general conversation, use " +:+
  quoted "none" +:+ ".".

Definition analyzing : Event := EvStatus "🤔 Analyzing your request...".
Definition crafting : Event := EvStatus "✍️ Crafting response...".

(** [route_request] (lines 59-133).  The completion call, the indexing of
    its reply and [json.loads] are the one call [ask_oracle]. *)
Definition route_request (w : World) (state : AgentState) : Prog AgentState :=
  let session_id := default "default" (session_id state) in
  put_if_live session_id (Ret analyzing);;
  try_except
    (routing_decision ← ask_oracle (routing_prompt (msg state));
     tool ← lift (py_get routing_decision "tool" PyNone);
     params ← lift (py_get routing_decision "parameters" PyNone);
     reasoning ← lift (py_get routing_decision "reasoning" PyNone);
     put_if_live session_id (Ret (EvRouting tool reasoning));;
     if py_eq_str tool "get_weather" && py_truthy params then
       put_if_live session_id
         (city ← lift (py_get params "city" PyNone);
          Ret (EvStatus ("🌤️ Getting weather for " +:+ py_str w city +:+ "...")));;
       result ← call_mcp_tool w "get_weather" params;
       Ret (mkAgentState (msg state) result None (Some session_id))
     else if py_eq_str tool "web_search" && py_truthy params then
       put_if_live session_id
         (query ← lift (py_get params "query" PyNone);
          Ret (EvStatus ("🔍 Searching for: " +:+ py_str w query +:+ "...")));;
       result ← call_mcp_tool w "web_search" params;
       Ret (mkAgentState (msg state) result None (Some session_id))
     else
       Ret (mkAgentState (msg state) PyNone None (Some session_id)))
    (fun e => Ret (mkAgentState (msg state) PyNone None (Some session_id))).

(** [generate_response] (lines 135-197) *)
Definition generate_response (w : World) (state : AgentState) : Prog AgentState :=
  let session_id := default "default" (session_id state) in
  put_if_live session_id (Ret crafting);;
  try_except
    (let tool_result := tool_result state in
     match tool_result with
     | PyNone =>
         content ← ask_composer
                     [("system", "You are a helpful assistant.");
                      ("user", msg state)];
         Ret (mkAgentState (msg state) PyNone (Some content) (Some session_id))
     | _ =>
         success ← lift (py_get tool_result "success" PyNone);
         if negb (py_truthy success) then
           error_msg ← lift (py_get tool_result "error" (PyStr "Unknown error"));
           Ret (mkAgentState (msg state) tool_result
                  (Some ("I encountered an error: " +:+ py_str w error_msg))
                  (Some session_id))
         else
           data ← lift (py_get tool_result "data" PyNone);
           let tool_data := json_dumps w data in
           content ← ask_composer
                       [("system", "You are a helpful assistant. Use the tool results to answer naturally and concisely.");
                        ("user", "Question: " +:+ msg state +:+ nl +:+ nl +:+
                                 "Tool results:" +:+ nl +:+ tool_data +:+ nl +:+ nl +:+
                                 "Provide a helpful answer (max 150 words).")];
           Ret (mkAgentState (msg state) tool_result (Some content)
                  (Some session_id))
     end)
    (fun e =>
       Ret (mkAgentState (msg state) (tool_result state)
              (Some ("Error generating response: " +:+ exn_str w e))
              (Some session_id))).

(** How the graph merges the dict a node returns into its state: the keys
    the node gives replace the old ones.  Both nodes give [msg],
    [tool_result] and [session_id]; only [generate_response] gives
    [result]. *)
Definition graph_update (old upd : AgentState) : AgentState :=
  mkAgentState (msg upd) (tool_result upd)
    (match result upd with Some r => Some r | None => result old end)
    (session_id upd).

(** [agent_graph.invoke(input)] for the graph of lines 200-206: route, then
    respond, then END. *)
Definition agent_graph_invoke (w : World) (input : AgentState) : Prog AgentState :=
  routed ← route_request w input;
  let state1 := graph_update input routed in
  responded ← generate_response w state1;
  Ret (graph_update state1 responded).

(** ** The request handlers *)

(** [process_message] (lines 249-257), the thread body that [chat] starts. *)
Definition process_message (w : World) (user_message session_id : string)
  : Prog unit :=
  final_state ← agent_graph_invoke w
                  (mkAgentState user_message PyNone None (Some session_id));
  put_item session_id
    (match result final_state with
     | Some response => Ret (EvFinal response)
     | None => Raise (KeyError "result")
     end).

(** The JSON body of [POST /chat], with [None] for a key that is left out. *)
Record ChatData : Type := mkChatData {
  data_message : option string;
  data_session_id : option string
}.

(** [chat()] (lines 234-265): the reply (status code and body), the new
    state, and the thread it started, if any.  Creating the queue and
    starting the thread do not fail here, so the handler's [except] branch
    (status 500) has no counterpart. *)
Definition chat (w : World) (data : ChatData) (st : State)
  : (Z * PyVal) * State * option (Prog unit) :=
  let user_message := default EmptyString (data_message data) in
  let session_id := default "default" (data_session_id data) in
  if negb (py_truthy (PyStr user_message)) then
    ((400%Z, PyDict [("error", PyStr "No message provided")]), st, None)
  else
    let '(q, st1) := new_queue st in
    let st2 := set_item session_id q st1 in
    ((200%Z, PyDict [("status", PyStr "processing");
                     ("session_id", PyStr session_id)]),
     st2, Some (process_message w user_message session_id)).

(** A frame of the event stream: [data: <json of the message>] or the
    keepalive the generator makes up itself. *)
Inductive Frame : Type :=
| FrData (message : Event)
| FrKeepalive.

(** Where the generator [generate()] of [stream] is suspended. *)
Inductive GenState : Type :=
| GenCreated
| GenYieldedMessage (q : nat) (message : Event)
| GenYieldedKeepalive (q : nat)
| GenDone
| GenRaised (e : Exn).

(** [q.get(timeout=30)]: the oldest item, or [None] for [queue.Empty].
    Time is not modelled: asking an empty queue stands for the 30 seconds
    having passed with nothing put. *)
Definition queue_get (q : nat) (st : State) : option (Event * State) :=
  match heap st !! q with
  | Some (mkQueue (message :: rest) hist) =>
      Some (message,
            mkState (message_queues st) (<[q := mkQueue rest hist]> (heap st))
                    (next_queue st) (calls st))
  | _ => None
  end.

(** One turn of the [while True] loop, up to its [yield]. *)
Definition drain (q : nat) (st : State) : option Frame * GenState * State :=
  match queue_get q st with
  | Some (message, st') => (Some (FrData message), GenYieldedMessage q message, st')
  | None => (Some FrKeepalive, GenYieldedKeepalive q, st)
  end.

(** [next(generate())] for the generator of [stream] (lines 267-290): it
    runs from where it is suspended to its next [yield] (the frame) or to
    its end (no frame). *)
Definition generate_next (session_id : string) (g : GenState) (st : State)
  : option Frame * GenState * State :=
  match g with
  | GenCreated =>
      let st1 := if is_live session_id st then st
                 else let '(q, st') := new_queue st in set_item session_id q st' in
      match lookup_item session_id st1 with
      | inr q => drain q st1
      | inl e => (None, GenRaised e, st1)
      end
  | GenYieldedMessage q message =>
      if is_final message then
        (None, GenDone,
         if is_live session_id st then del_item session_id st else st)
      else drain q st
  | GenYieldedKeepalive q => drain q st
  | GenDone => (None, GenDone, st)
  | GenRaised e => (None, GenRaised e, st)
  end.

(** ** The running server *)

(** An open [/stream/<session_id>] response: its generator and the frames
    sent so far. *)
Record Stream : Type := mkStream {
  stream_session : string;
  stream_gen : GenState;
  stream_frames : list Frame
}.

Record System : Type := mkSystem {
  sys_state : State;
  sys_threads : list (Prog unit);
  sys_streams : list Stream;
  sys_replies : list (Z * PyVal)
}.

Definition initial_system : System := mkSystem initial_state [] [] [].

(** What can happen next: a request arrives, a thread takes one atomic
    step, or the server pulls the next frame of a stream. *)
Inductive Action : Type :=
| PostChat (data : ChatData)
| GetStream (session_id : string)
| ThreadStep (i : nat)
| StreamNext (j : nat).

Definition sys_step (w : World) (a : Action) (s : System) : System :=
  match a with
  | PostChat data =>
      let '(reply, st', started) := chat w data (sys_state s) in
      mkSystem st'
        (sys_threads s ++ match started with Some t => [t] | None => [] end)
        (sys_streams s) (sys_replies s ++ [reply])
  | GetStream session_id =>
      mkSystem (sys_state s) (sys_threads s)
        (sys_streams s ++ [mkStream session_id GenCreated []]) (sys_replies s)
  | ThreadStep i =>
      match sys_threads s !! i with
      | Some t =>
          let '(t', st') := prog_step w t (sys_state s) in
          mkSystem st' (<[i := t']> (sys_threads s)) (sys_streams s) (sys_replies s)
      | None => s
      end
  | StreamNext j =>
      match sys_streams s !! j with
      | Some (mkStream session_id g frames) =>
          let '(frame, g', st') := generate_next session_id g (sys_state s) in
          mkSystem st' (sys_threads s)
            (<[j := mkStream session_id g'
                      (frames ++ match frame with Some f => [f] | None => [] end)]>
               (sys_streams s))
            (sys_replies s)
      | None => s
      end
  end.

Definition run (w : World) (schedule : list Action) (s : System) : System :=
  fold_left (fun s a => sys_step w a s) schedule s.

(** The frames sent on the [j]-th stream. *)
Definition frames_of (j : nat) (s : System) : list Frame :=
  from_option stream_frames [] (sys_streams s !! j).

(** ** Vocabulary of the properties *)


(** A submission [chat] accepts: its message is there and not empty. *)
Definition valid_submission (data : ChatData) : bool :=
  py_truthy (PyStr (default EmptyString (data_message data))).

(** The key [chat] files a submission under. *)
Definition session_key (data : ChatData) : string :=
  default "default" (data_session_id data).

Definition not_final (ev : Event) : Prop := is_final ev = false.

(** A history with exactly one final event, in last place. *)
Definition final_once_and_last (events : list Event) : Prop :=
  exists earlier response,
    events = earlier ++ [EvFinal response] /\ Forall not_final earlier.

(** How many final events a history holds. *)
Definition count_final (events : list Event) : nat :=
  length (List.filter is_final events).

(** Every queue object in use was handed out by [new_queue], and every
    registered session points to one. *)
Definition heap_wf (st : State) : Prop :=
  (forall q, next_queue st <= q -> heap st !! q = None) /\
  (forall sid q, message_queues st !! sid = Some q -> is_Some (heap st !! q)).

Section Channel.
(** A session [sid] whose registered queue object is [q]. *)
Variables (sid : string) (q : nat).

(** [writes ok post epost p]: as long as [sid] stays registered to [q],
    the program [p] puts only events satisfying [ok], all of them on
    [q], and ends by returning a value in [post] or raising an exception
    in [epost]. *)
Inductive writes (ok : Event -> Prop) {A : Type}
    (post : A -> Prop) (epost : Exn -> Prop) : Prog A -> Prop :=
| writes_ret a : post a -> writes ok post epost (Ret a)
| writes_raise e : epost e -> writes ok post epost (Raise e)
| writes_contains k :
    writes ok post epost (k true) -> writes ok post epost (Contains sid k)
| writes_get_item k :
    writes ok post epost (k (inr q)) -> writes ok post epost (GetItem sid k)
| writes_queue_put ev k :
    ok ev -> writes ok post epost k -> writes ok post epost (QueuePut q ev k)
| writes_oracle prompt k :
    (forall r, writes ok post epost (k r)) ->
    writes ok post epost (AskOracle prompt k)
| writes_http url body k :
    (forall r, writes ok post epost (k r)) ->
    writes ok post epost (HttpPost url body k)
| writes_composer messages k :
    (forall r, writes ok post epost (k r)) ->
    writes ok post epost (AskComposer messages k).

(** [finalizes p]: under the same proviso, [p] puts events that are not
    final, then one final event, and returns at once. *)
Inductive finalizes : Prog unit -> Prop :=
| fin_final response : finalizes (QueuePut q (EvFinal response) (Ret tt))
| fin_contains k : finalizes (k true) -> finalizes (Contains sid k)
| fin_get_item k : finalizes (k (inr q)) -> finalizes (GetItem sid k)
| fin_queue_put ev k :
    not_final ev -> finalizes k -> finalizes (QueuePut q ev k)
| fin_oracle prompt k :
    (forall r, finalizes (k r)) -> finalizes (AskOracle prompt k)
| fin_http url body k :
    (forall r, finalizes (k r)) -> finalizes (HttpPost url body k)
| fin_composer messages k :
    (forall r, finalizes (k r)) -> finalizes (AskComposer messages k).

(** What the rest of the server may do to the state while a run is in
    flight without disturbing the run's channel: [sid] stays registered
    to [q], and nobody else puts on [q] (taking from it is allowed). *)
Definition undisturbed (st st' : State) : Prop :=
  message_queues st' !! sid = message_queues st !! sid /\
  forall Q, heap st !! q = Some Q ->
    exists Q', heap st' !! q = Some Q' /\ history Q' = history Q.

(** A thread running [p] from [st], its atomic steps interleaved with
    steps of the rest of the server, each of which satisfies [R]. *)
Inductive run_under (R : State -> State -> Prop) (w : World) {A : Type}
  : Prog A -> State -> Prog A -> State -> Prop :=
| run_under_refl p st : run_under R w p st p st
| run_under_env p st st1 p' st' :
    R st st1 -> run_under R w p st1 p' st' -> run_under R w p st p' st'
| run_under_step p st p' st' :
    finished p = false ->
    run_under R w (prog_step w p st).1 (prog_step w p st).2 p' st' ->
    run_under R w p st p' st'.
End Channel.

(** Where a run under [sid], started on the queue object [q] whose history
    was [before], stands: still to put its final event, having put only
    events that are not final so far, or done, with its final event last. *)
Definition run_inv (sid : string) (q : nat) (before : list Event)
    (p : Prog unit) (st : State) : Prop :=
  message_queues st !! sid = Some q /\
  exists Q, heap st !! q = Some Q /\
    ((finalizes sid q p /\
      exists events, history Q = before ++ events /\ Forall not_final events) \/
     (p = Ret tt /\
      exists events response,
        history Q = before ++ events ++ [EvFinal response] /\
        Forall not_final events)).

(** The reply of [chat] to an accepted submission. *)
Definition processing (session_id : string) : Z * PyVal :=
  (200%Z, PyDict [("status", PyStr "processing"); ("session_id", PyStr session_id)]).

(** The reply of [chat] to a submission without a message. *)
Definition no_message_provided : Z * PyVal :=
  (400%Z, PyDict [("error", PyStr "No message provided")]).







(** ** Sample worlds and requests *)

Definition decision_none : PyVal :=
  PyDict [("tool", PyStr "none"); ("parameters", PyNone);
          ("reasoning", PyStr "small talk")].

Definition decision_weather : PyVal :=
  PyDict [("tool", PyStr "get_weather");
          ("parameters", PyDict [("city", PyStr "Lagos")]);
          ("reasoning", PyStr "asks for the weather")].

(** The oracle picks no tool and the composer answers. *)
Definition world_chat : World :=
  mkWorld (fun _ _ => inr decision_none)
          (fun _ _ _ => inl (External "Connection refused"))
          (fun _ _ => inr "Hi there")
          (fun _ => "<repr>") (fun _ => "<json>").

(** The oracle picks the weather tool and the tool server answers 500. *)
Definition world_http_500 : World :=
  mkWorld (fun _ _ => inr decision_weather)
          (fun _ _ _ => inr (mkHttpResponse 500 (inl (External "no JSON body"))))
          (fun _ _ => inr "It is sunny")
          (fun _ => "<repr>") (fun _ => "<json>").

(** The tool server cannot be reached and the composer is down. *)
Definition world_down : World :=
  mkWorld (fun _ _ => inr decision_weather)
          (fun _ _ _ => inl (External "Connection refused"))
          (fun _ _ => inl (External "Service unavailable"))
          (fun _ => "<repr>") (fun _ => "<json>").

Definition hello (session_id : string) : ChatData :=
  mkChatData (Some "Hello! How are you?") (Some session_id).

Definition hello_no_session : ChatData :=
  mkChatData (Some "Hello! How are you?") None.


(** The graph state of the submission [hello "s"]. *)
Definition hello_state : AgentState :=
  mkAgentState "Hello! How are you?" PyNone None (Some "s").


Definition routing_none : Event := EvRouting (PyStr "none") (PyStr "small talk").

(** What one run under [world_chat] puts on its channel. *)
Definition small_talk_events : list Event :=
  [analyzing; routing_none; crafting; EvFinal "Hi there"].

(** [n] atomic steps of thread [i]; a finished thread ignores the rest. *)
Definition thread_steps (i n : nat) : list Action := replicate n (ThreadStep i).

Definition stream_nexts (j n : nat) : list Action := replicate n (StreamNext j).

(** Two submissions under the key ["s"], then each run to its end. *)
Definition two_runs_one_key : list Action :=
  [PostChat (hello "s"); PostChat (hello "s")]
  ++ thread_steps 0 40 ++ thread_steps 1 40.

(** The first run has queued its first status when the second submission
    under the same key arrives. *)
Definition first_status_queued : list Action :=
  [PostChat (hello "s")] ++ thread_steps 0 3.

Definition resubmit_while_queued : list Action :=
  first_status_queued ++ [PostChat (hello "s")].

(** Two submissions under ["s"]; the first run ends and a subscriber
    relays its final event, tearing the channel down, before the second
    run starts. *)
Definition teardown_before_second_run : list Action :=
  [PostChat (hello "s"); PostChat (hello "s")]
  ++ thread_steps 0 40 ++ [GetStream "s"] ++ stream_nexts 0 5
  ++ thread_steps 1 40.

(** As [resubmit_while_queued], with a subscriber already draining the
    first queue object when the second submission arrives. *)
Definition resubmit_while_streaming : list Action :=
  [PostChat (hello "s")] ++ thread_steps 0 3 ++ [GetStream "s"; StreamNext 0]
  ++ [PostChat (hello "s")]
  ++ thread_steps 0 40 ++ thread_steps 1 40 ++ stream_nexts 0 5.


(** A subscriber is there first; the submission under the same key comes
    after it, and its run ends. *)
Definition stream_before_chat : list Action :=
  [GetStream "s"; StreamNext 0; PostChat (hello "s")]
  ++ thread_steps 0 40 ++ stream_nexts 0 3.


(** ** More vocabulary: the adapter and the decide stage *)

Definition tools_call_url : string := MCP_SERVER_URL +:+ "/tools/call".

(** [{"name": tool, "arguments": arguments}] *)
Definition tools_call_body (tool : string) (arguments : PyVal) : PyVal :=
  PyDict [("name", PyStr tool); ("arguments", arguments)].

(** What [call_mcp_tool] makes of the outcome of its HTTP exchange. *)
Definition adapter_result (w : World) (outcome : Exn + HttpResponse) : PyVal :=
  match outcome with
  | inl e => failure ("Request failed: " +:+ exn_str w e)
  | inr response =>
      if Z.eqb (status_code response) 200 then
        match json response with
        | inr v => v
        | inl e => failure ("Request failed: " +:+ exn_str w e)
        end
      else failure ("HTTP " +:+ pretty (status_code response))
  end.

(** The two tools [route_request] knows. *)
Definition known_tool (tool : string) : Prop :=
  tool = "get_weather" \/ tool = "web_search".

(** The status [route_request] sends before it calls a tool. *)
Definition tool_status (w : World) (tool : string) (params : PyVal) : Exn + Event :=
  if String.eqb tool "get_weather" then
    match py_get params "city" PyNone with
    | inr city =>
        inr (EvStatus ("🌤️ Getting weather for " +:+ py_str w city +:+ "..."))
    | inl e => inl e
    end
  else
    match py_get params "query" PyNone with
    | inr query => inr (EvStatus ("🔍 Searching for: " +:+ py_str w query +:+ "..."))
    | inl e => inl e
    end.

(** The state [route_request] returns when it used no tool. *)
Definition no_tool_state (state : AgentState) : AgentState :=
  mkAgentState (msg state) PyNone None
               (Some (default "default" (session_id state))).

Definition is_dict (v : PyVal) : bool :=
  match v with
  | PyDict _ => true
  | _ => false
  end.

(** The oracle cannot be reached. *)
Definition world_oracle_down : World :=
  mkWorld (fun _ _ => inl (External "Connection error"))
          (fun _ _ _ => inl (External "Connection refused"))
          (fun _ _ => inr "Hi there")
          (fun _ => "<repr>") (fun _ => "<json>").

(** The oracle names the weather tool and gives the city as a bare
    string instead of a dict. *)
Definition decision_bare_city : PyVal :=
  PyDict [("tool", PyStr "get_weather"); ("parameters", PyStr "Lagos");
          ("reasoning", PyStr "asks for the weather")].

Definition world_bare_city : World :=
  mkWorld (fun _ _ => inr decision_bare_city)
          (fun _ _ _ => inr (mkHttpResponse 500 (inl (External "no JSON body"))))
          (fun _ _ => inr "It is sunny")
          (fun _ => "<repr>") (fun _ => "<json>").

(** The oracle names the weather tool and leaves the parameters out. *)
Definition decision_no_parameters : PyVal :=
  PyDict [("tool", PyStr "get_weather"); ("parameters", PyNone);
          ("reasoning", PyStr "no city given")].

Definition world_no_parameters : World :=
  mkWorld (fun _ _ => inr decision_no_parameters)
          (fun _ _ _ => inl (External "Connection refused"))
          (fun _ _ => inr "Which city?")
          (fun _ => "<repr>") (fun _ => "<json>").

(** The state of a server on which [hello "s"] has just been accepted. *)
Definition state_live_s : State :=
  (chat world_chat (hello "s") initial_state).1.2.

(** What the tool branch of [route_request] comes to, from the state [st1]
    reached after the routing event: the status is built and put only if
    the session has a channel, and building it fails when the parameters
    are not a dict, in which case the handler returns without a tool. *)
Definition route_tool_call (w : World) (state : AgentState) (tool : string)
    (params : PyVal) (st1 : State) : (Exn + AgentState) * State :=
  let sid := default "default" (session_id state) in
  let called st :=
    (inr (mkAgentState (msg state)
            (adapter_result w
               (http_post w (length (calls st)) tools_call_url
                  (tools_call_body tool params)))
            None (Some sid)),
     log_call (CallTool tools_call_url (tools_call_body tool params)) st) in
  if is_live sid st1 then
    match tool_status w tool params with
    | inl _ => (inr (no_tool_state state), st1)
    | inr ev => called (push sid ev st1)
    end
  else called st1.

(** ** More vocabulary: the compose stage *)

(** The messages [generate_response] sends to the composer: the question
    alone, or the question with the serialized tool data. *)
Definition composer_messages (w : World) (state : AgentState)
  : list (string * string) :=
  match tool_result state with
  | PyDict items =>
      [("system", "You are a helpful assistant. Use the tool results to answer naturally and concisely.");
       ("user", "Question: " +:+ msg state +:+ nl +:+ nl +:+
                "Tool results:" +:+ nl +:+
                json_dumps w (default PyNone (dict_get "data" items)) +:+
                nl +:+ nl +:+ "Provide a helpful answer (max 150 words).")]
  | _ =>
      [("system", "You are a helpful assistant."); ("user", msg state)]
  end.

(** What the composer's outcome becomes as the [result] of the state. *)
Definition composed_result (w : World) (outcome : Exn + string) : string :=
  match outcome with
  | inr content => content
  | inl e => "Error generating response: " +:+ exn_str w e
  end.

(** The tool server replied with a JSON array, and with an object that
    only carries data. *)
Definition array_result_state : AgentState :=
  mkAgentState "Weather in Lagos?" (PyList [PyStr "sunny"]) None (Some "s2").

Definition data_only_state : AgentState :=
  mkAgentState "Weather in Lagos?"
    (PyDict [("data", PyDict [("condition", PyStr "Sunny")])]) None (Some "s2").


Definition weather_request : ChatData :=
  mkChatData (Some "Weather in Lagos?") (Some "s2").

(** ** More vocabulary: one request from submission to final event *)

(** The state of the server once [chat] has handled [data]. *)
Definition accepted (w : World) (data : ChatData) (st : State) : State :=
  (chat w data st).1.2.

(** The run [chat] starts for an accepted [data]. *)
Definition started_run (w : World) (data : ChatData) : Prog unit :=
  process_message w (default EmptyString (data_message data)) (session_key data).

(** The error text [call_mcp_tool] makes up itself, if the exchange with
    the tool server gives it no parsed body to return. *)
Definition transport_error (w : World) (outcome : Exn + HttpResponse)
  : option string :=
  match outcome with
  | inl e => Some ("Request failed: " +:+ exn_str w e)
  | inr response =>
      if Z.eqb (status_code response) 200 then
        match json response with
        | inl e => Some ("Request failed: " +:+ exn_str w e)
        | inr _ => None
        end
      else Some ("HTTP " +:+ pretty (status_code response))
  end.

(** The oracle picks the weather tool and the tool server answers 200
    with a report. *)
Definition sunny_report : PyVal :=
  PyDict [("success", PyBool true);
          ("data", PyDict [("condition", PyStr "Sunny")])].

Definition world_sunny : World :=
  mkWorld (fun _ _ => inr decision_weather)
          (fun _ _ _ => inr (mkHttpResponse 200 (inr sunny_report)))
          (fun _ _ => inr "It is sunny in Lagos")
          (fun _ => "<repr>") (fun _ => "<json>").

(** ** More vocabulary: streams *)

(** [n] successive [next()] on the generator of a stream, with nothing
    else running in between: the frames it yields, where it is left
    suspended, and the state. *)
Fixpoint pull (n : nat) (session_id : string) (g : GenState) (st : State)
  : list Frame * GenState * State :=
  match n with
  | 0 => ([], g, st)
  | S n' =>
      let '(frame, g', st') := generate_next session_id g st in
      let '(frames, g'', st'') := pull n' session_id g' st' in
      (match frame with Some f => f :: frames | None => frames end, g'', st'')
  end.

(** The state in which the queue object [q] holds [items], with the
    history it had. *)
Definition with_pending (q : nat) (items : list Event) (st : State) : State :=
  mkState (message_queues st)
          (<[q := mkQueue items (queue_history q st)]> (heap st))
          (next_queue st) (calls st).

Definition is_final_frame (f : Frame) : bool :=
  match f with
  | FrData ev => is_final ev
  | FrKeepalive => false
  end.

Definition not_final_frame (f : Frame) : Prop := is_final_frame f = false.

(** What holds of a stream wherever its generator is suspended: a final
    frame, if there is one, is the last frame sent, and the generator ends
    right after it. *)
Definition stream_ok (S : Stream) : Prop :=
  match stream_gen S with
  | GenYieldedMessage _ m =>
      exists earlier, stream_frames S = earlier ++ [FrData m] /\
                      Forall not_final_frame earlier
  | GenDone =>
      exists earlier response,
        stream_frames S = earlier ++ [FrData (EvFinal response)] /\
        Forall not_final_frame earlier
  | _ => Forall not_final_frame (stream_frames S)
  end.

(** No queue object is registered under two session ids. *)
Definition registry_injective (st : State) : Prop :=
  forall sid1 sid2 q,
    message_queues st !! sid1 = Some q -> message_queues st !! sid2 = Some q ->
    sid1 = sid2.

(** A queue with two events waiting behind a final one. *)
Definition state_final_then_more : State :=
  mkState {["s" := 0]}
          {[0 := mkQueue [crafting; EvFinal "Hi there"; analyzing; routing_none]
                         [crafting; EvFinal "Hi there"; analyzing; routing_none]]}
          1 [].

Definition state_two_waiting : State :=
  mkState {["s" := 0]}
          {[0 := mkQueue [analyzing; routing_none] [analyzing; routing_none]]}
          1 [].

(** A generator that is about to take from the queue object [q]. *)
Definition draining (sid : string) (q : nat) (g : GenState) (st : State) : Prop :=
  generate_next sid g st = drain q st.

(** One submission under ["s"] run to its end, and a subscriber that
    relays everything and is asked for more. *)
Definition streamed_to_the_end : list Action :=
  [PostChat (hello "s")] ++ thread_steps 0 40 ++ [GetStream "s"]
  ++ stream_nexts 0 7.

(** Two sessions, each with a run and a subscriber. *)
Definition two_sessions : list Action :=
  [PostChat (hello "a"); GetStream "b"; StreamNext 0; PostChat (hello "b")]
  ++ thread_steps 0 5.

(** The graph state of the submission [weather_request]. *)
Definition weather_state : AgentState :=
  mkAgentState "Weather in Lagos?" PyNone None (Some "s2").

(** ** More vocabulary: how long a run takes *)

(** [ends_within n c p]: whatever its steps return, the program [p] ends
    after at most [n] atomic steps, at most [c] of them external calls. *)
Inductive ends_within {A : Type} : nat -> nat -> Prog A -> Prop :=
| ends_ret n c a : ends_within n c (Ret a)
| ends_raise n c e : ends_within n c (Raise e)
| ends_contains n c sid k :
    (forall r, ends_within n c (k r)) -> ends_within (S n) c (Contains sid k)
| ends_get_item n c sid k :
    (forall r, ends_within n c (k r)) -> ends_within (S n) c (GetItem sid k)
| ends_queue_put n c q ev k :
    ends_within n c k -> ends_within (S n) c (QueuePut q ev k)
| ends_oracle n c prompt k :
    (forall r, ends_within n c (k r)) ->
    ends_within (S n) (S c) (AskOracle prompt k)
| ends_http_post n c url body k :
    (forall r, ends_within n c (k r)) ->
    ends_within (S n) (S c) (HttpPost url body k)
| ends_composer n c messages k :
    (forall r, ends_within n c (k r)) ->
    ends_within (S n) (S c) (AskComposer messages k).

(** The program left of [p] after one atomic step in each of [states],
    the states the thread finds when its turns come: what the other
    threads and the streams did in between is in them. *)
Fixpoint step_through {A : Type} (w : World) (p : Prog A) (states : list State)
  : Prog A :=
  match states with
  | [] => p
  | st :: rest => step_through w (prog_step w p st).1 rest
  end.

(** * The tool server of [mcp_server_http.py]

    The Flask application the adapter [call_mcp_tool] talks to: the two
    tools [get_weather] and [web_search] and the endpoint [call_tool] that
    dispatches to them.  The weather service, the search service and the
    environment variable enter as an explicit [Backend]; every outbound
    request a call makes is logged beside its result. *)

(** ** Exceptions and subscripts *)

(** Exceptions raised in the tool server: those of [Exn], [KeyError] for
    an integer key, [IndexError] and [TypeError].  The last two carry
    [str(e)]. *)
Inductive SrvExn : Type :=
| Py (e : Exn)
| IntKeyError (key : Z)
| IndexError (msg : string)
| TypeError (msg : string).

(** [str(e)] *)
Definition srv_exn_str (w : World) (e : SrvExn) : string :=
  match e with
  | Py e => exn_str w e
  | IntKeyError key => pretty key
  | IndexError msg => msg
  | TypeError msg => msg
  end.

(** A value or the exception raised in its place. *)
Definition Srv (A : Type) : Type := SrvExn + A.

#[global] Instance srv_mret : MRet Srv := fun A a => inr a.
#[global] Instance srv_mbind : MBind Srv :=
  fun A B f r => match r with
                 | inl e => inl e
                 | inr a => f a
                 end.

Definition raised {A : Type} (r : Exn + A) : Srv A :=
  match r with
  | inl e => inl (Py e)
  | inr a => inr a
  end.

(** What the server does not define.
    - [SERPER_API_KEY]: [os.getenv("SERPER_API_KEY")];
    - [backend_get]: [requests.get(url, timeout=5)];
    - [backend_post]: [requests.post(url, json=payload, headers=headers,
      timeout=10)];
    - [type_error]: the text of the error Python raises for a subscript
      that a string or a dict does not support, whose wording depends on
      the interpreter. *)
Record Backend : Type := mkBackend {
  SERPER_API_KEY : option string;
  backend_get : string -> Exn + HttpResponse;
  backend_post : string -> list (string * string) -> PyVal -> Exn + HttpResponse;
  type_error : PyVal -> string
}.

(** Requests that leave the tool server. *)
Inductive Outbound : Type :=
| OutGet (url : string)
| OutPost (url : string) (headers : list (string * string)) (payload : PyVal).

Definition not_subscriptable (v : PyVal) : SrvExn :=
  TypeError ("'" +:+ py_type_name v +:+ "' object is not subscriptable").

(** [v[key]] for a string literal [key] *)
Definition py_item (b : Backend) (v : PyVal) (key : string) : Srv PyVal :=
  match v with
  | PyDict items =>
      match dict_get key items with
      | Some x => inr x
      | None => inl (Py (KeyError key))
      end
  | PyList _ => inl (TypeError "list indices must be integers or slices, not str")
  | PyStr _ => inl (TypeError (type_error b v))
  | _ => inl (not_subscriptable v)
  end.

(** A byte that continues a UTF-8 sequence. *)
Definition is_continuation (c : ascii) : bool :=
  Nat.leb 128 (nat_of_ascii c) && Nat.ltb (nat_of_ascii c) 192.

(** The string goes on inside a character. *)
Definition continues (s : string) : bool :=
  match s with
  | String c _ => is_continuation c
  | EmptyString => false
  end.

(** The characters of a Python string, each as a string. *)
Fixpoint code_points (s : string) : list string :=
  match s with
  | EmptyString => []
  | String c rest =>
      match code_points rest with
      | p :: ps =>
          if continues rest then String c p :: ps
          else String c EmptyString :: p :: ps
      | [] => [String c EmptyString]
      end
  end.

(** [v[0]] *)
Definition py_first (v : PyVal) : Srv PyVal :=
  match v with
  | PyList (x :: _) => inr x
  | PyList [] => inl (IndexError "list index out of range")
  | PyStr s =>
      match code_points s with
      | c :: _ => inr (PyStr c)
      | [] => inl (IndexError "string index out of range")
      end
  | PyDict _ => inl (IntKeyError 0)
  | _ => inl (not_subscriptable v)
  end.

(** [v[:5]], as the list of the items a [for] loop gets from it *)
Definition py_slice5 (b : Backend) (v : PyVal) : Srv (list PyVal) :=
  match v with
  | PyList items => inr (take 5 items)
  | PyStr s => inr (PyStr <$> take 5 (code_points s))
  | PyDict _ => inl (TypeError (type_error b v))
  | _ => inl (not_subscriptable v)
  end.

(** ** The requests the tools make *)

Definition serper_url : string := "https://google.serper.dev/search".

(** [bool(SERPER_API_KEY)] *)
Definition configured (b : Backend) : bool :=
  py_truthy (PyStr (default EmptyString (SERPER_API_KEY b))).

Definition wttr_url (w : World) (city : PyVal) : string :=
  "https://wttr.in/" +:+ py_str w city +:+ "?format=j1".

Definition serper_headers (b : Backend) : list (string * string) :=
  [("X-API-KEY", default EmptyString (SERPER_API_KEY b));
   ("Content-Type", "application/json")].

Definition serper_payload (query : PyVal) : PyVal :=
  PyDict [("q", query); ("num", PyInt 5)].

(** ** Tool 1: weather *)

(** The dict [weather_info] (lines 32-42), from the parsed reply of the
    weather service. *)
Definition weather_info (w : World) (b : Backend) (data : PyVal) : Srv PyVal :=
  conditions ← py_item b data "current_condition";
  current ← py_first conditions;
  areas ← py_item b data "nearest_area";
  location ← py_first areas;
  area_names ← py_item b location "areaName";
  area_name ← py_first area_names;
  area ← py_item b area_name "value";
  countries ← py_item b location "country";
  country0 ← py_first countries;
  country ← py_item b country0 "value";
  temp_C ← py_item b current "temp_C";
  temp_F ← py_item b current "temp_F";
  descriptions ← py_item b current "weatherDesc";
  description ← py_first descriptions;
  condition ← py_item b description "value";
  humidity ← py_item b current "humidity";
  windspeed ← py_item b current "windspeedKmph";
  feels_like ← py_item b current "FeelsLikeC";
  mret (PyDict
          [("location", PyStr (py_str w area +:+ ", " +:+ py_str w country));
           ("temperature",
            PyStr (py_str w temp_C +:+ "Â°C / " +:+ py_str w temp_F +:+ "Â°F"));
           ("condition", condition);
           ("humidity", PyStr (py_str w humidity +:+ "%"));
           ("wind", PyStr (py_str w windspeed +:+ " km/h"));
           ("feels_like", PyStr (py_str w feels_like +:+ "Â°C"))]).

Definition success (data : PyVal) : PyVal :=
  PyDict [("success", PyBool true); ("data", data)].

(** [get_weather] (lines 24-47): its result and the request it made. *)
Definition get_weather (w : World) (b : Backend) (city : PyVal)
  : PyVal * list Outbound :=
  let url := wttr_url w city in
  let attempt : Srv PyVal :=
    response ← raised (backend_get b url);
    if Z.eqb (status_code response) 200 then
      data ← raised (json response);
      info ← weather_info w b data;
      mret (success info)
    else
      mret (failure ("Could not fetch weather for " +:+ py_str w city)) in
  (match attempt with
   | inr result => result
   | inl e => failure ("Weather API error: " +:+ srv_exn_str w e)
   end,
   [OutGet url]).

(** ** Tool 2: web search *)

(** One turn of the loop of lines 68-73. *)
Definition search_result (item : PyVal) : Srv PyVal :=
  title ← raised (py_get item "title" PyNone);
  link ← raised (py_get item "link" PyNone);
  snippet ← raised (py_get item "snippet" PyNone);
  mret (PyDict [("title", title); ("link", link); ("snippet", snippet)]).

Fixpoint search_results (items : list PyVal) : Srv (list PyVal) :=
  match items with
  | [] => mret []
  | item :: rest =>
      result ← search_result item;
      results ← search_results rest;
      mret (result :: results)
  end.

(** The successful result of [web_search] (lines 65-84), from the parsed
    reply of the search service. *)
Definition search_data (b : Backend) (query data : PyVal) : Srv PyVal :=
  organic ← raised (py_get data "organic" (PyList []));
  top ← py_slice5 b organic;
  results ← search_results top;
  knowledge ← raised (py_get data "knowledgeGraph" (PyDict []));
  description ← (if py_truthy knowledge
                 then raised (py_get knowledge "description" (PyStr EmptyString))
                 else mret PyNone);
  mret (success (PyDict [("query", query);
                         ("results", PyList results);
                         ("knowledge_graph", description)])).

(** [web_search] (lines 50-89): its result and the request it made, if
    any. *)
Definition web_search (w : World) (b : Backend) (query : PyVal)
  : PyVal * list Outbound :=
  if negb (configured b) then
    (failure "SERPER_API_KEY not configured", [])
  else
    let headers := serper_headers b in
    let payload := serper_payload query in
    let attempt : Srv PyVal :=
      response ← raised (backend_post b serper_url headers payload);
      if Z.eqb (status_code response) 200 then
        data ← raised (json response);
        search_data b query data
      else
        mret (failure ("Serper API error: " +:+ pretty (status_code response))) in
    (match attempt with
     | inr result => result
     | inl e => failure ("Web search error: " +:+ srv_exn_str w e)
     end,
     [OutPost serper_url headers payload]).

(** ** The endpoint *)

(** [call_tool] (lines 115-137) on the parsed body [data] of the request:
    the body and the status of its reply and the outbound requests made,
    or the exception that escapes the handler. *)
Definition call_tool (w : World) (b : Backend) (data : PyVal)
  : Srv (PyVal * Z * list Outbound) :=
  tool_name ← raised (py_get data "name" PyNone);
  arguments ← raised (py_get data "arguments" (PyDict []));
  if py_eq_str tool_name "get_weather" then
    city ← raised (py_get arguments "city" PyNone);
    if negb (py_truthy city) then
      mret (failure "Missing 'city' parameter", 400%Z, [])
    else
      let '(result, log) := get_weather w b city in
      mret (result, 200%Z, log)
  else if py_eq_str tool_name "web_search" then
    query ← raised (py_get arguments "query" PyNone);
    if negb (py_truthy query) then
      mret (failure "Missing 'query' parameter", 400%Z, [])
    else
      let '(result, log) := web_search w b query in
      mret (result, 200%Z, log)
  else
    mret (failure ("Unknown tool: " +:+ py_str w tool_name), 404%Z, []).

(** ** What the client of the server receives *)

Fixpoint insert_item (item : string * PyVal) (items : list (string * PyVal))
  : list (string * PyVal) :=
  match items with
  | [] => [item]
  | item' :: rest =>
      if String.leb item.1 item'.1 then item :: items
      else item' :: insert_item item rest
  end.

(** [jsonify] writes the keys of every object in sorted order, which is
    the order [response.json()] then gives them in. *)
Fixpoint sort_keys (v : PyVal) : PyVal :=
  match v with
  | PyList items => PyList (map sort_keys items)
  | PyDict items =>
      PyDict ((fix sorted (l : list (string * PyVal)) : list (string * PyVal) :=
                 match l with
                 | [] => []
                 | (k, x) :: rest => insert_item (k, sort_keys x) (sorted rest)
                 end) items)
  | _ => v
  end.

(** The response Flask sends for an outcome of [call_tool]: the JSON body
    with its status, or the HTML page of status 500 when the handler
    raised, on which [response.json()] fails. *)
Definition flask_response (outcome : Srv (PyVal * Z * list Outbound))
  : HttpResponse :=
  match outcome with
  | inr (body, status, _) => mkHttpResponse status (inr (sort_keys body))
  | inl _ =>
      mkHttpResponse 500
        (inl (External "Expecting value: line 1 column 1 (char 0)"))
  end.

(** The adapter's request for [tool] with [arguments] is answered by this
    server. *)
Definition served_by (w : World) (b : Backend) (n : nat) (tool : string)
    (arguments : PyVal) : Prop :=
  http_post w n tools_call_url (tools_call_body tool arguments)
    = inr (flask_response (call_tool w b (tools_call_body tool arguments))).

(** ** Vocabulary of the server's properties *)

(** A tool result: an object whose [success] is [True] and that carries
    [data], or one whose [success] is [False] and that carries a string
    [error]. *)
Definition tool_result_shape (v : PyVal) : Prop :=
  (exists data, v = success data) \/ (exists error, v = failure error).

(** A search hit as [web_search] returns it. *)
Definition search_hit (v : PyVal) : Prop :=
  exists title link snippet,
    v = PyDict [("title", title); ("link", link); ("snippet", snippet)].

(** The [name] and the [arguments] that [call_tool] reads from a body. *)
Definition requested_tool (fields : list (string * PyVal)) : PyVal :=
  default PyNone (dict_get "name" fields).

Definition requested_arguments (fields : list (string * PyVal)) : PyVal :=
  default (PyDict []) (dict_get "arguments" fields).

(** ** Sample backends *)

(** The weather service answers 200 with a report for Lagos. *)
Definition wttr_lagos : PyVal :=
  PyDict
    [("current_condition",
      PyList [PyDict [("temp_C", PyStr "30"); ("temp_F", PyStr "86");
                      ("weatherDesc", PyList [PyDict [("value", PyStr "Sunny")]]);
                      ("humidity", PyStr "70"); ("windspeedKmph", PyStr "12");
                      ("FeelsLikeC", PyStr "34")]]);
     ("nearest_area",
      PyList [PyDict [("areaName", PyList [PyDict [("value", PyStr "Lagos")]]);
                      ("country", PyList [PyDict [("value", PyStr "Nigeria")]])]])].

(** The search service answers 200 with seven hits. *)
Definition serper_hit (n : Z) : PyVal :=
  PyDict [("title", PyStr "Lagos"); ("link", PyStr "https://example.org");
          ("snippet", PyStr "A city"); ("position", PyInt n)].

Definition serper_lagos : PyVal :=
  PyDict [("organic", PyList (serper_hit <$> [1; 2; 3; 4; 5; 6; 7]%Z))].

Definition backend_up : Backend :=
  mkBackend (Some "key")
            (fun _ => inr (mkHttpResponse 200 (inr wttr_lagos)))
            (fun _ _ _ => inr (mkHttpResponse 200 (inr serper_lagos)))
            (fun _ => "<type error>").

(** Both services are out of reach and no API key is set. *)
Definition backend_down : Backend :=
  mkBackend None
            (fun _ => inl (External "Connection timed out"))
            (fun _ _ _ => inl (External "Connection timed out"))
            (fun _ => "<type error>").

(** The oracle picks the weather tool; the tool server is the one above,
    over the backend [b]. *)
Definition world_served (decision : PyVal) (b : Backend) : World :=
  mkWorld (fun _ _ => inr decision)
          (fun _ _ body =>
             inr (flask_response
                    (call_tool world_chat b body)))
          (fun _ _ => inr "It is sunny in Lagos")
          (fun _ => "<repr>") (fun _ => "<json>").

(** The oracle picks the weather tool and names the city under the key
    [location]. *)
Definition decision_location : PyVal :=
  PyDict [("tool", PyStr "get_weather");
          ("parameters", PyDict [("location", PyStr "Lagos")]);
          ("reasoning", PyStr "asks for the weather")].

(** The argument [call_tool] requires for a tool. *)
Definition required_parameter (tool : string) : string :=
  if String.eqb tool "get_weather" then "city" else "query".

(** * Properties *)

(** ** Running a program to its end *)

Lemma exec_bind {A B : Type} (w : World) (p : Prog A) (f : A -> Prog B) (st : State) :
  exec w (p ≫= f) st =
  match exec w p st with
  | (inl e, st') => (inl e, st')
  | (inr a, st') => exec w (f a) st'
  end.
Proof.
  unfold mbind, prog_mbind. revert st.
  induction p as [a|e|sid k IH|sid k IH|q ev k IH|pr k IH|url body k IH|ms k IH];
    intros st; simpl; auto.
Qed.

Lemma exec_try_except {A : Type} (w : World) (p : Prog A) (h : Exn -> Prog A)
    (st : State) :
  exec w (try_except p h) st =
  match exec w p st with
  | (inl e, st') => exec w (h e) st'
  | (inr a, st') => (inr a, st')
  end.
Proof.
  revert st.
  induction p as [a|e|sid k IH|sid k IH|q ev k IH|pr k IH|url body k IH|ms k IH];
    intros st; simpl; auto.
Qed.

Lemma exec_lift {A : Type} (w : World) (r : Exn + A) (st : State) :
  exec w (lift r) st = (r, st).
Proof. destruct r; reflexivity. Qed.

(** Run alone, a guarded put of a ready event is [push]. *)
Lemma exec_put_if_live (w : World) (sid : string) (ev : Event) (st : State) :
  exec w (put_if_live sid (Ret ev)) st = (inr tt, push sid ev st).
Proof.
  unfold put_if_live, push, contains. simpl.
  unfold is_live, lookup_item.
  destruct (message_queues st !! sid) as [q|] eqn:E; simpl; [|done].
  unfold lookup_item. rewrite E. reflexivity.
Qed.

(** One atomic step does not change where a program ends. *)
Lemma exec_prog_step {A : Type} (w : World) (p : Prog A) (st : State) :
  exec w (prog_step w p st).1 (prog_step w p st).2 = exec w p st.
Proof. destruct p; reflexivity. Qed.


Lemma calls_push (sid : string) (ev : Event) (st : State) :
  calls (push sid ev st) = calls st.
Proof. unfold push. by destruct (message_queues st !! sid). Qed.

Lemma channel_log_call (sid : string) (c : ExtCall) (st : State) :
  channel sid (log_call c st) = channel sid st.
Proof. reflexivity. Qed.

Lemma channel_push (sid : string) (ev : Event) (st : State) (Q : Queue) :
  channel sid st = Some Q -> channel sid (push sid ev st) = Some (queue_put ev Q).
Proof.
  unfold channel, push. intros H.
  destruct (message_queues st !! sid) as [q|] eqn:E; simpl in *; [|done].
  rewrite E. simpl. rewrite lookup_alter_eq, H. reflexivity.
Qed.

Lemma push_not_live (sid : string) (ev : Event) (st : State) :
  message_queues st !! sid = None -> push sid ev st = st.
Proof. unfold push. by intros ->. Qed.

(** With no channel for the session, a guarded put does nothing and an
    unguarded one raises. *)
Lemma put_if_live_not_live (w : World) (sid : string) (ev : Event) (st : State) :
  message_queues st !! sid = None ->
  exec w (put_if_live sid (Ret ev)) st = (inr tt, st).
Proof. intros H. by rewrite exec_put_if_live, push_not_live. Qed.

Lemma put_item_not_live (w : World) (sid : string) (ev : Event) (st : State) :
  message_queues st !! sid = None ->
  exec w (put_item sid (Ret ev)) st = (inl (KeyError sid), st).
Proof.
  intros H. unfold put_item, get_item. simpl. unfold lookup_item.
  by rewrite H.
Qed.


(** ** The tool adapter *)

(** C7. Whatever the HTTP exchange does, [call_mcp_tool] returns a value
    and never raises: a transport failure or a timeout (an exception of
    [requests.post]) comes back as [{success: False, error: "Request
    failed: ..."}], and a status code other than 200 as [{success: False,
    error: "HTTP <code>"}]. *)
Theorem call_mcp_tool_absorbs_failures (w : World) (tool : string)
    (arguments : PyVal) (st : State) :
  let outcome := http_post w (length (calls st)) (MCP_SERVER_URL +:+ "/tools/call")
                   (PyDict [("name", PyStr tool); ("arguments", arguments)]) in
  let returned := (exec w (call_mcp_tool w tool arguments) st).1 in
  (exists v, returned = inr v) /\
  (forall e, outcome = inl e ->
     returned = inr (failure ("Request failed: " +:+ exn_str w e))) /\
  (forall response, outcome = inr response -> status_code response <> 200%Z ->
     returned = inr (failure ("HTTP " +:+ pretty (status_code response)))).
Proof.
  intros outcome returned. subst returned. unfold call_mcp_tool.
  rewrite exec_try_except, exec_bind. unfold requests_post. simpl.
  fold outcome. destruct outcome as [e|response]; simpl.
  - split; [eauto|]. split; [intros ? [= <-]; done | intros ? [=]].
  - destruct (Z.eqb_spec (status_code response) 200) as [E|E]; simpl.
    + rewrite exec_lift. split.
      * destruct (json response); simpl; eauto.
      * split; [intros ? [=] | intros ? [= <-] ?; done].
    + split; [eauto|]. split; [intros ? [=] | intros ? [= <-] _; done].
Qed.

(** ** The compose stage *)



(** ** The decide stage *)

Lemma route_request_none_state (w : World) (state : AgentState) (st : State)
    (items : list (string * PyVal)) :
  let sid := default "default" (session_id state) in
  let prompt := routing_prompt (msg state) in
  oracle w (length (calls st)) prompt = inr (PyDict items) ->
  dict_get "tool" items = Some (PyStr "none") ->
  exec w (route_request w state) st =
    (inr (mkAgentState (msg state) PyNone None (Some sid)),
     push sid (EvRouting (PyStr "none") (default PyNone (dict_get "reasoning" items)))
       (log_call (CallOracle prompt) (push sid analyzing st))).
Proof.
  intros sid prompt Horacle Htool. unfold route_request. fold sid.
  rewrite exec_bind, exec_put_if_live, exec_try_except, exec_bind.
  unfold ask_oracle. simpl exec at 1. rewrite calls_push. fold prompt.
  rewrite Horacle, exec_lift. cbv beta iota.
  simpl py_get. rewrite Htool.
  do 3 (rewrite exec_bind, exec_lift; cbv beta iota).
  rewrite exec_bind, exec_put_if_live. reflexivity.
Qed.

(** C4, as the code has it. When the oracle answers with the tool
    ["none"], [route_request] returns no tool result and its only external
    call is the one to the oracle, so the tool adapter is not called; it
    does put a routing event, naming the tool ["none"] and carrying the
    oracle's reasoning, right after the first status on the session's
    channel when there is one. *)
Theorem route_request_tool_none (w : World) (state : AgentState) (st : State)
    (items : list (string * PyVal)) :
  let sid := default "default" (session_id state) in
  let prompt := routing_prompt (msg state) in
  oracle w (length (calls st)) prompt = inr (PyDict items) ->
  dict_get "tool" items = Some (PyStr "none") ->
  exists st',
    exec w (route_request w state) st =
      (inr (mkAgentState (msg state) PyNone None (Some sid)), st') /\
    calls st' = calls st ++ [CallOracle prompt] /\
    filter is_tool_call (calls st') = filter is_tool_call (calls st) /\
    (message_queues st !! sid = None -> heap st' = heap st) /\
    (forall Q, channel sid st = Some Q ->
       channel_history sid st' =
         history Q ++ [analyzing;
                       EvRouting (PyStr "none")
                                 (default PyNone (dict_get "reasoning" items))]).
Proof.
  intros sid prompt Horacle Htool.
  eexists. split; [by apply route_request_none_state|].
  fold sid prompt.
  assert (Hcalls : forall ev1 ev2,
            calls (push sid ev2 (log_call (CallOracle prompt) (push sid ev1 st)))
            = calls st ++ [CallOracle prompt]).
  { intros. rewrite calls_push. simpl. by rewrite calls_push. }
  split; [apply Hcalls|]. split.
  - rewrite Hcalls, filter_app. simpl. by rewrite app_nil_r.
  - split.
    + intros Hnone. rewrite (push_not_live sid analyzing st Hnone).
      rewrite push_not_live; [done|]. exact Hnone.
    + intros Q HQ. unfold channel_history.
      erewrite channel_push; [|rewrite channel_log_call; by apply channel_push].
      simpl. by rewrite <- app_assoc.
Qed.

(** ** What a run writes to its channel *)

Section ChannelLogic.
Context (sid : string) (q : nat).

Lemma writes_mono (ok ok' : Event -> Prop) {A : Type}
    (post post' : A -> Prop) (epost epost' : Exn -> Prop) (p : Prog A) :
  (forall ev, ok ev -> ok' ev) ->
  (forall a, post a -> post' a) ->
  (forall e, epost e -> epost' e) ->
  writes sid q ok post epost p -> writes sid q ok' post' epost' p.
Proof.
  intros Hok Hpost Hepost H.
  induction H; constructor; auto.
Qed.

Lemma writes_bind (ok : Event -> Prop) {A B : Type}
    (post1 : A -> Prop) (post2 : B -> Prop) (epost : Exn -> Prop)
    (p : Prog A) (f : A -> Prog B) :
  writes sid q ok post1 epost p ->
  (forall a, post1 a -> writes sid q ok post2 epost (f a)) ->
  writes sid q ok post2 epost (p ≫= f).
Proof.
  intros H Hf. unfold mbind, prog_mbind.
  induction H; simpl; try (constructor; auto; fail). auto.
Qed.

Lemma writes_try_except (ok : Event -> Prop) {A : Type}
    (post : A -> Prop) (epost1 epost2 : Exn -> Prop)
    (p : Prog A) (h : Exn -> Prog A) :
  writes sid q ok post epost1 p ->
  (forall e, epost1 e -> writes sid q ok post epost2 (h e)) ->
  writes sid q ok post epost2 (try_except p h).
Proof.
  intros H Hh.
  induction H; simpl; try (constructor; auto; fail). auto.
Qed.

Lemma writes_lift (ok : Event -> Prop) {A : Type}
    (post : A -> Prop) (epost : Exn -> Prop) (r : Exn + A) :
  (forall a, r = inr a -> post a) ->
  (forall e, r = inl e -> epost e) ->
  writes sid q ok post epost (lift r).
Proof. destruct r; intros; constructor; auto. Qed.

Lemma writes_put_item (ok : Event -> Prop)
    (post : unit -> Prop) (epost : Exn -> Prop) (payload : Prog Event) :
  writes sid q ok ok epost payload -> post tt ->
  writes sid q ok post epost (put_item sid payload).
Proof.
  intros Hpayload Hpost. unfold put_item, get_item.
  apply writes_get_item. simpl.
  apply (writes_bind ok ok post epost payload); [done|].
  intros ev Hev. apply writes_queue_put; [done|]. by constructor.
Qed.

Lemma writes_put_if_live (ok : Event -> Prop)
    (post : unit -> Prop) (epost : Exn -> Prop) (payload : Prog Event) :
  writes sid q ok ok epost payload -> post tt ->
  writes sid q ok post epost (put_if_live sid payload).
Proof.
  intros Hpayload Hpost. unfold put_if_live, contains.
  apply writes_contains. simpl. by apply writes_put_item.
Qed.

Lemma finalizes_bind {A : Type} (post : A -> Prop)
    (p : Prog A) (f : A -> Prog unit) :
  writes sid q not_final post (fun _ => False) p ->
  (forall a, post a -> finalizes sid q (f a)) ->
  finalizes sid q (p ≫= f).
Proof.
  intros H Hf. unfold mbind, prog_mbind.
  induction H; simpl; try (constructor; auto; fail); [auto|done].
Qed.


(** *** The code of a run *)

Lemma writes_call_mcp_tool (ok : Event -> Prop) (w : World) (tool : string)
    (arguments : PyVal) :
  writes sid q ok (fun _ => True) (fun _ => False)
    (call_mcp_tool w tool arguments).
Proof.
  unfold call_mcp_tool.
  apply (writes_try_except ok _ (fun _ => True)); [|intros; by constructor].
  apply (writes_bind ok (fun _ => True)).
  - unfold requests_post. constructor. intros r. by apply writes_lift.
  - intros response _. destruct (Z.eqb _ _); [by apply writes_lift | by constructor].
Qed.

Lemma writes_status (r : Exn + PyVal) (text : PyVal -> string) :
  writes sid q not_final not_final (fun _ => True)
    (lift r ≫= fun v => Ret (EvStatus (text v))).
Proof.
  apply (writes_bind not_final (fun _ => True)); [by apply writes_lift|].
  intros v _. by constructor.
Qed.

Lemma writes_route_request (w : World) (state : AgentState) :
  default "default" (session_id state) = sid ->
  writes sid q not_final (fun out => session_id out = Some sid)
    (fun _ => False) (route_request w state).
Proof.
  intros Hsid. unfold route_request. rewrite Hsid.
  apply (writes_bind not_final (fun _ => True)).
  { apply writes_put_if_live; [by constructor | done]. }
  intros _ _.
  apply (writes_try_except not_final _ (fun _ => True));
    [|intros; by constructor].
  apply (writes_bind not_final (fun _ => True)).
  { unfold ask_oracle. constructor. intros r. by apply writes_lift. }
  intros decision _.
  do 3 (apply (writes_bind not_final (fun _ => True));
        [by apply writes_lift | intros ? _]).
  apply (writes_bind not_final (fun _ => True)).
  { apply writes_put_if_live; [by constructor | done]. }
  intros _ _.
  destruct (_ && _).
  { apply (writes_bind not_final (fun _ => True)).
    { apply writes_put_if_live; [|done].
      apply (writes_status _
               (fun v => "🌤️ Getting weather for " +:+ py_str w v +:+ "...")). }
    intros _ _. apply (writes_bind not_final (fun _ => True)).
    { eapply writes_mono; [| |  |apply writes_call_mcp_tool]; done. }
    intros; by constructor. }
  destruct (_ && _).
  { apply (writes_bind not_final (fun _ => True)).
    { apply writes_put_if_live; [|done].
      apply (writes_status _
               (fun v => "🔍 Searching for: " +:+ py_str w v +:+ "...")). }
    intros _ _. apply (writes_bind not_final (fun _ => True)).
    { eapply writes_mono; [| |  |apply writes_call_mcp_tool]; done. }
    intros; by constructor. }
  by constructor.
Qed.

Lemma writes_generate_response (w : World) (state : AgentState) :
  default "default" (session_id state) = sid ->
  writes sid q not_final
    (fun out => is_Some (result out) /\ session_id out = Some sid)
    (fun _ => False) (generate_response w state).
Proof.
  intros Hsid. unfold generate_response. rewrite Hsid.
  apply (writes_bind not_final (fun _ => True)).
  { apply writes_put_if_live; [by constructor | done]. }
  intros _ _.
  apply (writes_try_except not_final _ (fun _ => True));
    [|intros; constructor; eauto].
  assert (Hcomposer : forall messages tr,
    writes sid q not_final
      (fun out => is_Some (result out) /\ session_id out = Some sid)
      (fun _ => True)
      (ask_composer messages ≫= fun content =>
         Ret (mkAgentState (msg state) tr (Some content) (Some sid)))).
  { intros. apply (writes_bind not_final (fun _ => True)).
    - unfold ask_composer. constructor. intros r. by apply writes_lift.
    - intros; constructor; eauto. }
  destruct (tool_result state) eqn:Htr; try apply Hcomposer;
    (apply (writes_bind not_final (fun _ => True));
     [by apply writes_lift | intros success _]);
    (destruct (negb _);
     [ apply (writes_bind not_final (fun _ => True));
       [by apply writes_lift | intros; constructor; eauto]
     | apply (writes_bind not_final (fun _ => True));
       [by apply writes_lift | intros; apply Hcomposer] ]).
Qed.

Lemma writes_agent_graph_invoke (w : World) (user_message : string) :
  writes sid q not_final (fun out => is_Some (result out)) (fun _ => False)
    (agent_graph_invoke w (mkAgentState user_message PyNone None (Some sid))).
Proof.
  unfold agent_graph_invoke.
  eapply writes_bind; [by apply writes_route_request|].
  intros routed Hrouted. simpl in Hrouted.
  eapply writes_bind.
  { apply writes_generate_response. simpl. by rewrite Hrouted. }
  intros responded [[r Hr] _]. constructor. simpl. rewrite Hr. eauto.
Qed.

Lemma finalizes_process_message (w : World) (user_message : string) :
  finalizes sid q (process_message w user_message sid).
Proof.
  unfold process_message.
  eapply finalizes_bind; [apply writes_agent_graph_invoke|].
  intros final_state [response ->].
  unfold put_item, get_item. apply fin_get_item. simpl. constructor.
Qed.
End ChannelLogic.

(** *** Soundness for interleaved runs *)



Lemma run_inv_env (sid : string) (q : nat) (before : list Event)
    (p : Prog unit) (st st' : State) :
  undisturbed sid q st st' -> run_inv sid q before p st -> run_inv sid q before p st'.
Proof.
  intros [Hreg Hheap] (Hq & Q & HQ & Hphase).
  destruct (Hheap Q HQ) as (Q' & HQ' & Hhist).
  split; [by rewrite Hreg|]. exists Q'. split; [done|]. by rewrite Hhist.
Qed.

Lemma run_inv_step (sid : string) (q : nat) (before : list Event) (w : World)
    (p : Prog unit) (st : State) :
  finished p = false ->
  run_inv sid q before p st ->
  run_inv sid q before (prog_step w p st).1 (prog_step w p st).2.
Proof.
  intros Hrun (Hq & Q & HQ & [[Hfin (events & Hhist & Hevents)] | [-> _]]);
    [|done].
  destruct Hfin as [response|k Hk|k Hk|ev k Hev Hk|pr k Hk|url body k Hk|ms k Hk];
    unfold run_inv; simpl.
  - split; [done|]. exists (queue_put (EvFinal response) Q).
    rewrite lookup_alter_eq, HQ. split; [done|]. right. split; [done|].
    exists events, response. simpl. rewrite Hhist. by rewrite <- app_assoc.
  - unfold is_live. rewrite Hq. split; [done|]. exists Q. eauto 10.
  - unfold lookup_item. rewrite Hq. split; [done|]. exists Q. eauto 10.
  - split; [done|]. exists (queue_put ev Q).
    rewrite lookup_alter_eq, HQ. split; [done|]. left. split; [done|].
    exists (events ++ [ev]). simpl. rewrite Hhist, <- app_assoc.
    split; [done|]. apply Forall_app. split; [done|]. by constructor.
  - split; [done|]. exists Q. eauto 10.
  - split; [done|]. exists Q. eauto 10.
  - split; [done|]. exists Q. eauto 10.
Qed.

Lemma run_inv_run_under (sid : string) (q : nat) (before : list Event) (w : World)
    (p p' : Prog unit) (st st' : State) :
  run_under (undisturbed sid q) w p st p' st' ->
  run_inv sid q before p st -> run_inv sid q before p' st'.
Proof.
  induction 1 as [p st|p st st1 p' st' Henv _ IH|p st p' st' Hrun _ IH]; intros Hinv.
  - done.
  - apply IH. by eapply run_inv_env.
  - apply IH. by apply run_inv_step.
Qed.

Lemma run_inv_finished (sid : string) (q : nat) (before : list Event)
    (p : Prog unit) (st : State) :
  run_inv sid q before p st -> finished p = true ->
  p = Ret tt /\ message_queues st !! sid = Some q /\
  exists events response,
    queue_history q st = before ++ events ++ [EvFinal response] /\
    Forall not_final events.
Proof.
  intros (Hq & Q & HQ & [[Hfin _] | [-> (events & response & Hhist & Hev)]]) Hdone.
  - destruct Hfin; discriminate.
  - split; [done|]. split; [done|]. exists events, response.
    unfold queue_history. rewrite HQ. done.
Qed.

(** A run with nothing in between is one of the interleaved runs. *)
Lemma exec_run_under (R : State -> State -> Prop) (w : World) {A : Type}
    (p : Prog A) (st : State) :
  run_under R w p st (lift (exec w p st).1) (exec w p st).2.
Proof.
  revert st.
  induction p as [a|e|sid k IH|sid k IH|q ev k IH|pr k IH|url body k IH|ms k IH];
    intros st; try apply run_under_refl;
    (apply run_under_step; [done|]); simpl; auto.
Qed.

(** ** Submissions *)

(** What [chat] does with an accepted submission: a new queue object,
    empty, registered under the session key, and a thread for the run. *)
Lemma chat_accepts (w : World) (data : ChatData) (st : State) :
  valid_submission data = true ->
  chat w data st =
    (processing (session_key data),
     set_item (session_key data) (next_queue st) (new_queue st).2,
     Some (process_message w (default EmptyString (data_message data))
                           (session_key data))).
Proof.
  unfold valid_submission, chat. intros ->. reflexivity.
Qed.

Lemma chat_rejects (w : World) (data : ChatData) (st : State) :
  valid_submission data = false ->
  chat w data st = (no_message_provided, st, None).
Proof.
  unfold valid_submission, chat. intros ->. reflexivity.
Qed.

(** C1, as the code has it. An accepted submission starts a run on a
    new, empty queue object registered under its session key.  Run with
    nothing in between, that run ends normally and leaves the session's
    channel with a history of events that are not final followed by
    exactly one final event.  The same holds however the run is interleaved
    with other steps of the server, as long as these leave the session
    registered to that queue and put nothing on it: once the run has
    ended, it has ended normally and its single final event is the last
    event of the channel's history. *)
Theorem run_pushes_one_final_last (w : World) (data : ChatData) (st : State) :
  valid_submission data = true ->
  let sid := session_key data in
  exists t st1 q,
    chat w data st = (processing sid, st1, Some t) /\
    message_queues st1 !! sid = Some q /\
    queue_history q st1 = [] /\
    (exists st2,
       exec w t st1 = (inr tt, st2) /\
       final_once_and_last (channel_history sid st2)) /\
    (forall t' st2,
       run_under (undisturbed sid q) w t st1 t' st2 ->
       finished t' = true ->
       t' = Ret tt /\
       message_queues st2 !! sid = Some q /\
       final_once_and_last (queue_history q st2)).
Proof.
  intros Hvalid sid.
  rewrite (chat_accepts w data st Hvalid). fold sid.
  set (t := process_message w _ sid).
  set (st1 := set_item sid (next_queue st) (new_queue st).2).
  exists t, st1, (next_queue st).
  assert (Hreg : message_queues st1 !! sid = Some (next_queue st))
    by apply lookup_insert_eq.
  assert (Hheap : heap st1 !! next_queue st = Some empty_queue)
    by apply lookup_insert_eq.
  assert (Hinv : run_inv sid (next_queue st) [] t st1).
  { split; [done|]. exists empty_queue. split; [done|]. left.
    split; [apply finalizes_process_message|]. by exists []. }
  assert (Hany : forall t' st2,
    run_under (undisturbed sid (next_queue st)) w t st1 t' st2 ->
    finished t' = true ->
    t' = Ret tt /\ message_queues st2 !! sid = Some (next_queue st) /\
    final_once_and_last (queue_history (next_queue st) st2)).
  { intros t' st2 Hrun Hdone.
    destruct (run_inv_finished _ _ _ _ _ (run_inv_run_under _ _ _ _ _ _ _ _ Hrun Hinv) Hdone)
      as (-> & Hreg2 & events & response & Hhist & Hev).
    split; [done|]. split; [done|]. by exists events, response. }
  split; [done|]. split; [done|].
  split; [unfold queue_history; by rewrite Hheap|].
  split; [|done].
  pose proof (exec_run_under (undisturbed sid (next_queue st)) w t st1) as Hrun.
  destruct (exec w t st1) as [r st2] eqn:Hexec. simpl in Hrun.
  destruct (Hany _ _ Hrun) as (Hret & Hreg2 & Hlast).
  { by destruct r. }
  exists st2. destruct r as [e|[]]; [discriminate|]. split; [done|].
  unfold channel_history, channel. rewrite Hreg2. simpl.
  exact Hlast.
Qed.

(** Whatever the registry holds for the key, an accepted submission
    registers a queue object that was not in use before, and leaves the
    object registered until then as it was. *)
Lemma chat_registers_new_queue (w : World) (data : ChatData) (st : State) :
  valid_submission data = true ->
  let st' := (chat w data st).1.2 in
  message_queues st' !! session_key data = Some (next_queue st) /\
  channel (session_key data) st' = Some empty_queue /\
  (heap_wf st ->
   heap st !! next_queue st = None /\
   forall q, message_queues st !! session_key data = Some q ->
             q <> next_queue st /\ heap st' !! q = heap st !! q).
Proof.
  intros Hvalid. rewrite (chat_accepts w data st Hvalid). simpl.
  split; [apply lookup_insert_eq|]. split.
  - unfold channel. simpl. rewrite lookup_insert_eq. simpl.
    apply lookup_insert_eq.
  - intros [Hfree Hreg]. split; [by apply Hfree|].
    intros q Hq. destruct (Hreg _ _ Hq) as [Q HQ].
    assert (q <> next_queue st) by (intros ->; rewrite Hfree in HQ; done).
    split; [done|]. by rewrite lookup_insert_ne.
Qed.

(** ** A run whose channel is gone *)

(** A program never changes the registry. *)
Lemma exec_message_queues {A : Type} (w : World) (p : Prog A) (st : State) :
  message_queues (exec w p st).2 = message_queues st.
Proof.
  revert st.
  induction p as [a|e|sid k IH|sid k IH|q ev k IH|pr k IH|url body k IH|ms k IH];
    intros st; simpl; try done; by rewrite IH.
Qed.

Lemma route_request_returns (w : World) (state : AgentState) (st : State) :
  exists out, (exec w (route_request w state) st).1 = inr out.
Proof.
  unfold route_request.
  rewrite exec_bind, exec_put_if_live, exec_try_except.
  destruct (exec w _ _) as [[e|out] st']; simpl; eauto.
Qed.

Lemma generate_response_returns (w : World) (state : AgentState) (st : State) :
  exists out, (exec w (generate_response w state) st).1 = inr out /\
              is_Some (result out).
Proof.
  unfold generate_response.
  rewrite exec_bind, exec_put_if_live, exec_try_except.
  destruct (tool_result state) as [|b|z|s|l|items]; try (simpl; by eauto).
  - rewrite exec_bind. simpl.
    destruct (composer w _ _); simpl; eauto.
  - rewrite exec_bind. simpl.
    destruct (py_truthy _); simpl; [|by eauto].
    destruct (composer w _ _); simpl; eauto.
Qed.

Lemma agent_graph_invoke_returns (w : World) (input : AgentState) (st : State) :
  exists out, (exec w (agent_graph_invoke w input) st).1 = inr out /\
              is_Some (result out).
Proof.
  unfold agent_graph_invoke. rewrite exec_bind.
  destruct (route_request_returns w input st) as [routed Hrouted].
  destruct (exec w (route_request w input) st) as [r st1]. simpl in Hrouted.
  subst r. rewrite exec_bind.
  destruct (generate_response_returns w (graph_update input routed) st1)
    as (responded & Hresp & [r Hr]).
  destruct (exec w (generate_response w _) st1) as [r' st2]. simpl in Hresp.
  subst r'. simpl. eexists. split; [reflexivity|]. simpl. rewrite Hr. eauto.
Qed.

(** In every state in which the session has no channel, the run skips its
    status and routing puts and then dies on the final one. *)
Lemma process_message_without_channel (w : World) (user_message sid : string)
    (st : State) :
  message_queues st !! sid = None ->
  (exec w (process_message w user_message sid) st).1 = inl (KeyError sid).
Proof.
  intros Hnone. unfold process_message. rewrite exec_bind.
  pose proof (exec_message_queues w
                (agent_graph_invoke w
                   (mkAgentState user_message PyNone None (Some sid))) st) as Hreg.
  destruct (agent_graph_invoke_returns w
              (mkAgentState user_message PyNone None (Some sid)) st)
    as (out & Hout & [response Hresult]).
  destruct (exec w (agent_graph_invoke w _) st) as [r st1].
  simpl in Hout, Hreg. subst r. cbv beta iota.
  rewrite Hresult, put_item_not_live; [done|]. by rewrite Hreg.
Qed.

(** ** Runs that share a key *)



Lemma run_cons (w : World) (a : Action) (schedule : list Action) (s : System) :
  run w (a :: schedule) s = run w schedule (sys_step w a s).
Proof. reflexivity. Qed.






(** ** The stream generator *)

Lemma queue_get_preserves_wf (q : nat) (st st' : State) (message : Event) :
  heap_wf st -> queue_get q st = Some (message, st') -> heap_wf st'.
Proof.
  intros [Hfresh Hreg]. unfold queue_get.
  destruct (heap st !! q) as [[[|m rest] hist]|] eqn:HQ; try done.
  intros [= _ <-]. split; simpl.
  - intros q' Hq'. rewrite lookup_insert_ne; [by apply Hfresh|].
    intros <-. rewrite (Hfresh q Hq') in HQ. done.
  - intros sid q' Hsid. destruct (decide (q = q')) as [<-|Hne].
    + rewrite lookup_insert_eq. eauto.
    + rewrite lookup_insert_ne by done. eauto.
Qed.

Lemma new_queue_preserves_wf (sid : string) (st : State) :
  heap_wf st -> heap_wf (set_item sid (next_queue st) (new_queue st).2).
Proof.
  intros [Hfresh Hreg]. split; simpl.
  - intros q' Hq'. rewrite lookup_insert_ne by lia. apply Hfresh. lia.
  - intros sid' q' Hsid. destruct (decide (sid = sid')) as [<-|Hne].
    + rewrite lookup_insert_eq in Hsid. injection Hsid as <-.
      rewrite lookup_insert_eq. eauto.
    + rewrite lookup_insert_ne in Hsid by done.
      destruct (decide (next_queue st = q')) as [<-|Hq].
      * rewrite lookup_insert_eq. eauto.
      * rewrite lookup_insert_ne by done. eauto.
Qed.

Lemma del_item_preserves_wf (sid : string) (st : State) :
  heap_wf st -> heap_wf (del_item sid st).
Proof.
  intros [Hfresh Hreg]. split; simpl; [done|].
  intros sid' q' Hsid. destruct (decide (sid = sid')) as [<-|Hne].
  - by rewrite lookup_delete_eq in Hsid.
  - rewrite lookup_delete_ne in Hsid by done. eauto.
Qed.

Lemma drain_preserves_wf (q : nat) (st : State) :
  heap_wf st -> heap_wf (drain q st).2.
Proof.
  intros Hwf. unfold drain.
  destruct (queue_get q st) as [[message st']|] eqn:Hget; simpl; [|done].
  by eapply queue_get_preserves_wf.
Qed.

Lemma generate_next_preserves_wf (sid : string) (g : GenState) (st : State) :
  heap_wf st -> heap_wf (generate_next sid g st).2.
Proof.
  intros Hwf. destruct g as [|q message|q| |e]; simpl; try done.
  - destruct (is_live sid st) eqn:Hlive.
    + destruct (lookup_item sid st); [done|]. by apply drain_preserves_wf.
    + simpl. unfold lookup_item. simpl. rewrite lookup_insert_eq.
      apply drain_preserves_wf. by apply (new_queue_preserves_wf sid st).
  - destruct (is_final message); [|by apply drain_preserves_wf]. simpl.
    destruct (is_live sid st); [|done]. by apply del_item_preserves_wf.
  - by apply drain_preserves_wf.
Qed.

Lemma prog_step_preserves_wf {A : Type} (w : World) (p : Prog A) (st : State) :
  heap_wf st -> heap_wf (prog_step w p st).2.
Proof.
  intros [Hfresh Hreg]. destruct p; simpl; try done.
  split; simpl.
  - intros q' Hq'. rewrite lookup_alter. case_decide; [|by apply Hfresh].
    subst. by rewrite Hfresh.
  - intros sid q' Hsid. rewrite lookup_alter. case_decide; [|by eauto].
    subst. destruct (Hreg _ _ Hsid) as [Q ->]. simpl. eauto.
Qed.

Lemma sys_step_preserves_wf (w : World) (a : Action) (s : System) :
  heap_wf (sys_state s) -> heap_wf (sys_state (sys_step w a s)).
Proof.
  intros Hwf. destruct a as [data|sid|i|j]; simpl.
  - destruct (valid_submission data) eqn:Hvalid.
    + rewrite (chat_accepts w data _ Hvalid). simpl.
      by apply (new_queue_preserves_wf (session_key data)).
    + by rewrite (chat_rejects w data _ Hvalid).
  - done.
  - destruct (sys_threads s !! i) as [t|]; [|done].
    pose proof (prog_step_preserves_wf w t _ Hwf) as H.
    by destruct (prog_step w t (sys_state s)).
  - destruct (sys_streams s !! j) as [[sid g frames]|]; [|done].
    pose proof (generate_next_preserves_wf sid g _ Hwf) as H.
    by destruct (generate_next sid g (sys_state s)) as [[frame g'] st'].
Qed.

(** Every state the server can reach is well formed. *)
Lemma reachable_wf (w : World) (schedule : list Action) :
  heap_wf (sys_state (run w schedule initial_system)).
Proof.
  assert (H : forall s, heap_wf (sys_state s) ->
                        heap_wf (sys_state (run w schedule s))).
  { induction schedule as [|a rest IH]; intros s Hs; [done|].
    rewrite run_cons. apply IH. by apply sys_step_preserves_wf. }
  apply H. split; simpl; [intros; apply lookup_empty|].
  intros sid q. by rewrite lookup_empty.
Qed.



(** ** Rejected submissions *)






(** ** Concrete runs *)

Lemma final_once_and_last_count (events : list Event) :
  final_once_and_last events -> count_final events = 1.
Proof.
  intros (earlier & response & -> & Hearlier). unfold count_final.
  rewrite List.filter_app, length_app. simpl.
  assert (H : List.filter is_final earlier = []).
  { induction Hearlier as [|ev rest Hev _ IH]; [done|].
    simpl. unfold not_final in Hev. by rewrite Hev. }
  by rewrite H.
Qed.

(** C1, counterexample. Two accepted submissions under the key ["s"], each
    run to its end: the channel registered under ["s"] holds the first
    run's final event followed by all four events of the second run, so
    its history has two final events and the first is not last. *)
Lemma two_runs_final_not_last :
  let events :=
    channel_history "s" (sys_state (run world_chat two_runs_one_key initial_system)) in
  events = small_talk_events ++ small_talk_events /\
  count_final events = 2 /\
  ~ final_once_and_last events.
Proof.
  assert (H : channel_history "s"
                (sys_state (run world_chat two_runs_one_key initial_system))
              = small_talk_events ++ small_talk_events)
    by (vm_compute; reflexivity).
  cbv zeta. rewrite H. split; [done|]. split; [done|].
  intros Hlast. apply final_once_and_last_count in Hlast. discriminate.
Qed.

(** C1, witness: one submission on a fresh server. *)
Lemma run_pushes_one_final_last_witness :
  exists t st1 st2,
    chat world_chat (hello "s") initial_state = (processing "s", st1, Some t) /\
    exec world_chat t st1 = (inr tt, st2) /\
    final_once_and_last (channel_history "s" st2).
Proof.
  pose proof (run_pushes_one_final_last world_chat (hello "s") initial_state eq_refl)
    as H.
  cbv zeta in H.
  destruct H as (t & st1 & q & Hchat & _ & _ & (st2 & Hexec & Hlast) & _).
  exists t, st1, st2. auto.
Defined.

(** C2, on the code. With the first status of a run queued under ["s"], a
    second submission under ["s"] registers a new, empty queue object
    instead of the live one: the queued status stays behind in the old
    object.  A subscriber that was already draining the old object gets
    that status and then keepalives only, although both runs end and both
    final events sit in the new object.  The same happens to a subscriber
    that is there before the first submission: the channel it opened is
    replaced, and the run's four events never reach it. *)
Theorem chat_replaces_live_channel :
  let before := sys_state (run world_chat first_status_queued initial_system) in
  let after := sys_state (run world_chat resubmit_while_queued initial_system) in
  let streamed := run world_chat resubmit_while_streaming initial_system in
  let early := run world_chat stream_before_chat initial_system in
  (message_queues before !! "s" = Some 0 /\
   channel "s" before = Some (mkQueue [analyzing] [analyzing])) /\
  (message_queues after !! "s" = Some 1 /\
   channel "s" after = Some empty_queue /\
   queue_pending 0 after = [analyzing]) /\
  (frames_of 0 streamed =
     [FrData analyzing; FrKeepalive; FrKeepalive; FrKeepalive; FrKeepalive;
      FrKeepalive] /\
   forallb finished (sys_threads streamed) = true /\
   count_final (queue_pending 1 (sys_state streamed)) = 2) /\
  (frames_of 0 early = [FrKeepalive; FrKeepalive; FrKeepalive; FrKeepalive] /\
   sys_threads early = [Ret tt] /\
   message_queues (sys_state early) !! "s" = Some 1 /\
   queue_pending 1 (sys_state early) = small_talk_events).
Proof. vm_compute. repeat split; reflexivity. Qed.

(** C3, on the code. Two submissions under ["s"]; the first run ends and a
    subscriber relays its final event, which removes ["s"] from the
    registry.  The second run then finds no channel: its status and
    routing puts are dropped without an error, but its final put raises
    [KeyError] and the thread dies with it. *)
Theorem final_put_raises_without_channel :
  let s := run world_chat teardown_before_second_run initial_system in
  frames_of 0 s = map FrData small_talk_events /\
  message_queues (sys_state s) !! "s" = None /\
  sys_threads s !! 0 = Some (Ret tt) /\
  sys_threads s !! 1 = Some (Raise (KeyError "s")) /\
  queue_history 0 (sys_state s) = [] /\
  queue_history 1 (sys_state s) = small_talk_events.
Proof. vm_compute. repeat split; reflexivity. Qed.

(** C4, counterexample. The oracle answers with the tool ["none"] and the
    session's channel is live: [route_request] puts a routing event on it. *)
Lemma tool_none_emits_routing :
  let st := (chat world_chat (hello "s") initial_state).1.2 in
  let st' := (exec world_chat (route_request world_chat hello_state) st).2 in
  oracle world_chat (length (calls st)) (routing_prompt (msg hello_state))
    = inr decision_none /\
  dict_get "tool" [("tool", PyStr "none"); ("parameters", PyNone);
                   ("reasoning", PyStr "small talk")] = Some (PyStr "none") /\
  channel_history "s" st' = [analyzing; routing_none] /\
  existsb is_routing (channel_history "s" st') = true /\
  calls st' = [CallOracle (routing_prompt (msg hello_state))].
Proof. vm_compute. repeat split; reflexivity. Qed.

(** C4, witness: the same run, from the theorem. *)
Lemma route_request_tool_none_witness :
  exists st',
    exec world_chat (route_request world_chat hello_state) initial_state =
      (inr (mkAgentState "Hello! How are you?" PyNone None (Some "s")), st') /\
    filter is_tool_call (calls st') = [].
Proof.
  pose proof (route_request_tool_none world_chat hello_state initial_state
                [("tool", PyStr "none"); ("parameters", PyNone);
                 ("reasoning", PyStr "small talk")] eq_refl eq_refl) as H.
  cbv zeta in H. destruct H as (st' & Hexec & _ & Hcalls & _).
  exists st'. split; [exact Hexec | exact Hcalls].
Defined.



(** C7, witness: the tool server answers 500, or cannot be reached. *)
Lemma call_mcp_tool_absorbs_failures_witness :
  (exec world_http_500
     (call_mcp_tool world_http_500 "get_weather" (PyDict [("city", PyStr "Lagos")]))
     initial_state).1 = inr (failure "HTTP 500") /\
  (exec world_down
     (call_mcp_tool world_down "get_weather" (PyDict [("city", PyStr "Lagos")]))
     initial_state).1 = inr (failure "Request failed: Connection refused").
Proof.
  split.
  - pose proof (call_mcp_tool_absorbs_failures world_http_500 "get_weather"
                  (PyDict [("city", PyStr "Lagos")]) initial_state) as H.
    cbv zeta in H. destruct H as (_ & _ & H).
    apply (H (mkHttpResponse 500 (inl (External "no JSON body")))); [reflexivity|].
    simpl. lia.
  - pose proof (call_mcp_tool_absorbs_failures world_down "get_weather"
                  (PyDict [("city", PyStr "Lagos")]) initial_state) as H.
    cbv zeta in H. destruct H as (_ & H & _).
    apply (H (External "Connection refused")). reflexivity.
Defined.





(** * Further properties of the code *)

(** ** The tool adapter, in full *)

Lemma exec_call_mcp_tool (w : World) (tool : string) (arguments : PyVal)
    (st : State) :
  exec w (call_mcp_tool w tool arguments) st =
    (inr (adapter_result w
            (http_post w (length (calls st)) tools_call_url
               (tools_call_body tool arguments))),
     log_call (CallTool tools_call_url (tools_call_body tool arguments)) st).
Proof.
  unfold call_mcp_tool. rewrite exec_try_except, exec_bind.
  unfold requests_post. simpl. fold tools_call_url.
  fold (tools_call_body tool arguments).
  destruct (http_post w _ _ _) as [e|response]; simpl; [done|].
  destruct (Z.eqb _ _); simpl; [|done].
  rewrite exec_lift. by destruct (json response).
Qed.

(** X1: [call_mcp_tool] makes exactly one request, a POST to
    [/tools/call] with the body [{name, arguments}], and touches neither
    the registry nor any queue.  On status 200 it returns the parsed body
    as it is, whatever its shape; a body that does not parse gives
    [{success: False, error: "Request failed: ..."}]. *)
Theorem call_mcp_tool_passes_body_through (w : World) (tool : string)
    (arguments : PyVal) (st : State) (response : HttpResponse) :
  http_post w (length (calls st)) tools_call_url (tools_call_body tool arguments)
    = inr response ->
  status_code response = 200%Z ->
  let outcome := exec w (call_mcp_tool w tool arguments) st in
  outcome.2 = log_call (CallTool tools_call_url (tools_call_body tool arguments)) st /\
  (forall v, json response = inr v -> outcome.1 = inr v) /\
  (forall e, json response = inl e ->
     outcome.1 = inr (failure ("Request failed: " +:+ exn_str w e))).
Proof.
  intros Hpost Hstatus outcome. subst outcome.
  rewrite exec_call_mcp_tool, Hpost. simpl. rewrite Hstatus. simpl.
  split; [done|]. split; intros ? ->; done.
Qed.

(** ** The decide stage, case by case *)

Lemma exec_put_if_live_lift (w : World) (sid : string) (r : Exn + PyVal)
    (f : PyVal -> Event) (st : State) :
  exec w (put_if_live sid (lift r ≫= fun v => Ret (f v))) st =
  if is_live sid st then
    match r with
    | inl e => (inl e, st)
    | inr v => (inr tt, push sid (f v) st)
    end
  else (inr tt, st).
Proof.
  unfold put_if_live, contains, put_item, get_item, push, is_live, lookup_item.
  simpl. unfold is_live, lookup_item.
  destruct (message_queues st !! sid) as [q|] eqn:E; simpl; [|done].
  unfold lookup_item. rewrite E. by destruct r.
Qed.

Lemma is_live_log_call (sid : string) (c : ExtCall) (st : State) :
  is_live sid (log_call c st) = is_live sid st.
Proof. reflexivity. Qed.

Lemma is_live_push (sid sid' : string) (ev : Event) (st : State) :
  is_live sid (push sid' ev st) = is_live sid st.
Proof. unfold push, is_live. by destruct (message_queues st !! sid'). Qed.

Lemma exec_tool_branch (w : World) (state : AgentState) (tool field : string)
    (text : PyVal -> string) (params : PyVal) (st1 : State) :
  tool_status w tool params =
    match py_get params field PyNone with
    | inr v => inr (EvStatus (text v))
    | inl e => inl e
    end ->
  let sid := default "default" (session_id state) in
  match exec w
          (put_if_live sid
             (v ← lift (py_get params field PyNone); Ret (EvStatus (text v)));;
           result ← call_mcp_tool w tool params;
           Ret (mkAgentState (msg state) result None (Some sid))) st1
  with
  | (inl e, st') => (inr (no_tool_state state), st')
  | (inr a, st') => (inr a, st')
  end = route_tool_call w state tool params st1.
Proof.
  intros Hstatus sid. unfold route_tool_call. fold sid. rewrite Hstatus.
  rewrite exec_bind, exec_put_if_live_lift.
  destruct (is_live sid st1).
  - destruct (py_get params field PyNone) as [e|v]; [done|].
    by rewrite exec_bind, exec_call_mcp_tool.
  - by rewrite exec_bind, exec_call_mcp_tool.
Qed.

(** [route_request] once the oracle has answered with a JSON object. *)
Lemma exec_route_request_decided (w : World) (state : AgentState) (st : State)
    (items : list (string * PyVal)) :
  let sid := default "default" (session_id state) in
  let prompt := routing_prompt (msg state) in
  let tool := default PyNone (dict_get "tool" items) in
  let params := default PyNone (dict_get "parameters" items) in
  let reasoning := default PyNone (dict_get "reasoning" items) in
  let st1 := push sid (EvRouting tool reasoning)
               (log_call (CallOracle prompt) (push sid analyzing st)) in
  oracle w (length (calls st)) prompt = inr (PyDict items) ->
  exec w (route_request w state) st =
    if py_eq_str tool "get_weather" && py_truthy params then
      route_tool_call w state "get_weather" params st1
    else if py_eq_str tool "web_search" && py_truthy params then
      route_tool_call w state "web_search" params st1
    else (inr (no_tool_state state), st1).
Proof.
  intros sid prompt tool params reasoning st1 Horacle.
  unfold route_request. fold sid.
  rewrite exec_bind, exec_put_if_live, exec_try_except, exec_bind.
  unfold ask_oracle. simpl exec at 1. rewrite calls_push. fold prompt.
  rewrite Horacle, exec_lift. cbv beta iota. simpl py_get.
  do 3 (rewrite exec_bind, exec_lift; cbv beta iota).
  fold tool params reasoning.
  rewrite exec_bind, exec_put_if_live. fold st1. cbv beta iota.
  destruct (py_eq_str tool "get_weather" && py_truthy params).
  { apply (exec_tool_branch w state "get_weather" "city"
             (fun v => "🌤️ Getting weather for " +:+ py_str w v +:+ "...")).
    unfold tool_status. simpl. by destruct (py_get params "city" PyNone). }
  destruct (py_eq_str tool "web_search" && py_truthy params).
  { apply (exec_tool_branch w state "web_search" "query"
             (fun v => "🔍 Searching for: " +:+ py_str w v +:+ "...")).
    unfold tool_status. simpl. by destruct (py_get params "query" PyNone). }
  reflexivity.
Qed.

(** [route_request] when the oracle gives nothing usable. *)
Lemma exec_route_request_undecided (w : World) (state : AgentState) (st : State) :
  let sid := default "default" (session_id state) in
  let prompt := routing_prompt (msg state) in
  match oracle w (length (calls st)) prompt with
  | inr (PyDict _) => False
  | _ => True
  end ->
  exec w (route_request w state) st =
    (inr (no_tool_state state),
     log_call (CallOracle prompt) (push sid analyzing st)).
Proof.
  intros sid prompt Horacle. unfold route_request. fold sid.
  rewrite exec_bind, exec_put_if_live, exec_try_except, exec_bind.
  unfold ask_oracle. simpl exec at 1. rewrite calls_push. fold prompt.
  destruct (oracle w (length (calls st)) prompt) as [e|[]]; try done.
Qed.

Lemma calls_route_st1 (sid : string) (ev1 ev2 : Event) (c : ExtCall) (st : State) :
  calls (push sid ev2 (log_call c (push sid ev1 st))) = calls st ++ [c].
Proof. rewrite calls_push. simpl. by rewrite calls_push. Qed.


(** X2: when the oracle call raises, or its reply is not a JSON object,
    [route_request] returns without a tool result: its only external call
    is the one to the oracle, and the only event it puts is the first
    status, so no routing event is sent. *)
Theorem route_request_degrades_without_decision (w : World) (state : AgentState)
    (st : State) :
  let sid := default "default" (session_id state) in
  let prompt := routing_prompt (msg state) in
  (exists e, oracle w (length (calls st)) prompt = inl e) \/
  (exists v, oracle w (length (calls st)) prompt = inr v /\ is_dict v = false) ->
  exec w (route_request w state) st =
    (inr (mkAgentState (msg state) PyNone None (Some sid)),
     log_call (CallOracle prompt) (push sid analyzing st)).
Proof.
  intros sid prompt H. apply exec_route_request_undecided. fold prompt.
  destruct H as [[e ->] | (v & -> & Hv)]; [done|]. by destruct v.
Qed.


(** X4: when the oracle's reply gives no parameters, or gives them as
    [null], [{}], an empty string or zero, [route_request] calls no tool,
    whichever tool the reply names: it returns without a tool result
    after the oracle call, having sent the first status and the routing
    event. *)
Theorem route_request_skips_tool_without_parameters (w : World)
    (state : AgentState) (st : State) (items : list (string * PyVal)) :
  let sid := default "default" (session_id state) in
  let prompt := routing_prompt (msg state) in
  oracle w (length (calls st)) prompt = inr (PyDict items) ->
  py_truthy (default PyNone (dict_get "parameters" items)) = false ->
  exec w (route_request w state) st =
    (inr (mkAgentState (msg state) PyNone None (Some sid)),
     push sid (EvRouting (default PyNone (dict_get "tool" items))
                         (default PyNone (dict_get "reasoning" items)))
       (log_call (CallOracle prompt) (push sid analyzing st))).
Proof.
  intros sid prompt Horacle Hfalsy.
  rewrite (exec_route_request_decided w state st items Horacle).
  rewrite Hfalsy, !andb_false_r. reflexivity.
Qed.

(** X5: when the oracle names a tool and gives truthy parameters that are
    not a JSON object (a bare string, say), what [route_request] does
    depends on the session's channel.  With a live channel, building the
    tool's status fails on [params.get], the handler takes over and no
    tool is called; with no channel the status is never built and the
    adapter is called with the parameters as they are. *)
Theorem route_request_bare_parameters (w : World) (state : AgentState)
    (st : State) (items : list (string * PyVal)) (tool : string)
    (params : PyVal) :
  let sid := default "default" (session_id state) in
  let prompt := routing_prompt (msg state) in
  let outcome := exec w (route_request w state) st in
  oracle w (length (calls st)) prompt = inr (PyDict items) ->
  dict_get "tool" items = Some (PyStr tool) ->
  known_tool tool ->
  dict_get "parameters" items = Some params ->
  py_truthy params = true ->
  is_dict params = false ->
  (is_live sid st = true ->
     outcome.1 = inr (mkAgentState (msg state) PyNone None (Some sid)) /\
     calls outcome.2 = calls st ++ [CallOracle prompt]) /\
  (is_live sid st = false ->
     outcome.1 =
       inr (mkAgentState (msg state)
              (adapter_result w
                 (http_post w (S (length (calls st))) tools_call_url
                    (tools_call_body tool params)))
              None (Some sid)) /\
     calls outcome.2 =
       calls st ++ [CallOracle prompt;
                    CallTool tools_call_url (tools_call_body tool params)]).
Proof.
  intros sid prompt outcome Horacle Htool Hknown Hparams Htruthy Hbare.
  subst outcome.
  rewrite (exec_route_request_decided w state st items Horacle).
  rewrite Htool, Hparams. simpl default. fold sid prompt. rewrite Htruthy.
  set (reasoning := default PyNone (dict_get "reasoning" items)).
  set (st1 := push sid (EvRouting (PyStr tool) reasoning)
                (log_call (CallOracle prompt) (push sid analyzing st))).
  assert (Hcalls1 : calls st1 = calls st ++ [CallOracle prompt])
    by apply calls_route_st1.
  assert (Hlen : length (calls st1) = S (length (calls st))).
  { rewrite Hcalls1, length_app. simpl. lia. }
  assert (Hlive1 : is_live sid st1 = is_live sid st).
  { unfold st1. by rewrite is_live_push, is_live_log_call, is_live_push. }
  assert (Hstatus : exists e, tool_status w tool params = inl e).
  { unfold tool_status.
    destruct (String.eqb tool "get_weather"); destruct params; simpl; eauto;
      discriminate. }
  destruct Hstatus as [e He].
  assert (Hcall : route_tool_call w state tool params st1 =
            if is_live sid st then (inr (no_tool_state state), st1)
            else (inr (mkAgentState (msg state)
                         (adapter_result w
                            (http_post w (S (length (calls st))) tools_call_url
                               (tools_call_body tool params)))
                         None (Some sid)),
                  log_call (CallTool tools_call_url (tools_call_body tool params))
                    st1)).
  { unfold route_tool_call. fold sid. rewrite He, Hlive1, Hlen. done. }
  assert (Hgoal : (if py_eq_str (PyStr tool) "get_weather" && true
                   then route_tool_call w state "get_weather" params st1
                   else if py_eq_str (PyStr tool) "web_search" && true
                        then route_tool_call w state "web_search" params st1
                        else (inr (no_tool_state state), st1))
                  = route_tool_call w state tool params st1).
  { destruct Hknown as [-> | ->]; reflexivity. }
  rewrite Hgoal, Hcall. split; intros ->; simpl.
  - done.
  - split; [done|]. by rewrite Hcalls1, <- app_assoc.
Qed.


(** ** The compose stage, case by case *)

Lemma exec_generate_response_failed (w : World) (state : AgentState) (st : State)
    (items : list (string * PyVal)) :
  let sid := default "default" (session_id state) in
  tool_result state = PyDict items ->
  py_truthy (default PyNone (dict_get "success" items)) = false ->
  exec w (generate_response w state) st =
    (inr (mkAgentState (msg state) (PyDict items)
            (Some ("I encountered an error: " +:+
                   py_str w (default (PyStr "Unknown error")
                                     (dict_get "error" items))))
            (Some sid)),
     push sid crafting st).
Proof.
  intros sid Htr Hfalsy. unfold generate_response. fold sid.
  rewrite exec_bind, exec_put_if_live, exec_try_except, Htr.
  rewrite exec_bind. simpl py_get. rewrite exec_lift. cbv beta iota.
  rewrite Hfalsy. simpl. reflexivity.
Qed.

(** X7: a tool result whose [success] is missing, [null], [False], zero
    or empty counts as failed, even when it carries data: the stage
    returns ["I encountered an error: "] followed by the [error] value,
    or by ["Unknown error"] when there is none, and calls nothing. *)
Theorem generate_response_failure_without_success (w : World)
    (state : AgentState) (st : State) (items : list (string * PyVal)) :
  let sid := default "default" (session_id state) in
  tool_result state = PyDict items ->
  py_truthy (default PyNone (dict_get "success" items)) = false ->
  exists st',
    exec w (generate_response w state) st =
      (inr (mkAgentState (msg state) (PyDict items)
              (Some ("I encountered an error: " +:+
                     py_str w (default (PyStr "Unknown error")
                                       (dict_get "error" items))))
              (Some sid)), st') /\
    calls st' = calls st /\
    (dict_get "error" items = None ->
     py_str w (default (PyStr "Unknown error") (dict_get "error" items))
       = "Unknown error").
Proof.
  intros sid Htr Hfalsy. eexists. split.
  - by apply exec_generate_response_failed.
  - split; [apply calls_push|]. by intros ->.
Qed.

(** X8: a tool result that is neither [None] nor a JSON object (the tool
    server answered 200 with an array, a string or a number) makes
    [tool_result.get] fail; the handler turns that into the result
    ["Error generating response: '<type>' object has no attribute 'get'"],
    and the composer is not called. *)
Theorem generate_response_rejects_non_object (w : World) (state : AgentState)
    (st : State) :
  let sid := default "default" (session_id state) in
  tool_result state <> PyNone ->
  is_dict (tool_result state) = false ->
  exec w (generate_response w state) st =
    (inr (mkAgentState (msg state) (tool_result state)
            (Some ("Error generating response: '" +:+
                   py_type_name (tool_result state) +:+
                   "' object has no attribute 'get'"))
            (Some sid)),
     push sid crafting st).
Proof.
  intros sid Hnone Hdict. unfold generate_response. fold sid.
  rewrite exec_bind, exec_put_if_live, exec_try_except.
  destruct (tool_result state); try done.
Qed.


(** ** One request, from submission to final event *)

Lemma exec_put_item_live (w : World) (sid : string) (ev : Event) (st : State) :
  is_live sid st = true ->
  exec w (put_item sid (Ret ev)) st = (inr tt, push sid ev st).
Proof.
  unfold put_item, get_item, push, is_live. simpl. unfold lookup_item.
  by destruct (message_queues st !! sid).
Qed.

Lemma accepted_live (w : World) (data : ChatData) (st : State) :
  valid_submission data = true ->
  is_live (session_key data) (accepted w data st) = true /\
  channel (session_key data) (accepted w data st) = Some empty_queue /\
  calls (accepted w data st) = calls st.
Proof.
  intros Hvalid.
  destruct (chat_registers_new_queue w data st Hvalid) as (Hreg & Hch & _).
  unfold accepted, is_live. rewrite Hreg. repeat split; [done|].
  by rewrite chat_accepts.
Qed.

(** The run of an accepted submission, from the outcomes of its two
    stages run one after the other. *)
Lemma exec_started_run (w : World) (data : ChatData) (st : State)
    (routed responded : AgentState) (st_r st_g : State) (r : string) :
  let input := mkAgentState (default EmptyString (data_message data)) PyNone None
                 (Some (session_key data)) in
  valid_submission data = true ->
  exec w (route_request w input) (accepted w data st) = (inr routed, st_r) ->
  exec w (generate_response w (graph_update input routed)) st_r
    = (inr responded, st_g) ->
  result responded = Some r ->
  exec w (started_run w data) (accepted w data st)
    = (inr tt, push (session_key data) (EvFinal r) st_g).
Proof.
  intros input Hvalid Hroute Hgen Hres.
  unfold started_run, process_message. fold input.
  rewrite exec_bind. unfold agent_graph_invoke.
  rewrite exec_bind, Hroute. cbv beta iota.
  rewrite exec_bind, Hgen. cbv beta iota.
  change (exec w (Ret ?a) ?s) with (@inr Exn _ a, s). cbv beta iota.
  assert (Hr : result (graph_update (graph_update input routed) responded) = Some r).
  { unfold graph_update at 1. simpl. by rewrite Hres. }
  rewrite Hr. apply exec_put_item_live.
  pose proof (exec_message_queues w (route_request w input) (accepted w data st)) as H1.
  pose proof (exec_message_queues w
    (generate_response w (graph_update input routed)) st_r) as H2.
  rewrite Hroute in H1. rewrite Hgen in H2. simpl in H1, H2.
  unfold is_live. rewrite H2, H1.
  by destruct (accepted_live w data st Hvalid) as [Hlive _].
Qed.

Lemma route_tool_call_object (w : World) (state : AgentState) (tool : string)
    (params : list (string * PyVal)) (st1 : State) :
  let sid := default "default" (session_id state) in
  exists ev,
    tool_status w tool (PyDict params) = inr ev /\
    route_tool_call w state tool (PyDict params) st1 =
      (inr (mkAgentState (msg state)
              (adapter_result w
                 (http_post w (length (calls st1)) tools_call_url
                    (tools_call_body tool (PyDict params))))
              None (Some sid)),
       log_call (CallTool tools_call_url (tools_call_body tool (PyDict params)))
         (push sid ev st1)).
Proof.
  intros sid.
  assert (Hstatus : exists ev, tool_status w tool (PyDict params) = inr ev).
  { unfold tool_status. destruct (String.eqb tool "get_weather"); simpl; eauto. }
  destruct Hstatus as [ev Hev]. exists ev. split; [done|].
  unfold route_tool_call. fold sid. rewrite Hev.
  destruct (is_live sid st1) eqn:Hlive.
  - by rewrite calls_push.
  - do 2 f_equal. unfold push, is_live in *.
    by destruct (message_queues st1 !! sid).
Qed.

(** [route_request] when the oracle names a known tool with its
    parameters in an object. *)
Lemma exec_route_request_selected (w : World) (state : AgentState) (st : State)
    (items params : list (string * PyVal)) (tool : string) :
  let sid := default "default" (session_id state) in
  let prompt := routing_prompt (msg state) in
  let reasoning := default PyNone (dict_get "reasoning" items) in
  oracle w (length (calls st)) prompt = inr (PyDict items) ->
  dict_get "tool" items = Some (PyStr tool) ->
  known_tool tool ->
  dict_get "parameters" items = Some (PyDict params) ->
  params <> [] ->
  exists ev,
    tool_status w tool (PyDict params) = inr ev /\
    exec w (route_request w state) st =
      (inr (mkAgentState (msg state)
              (adapter_result w
                 (http_post w (S (length (calls st))) tools_call_url
                    (tools_call_body tool (PyDict params))))
              None (Some sid)),
       log_call (CallTool tools_call_url (tools_call_body tool (PyDict params)))
         (push sid ev
            (push sid (EvRouting (PyStr tool) reasoning)
               (log_call (CallOracle prompt) (push sid analyzing st))))).
Proof.
  intros sid prompt reasoning Horacle Htool Hknown Hparams Hne.
  rewrite (exec_route_request_decided w state st items Horacle).
  rewrite Htool, Hparams. simpl default. fold sid prompt reasoning.
  set (st1 := push sid (EvRouting (PyStr tool) reasoning)
                (log_call (CallOracle prompt) (push sid analyzing st))).
  assert (Htruthy : py_truthy (PyDict params) = true) by (by destruct params).
  assert (Hlen : length (calls st1) = S (length (calls st))).
  { unfold st1. rewrite calls_route_st1, length_app. simpl. lia. }
  destruct (route_tool_call_object w state tool params st1) as (ev & Hev & Hcall).
  fold sid in Hcall. rewrite Hlen in Hcall.
  exists ev. split; [done|].
  rewrite Htruthy. destruct Hknown as [-> | ->]; simpl; exact Hcall.
Qed.

Lemma adapter_result_transport_error (w : World) (outcome : Exn + HttpResponse)
    (err : string) :
  transport_error w outcome = Some err -> adapter_result w outcome = failure err.
Proof.
  unfold transport_error, adapter_result.
  destruct outcome as [e|response]; [by intros [= <-]|].
  destruct (Z.eqb _ _); [|by intros [= <-]].
  destruct (json response); [by intros [= <-]|done].
Qed.

Ltac channel_chain Hacc :=
  repeat first [ rewrite channel_log_call | eapply channel_push ]; exact Hacc.

(** The run of an accepted submission for which the oracle picks a tool
    and the adapter returns an object without a truthy [success]. *)
Lemma started_run_tool_failure (w : World) (data : ChatData) (st : State)
    (items params report : list (string * PyVal)) (tool : string) :
  let m := default EmptyString (data_message data) in
  let sid := session_key data in
  let call := CallTool tools_call_url (tools_call_body tool (PyDict params)) in
  valid_submission data = true ->
  oracle w (length (calls st)) (routing_prompt m) = inr (PyDict items) ->
  dict_get "tool" items = Some (PyStr tool) ->
  known_tool tool ->
  dict_get "parameters" items = Some (PyDict params) ->
  params <> [] ->
  adapter_result w
    (http_post w (S (length (calls st))) tools_call_url
       (tools_call_body tool (PyDict params))) = PyDict report ->
  py_truthy (default PyNone (dict_get "success" report)) = false ->
  exists st' ev,
    exec w (started_run w data) (accepted w data st) = (inr tt, st') /\
    tool_status w tool (PyDict params) = inr ev /\
    channel_history sid st' =
      [analyzing;
       EvRouting (PyStr tool) (default PyNone (dict_get "reasoning" items));
       ev; crafting;
       EvFinal ("I encountered an error: " +:+
                py_str w (default (PyStr "Unknown error")
                                  (dict_get "error" report)))] /\
    calls st' = calls st ++ [CallOracle (routing_prompt m); call].
Proof.
  intros m sid call Hvalid Horacle Htool Hknown Hparams Hne Hresult Hfalsy.
  destruct (accepted_live w data st Hvalid) as (Hlive & Hch & Hcalls).
  set (input := mkAgentState m PyNone None (Some sid)).
  destruct (exec_route_request_selected w input (accepted w data st)
              items params tool) as (ev & Hev & Hroute); try done.
  { by rewrite Hcalls. }
  rewrite Hcalls, Hresult in Hroute.
  change (msg input) with m in Hroute.
  change (default "default" (session_id input)) with sid in Hroute.
  fold call in Hroute.
  set (st_r := log_call call _) in Hroute.
  pose proof (exec_generate_response_failed w
                (graph_update input (mkAgentState m (PyDict report) None (Some sid)))
                st_r report eq_refl Hfalsy) as Hgen.
  eexists _, ev. split; [|split; [done|]].
  - eapply exec_started_run; [done|exact Hroute|exact Hgen|reflexivity].
  - simpl. fold sid. split.
    + unfold channel_history.
      erewrite channel_push; [|erewrite channel_push; [done|channel_chain Hch]].
      done.
    + rewrite !calls_push. simpl. rewrite !calls_push. simpl.
      rewrite calls_push, Hcalls, <- app_assoc. done.
Qed.

(** X10: a submission whose run is not interleaved with others, for which
    the oracle picks a tool, and whose exchange with the tool server fails
    (the request raises, the status is not 200, or the body of a 200 does
    not parse): the run ends normally, the composer is never called, and
    the session's channel holds the three progress events, the crafting
    status and one final event reading ["I encountered an error: "]
    followed by ["HTTP <status>"] or ["Request failed: <reason>"]. *)
Theorem request_reports_tool_transport_failure (w : World) (data : ChatData)
    (st : State) (items params : list (string * PyVal)) (tool err : string) :
  let m := default EmptyString (data_message data) in
  let sid := session_key data in
  let call := CallTool tools_call_url (tools_call_body tool (PyDict params)) in
  valid_submission data = true ->
  oracle w (length (calls st)) (routing_prompt m) = inr (PyDict items) ->
  dict_get "tool" items = Some (PyStr tool) ->
  known_tool tool ->
  dict_get "parameters" items = Some (PyDict params) ->
  params <> [] ->
  transport_error w
    (http_post w (S (length (calls st))) tools_call_url
       (tools_call_body tool (PyDict params))) = Some err ->
  exists st' ev,
    exec w (started_run w data) (accepted w data st) = (inr tt, st') /\
    tool_status w tool (PyDict params) = inr ev /\
    channel_history sid st' =
      [analyzing;
       EvRouting (PyStr tool) (default PyNone (dict_get "reasoning" items));
       ev; crafting; EvFinal ("I encountered an error: " +:+ err)] /\
    calls st' = calls st ++ [CallOracle (routing_prompt m); call].
Proof.
  intros m sid call Hvalid Horacle Htool Hknown Hparams Hne Herr.
  apply (started_run_tool_failure w data st items params
           [("success", PyBool false); ("error", PyStr err)] tool); try done.
  by apply adapter_result_transport_error.
Qed.

(** X11: a submission whose run is not interleaved with others while the
    oracle is out of reach (its call raises, or its reply is not a JSON
    object): the request is still answered.  The composer is asked with
    the message alone, no routing event is sent, and the final event
    carries the composer's reply, or ["Error generating response: ..."]
    if the composer fails too. *)
Theorem request_survives_oracle_outage (w : World) (data : ChatData)
    (st : State) :
  let m := default EmptyString (data_message data) in
  let sid := session_key data in
  let messages := [("system", "You are a helpful assistant."); ("user", m)] in
  valid_submission data = true ->
  (exists e, oracle w (length (calls st)) (routing_prompt m) = inl e) \/
  (exists v, oracle w (length (calls st)) (routing_prompt m) = inr v /\
             is_dict v = false) ->
  exists st',
    exec w (started_run w data) (accepted w data st) = (inr tt, st') /\
    channel_history sid st' =
      [analyzing; crafting;
       EvFinal (composed_result w (composer w (S (length (calls st))) messages))] /\
    calls st' = calls st ++ [CallOracle (routing_prompt m); CallComposer messages].
Proof.
  intros m sid messages Hvalid Horacle.
  destruct (accepted_live w data st Hvalid) as (Hlive & Hch & Hcalls).
  set (input := mkAgentState m PyNone None (Some sid)).
  assert (Hroute : exec w (route_request w input) (accepted w data st) =
            (inr (no_tool_state input),
             log_call (CallOracle (routing_prompt m))
               (push sid analyzing (accepted w data st)))).
  { apply exec_route_request_undecided. rewrite Hcalls. simpl.
    destruct Horacle as [[e ->] | (v & -> & Hv)]; [done|]. by destruct v. }
  set (st_r := log_call (CallOracle (routing_prompt m))
                 (push sid analyzing (accepted w data st))) in *.
  assert (Hlen : length (calls st_r) = S (length (calls st))).
  { unfold st_r. simpl. rewrite calls_push, Hcalls, length_app. simpl. lia. }
  assert (Hgen : exec w (generate_response w (graph_update input (no_tool_state input)))
                   st_r =
            (inr (mkAgentState m PyNone
                    (Some (composed_result w
                             (composer w (S (length (calls st))) messages)))
                    (Some sid)),
             log_call (CallComposer messages) (push sid crafting st_r))).
  { unfold generate_response. simpl default.
    rewrite exec_bind, exec_put_if_live, exec_try_except. simpl tool_result.
    cbv iota. rewrite exec_bind. unfold ask_composer. simpl.
    rewrite calls_push, Hlen. fold messages.
    by destruct (composer w _ _). }
  eexists. split; [|split].
  - eapply exec_started_run; [done|exact Hroute|exact Hgen|reflexivity].
  - unfold channel_history.
    erewrite channel_push; [|unfold st_r; channel_chain Hch]. done.
  - rewrite calls_push. simpl. rewrite calls_push. unfold st_r. simpl.
    rewrite calls_push, Hcalls, <- app_assoc. done.
Qed.

(** X12: a submission whose run is not interleaved with others, for which
    the oracle picks a tool and the tool server answers 200 with an
    object whose [success] is truthy: the run makes exactly three external
    calls, to the oracle, the tool server and the composer in that order,
    the composer's prompt carries the question and the serialized [data]
    of the tool's reply, and the final event is the composer's reply. *)
Theorem request_answers_from_tool_data (w : World) (data : ChatData)
    (st : State) (items params report : list (string * PyVal)) (tool : string)
    (response : HttpResponse) :
  let m := default EmptyString (data_message data) in
  let sid := session_key data in
  let call := CallTool tools_call_url (tools_call_body tool (PyDict params)) in
  let messages :=
    composer_messages w (mkAgentState m (PyDict report) None (Some sid)) in
  valid_submission data = true ->
  oracle w (length (calls st)) (routing_prompt m) = inr (PyDict items) ->
  dict_get "tool" items = Some (PyStr tool) ->
  known_tool tool ->
  dict_get "parameters" items = Some (PyDict params) ->
  params <> [] ->
  http_post w (S (length (calls st))) tools_call_url
    (tools_call_body tool (PyDict params)) = inr response ->
  status_code response = 200%Z ->
  json response = inr (PyDict report) ->
  py_truthy (default PyNone (dict_get "success" report)) = true ->
  exists st' ev,
    exec w (started_run w data) (accepted w data st) = (inr tt, st') /\
    tool_status w tool (PyDict params) = inr ev /\
    channel_history sid st' =
      [analyzing;
       EvRouting (PyStr tool) (default PyNone (dict_get "reasoning" items));
       ev; crafting;
       EvFinal (composed_result w
                  (composer w (S (S (length (calls st)))) messages))] /\
    calls st' = calls st ++ [CallOracle (routing_prompt m); call;
                             CallComposer messages].
Proof.
  intros m sid call messages Hvalid Horacle Htool Hknown Hparams Hne
    Hpost Hstatus Hjson Hsuccess.
  destruct (accepted_live w data st Hvalid) as (Hlive & Hch & Hcalls).
  set (input := mkAgentState m PyNone None (Some sid)).
  destruct (exec_route_request_selected w input (accepted w data st)
              items params tool) as (ev & Hev & Hroute); try done.
  { by rewrite Hcalls. }
  rewrite Hcalls, Hpost in Hroute. unfold adapter_result in Hroute.
  rewrite Hstatus, Hjson in Hroute. simpl Z.eqb in Hroute. cbv iota in Hroute.
  change (msg input) with m in Hroute.
  change (default "default" (session_id input)) with sid in Hroute.
  fold call in Hroute.
  set (st_r := log_call call _) in Hroute.
  assert (Hlen : length (calls st_r) = S (S (length (calls st)))).
  { unfold st_r. simpl. rewrite !calls_push. simpl.
    rewrite calls_push, Hcalls, !length_app. simpl. lia. }
  assert (Hgen : exec w (generate_response w
                   (graph_update input (mkAgentState m (PyDict report) None (Some sid))))
                   st_r =
            (inr (mkAgentState m (PyDict report)
                    (Some (composed_result w
                             (composer w (S (S (length (calls st)))) messages)))
                    (Some sid)),
             log_call (CallComposer messages) (push sid crafting st_r))).
  { unfold generate_response. simpl default.
    rewrite exec_bind, exec_put_if_live, exec_try_except. simpl tool_result.
    cbv iota. rewrite exec_bind. simpl py_get. rewrite exec_lift. cbv beta iota.
    rewrite Hsuccess. simpl negb. cbv iota.
    rewrite exec_bind, exec_lift. cbv beta iota.
    rewrite exec_bind. unfold ask_composer. simpl.
    rewrite calls_push, Hlen. fold messages.
    by destruct (composer w _ _). }
  eexists _, ev. split; [|split; [done|]].
  - eapply exec_started_run; [done|exact Hroute|exact Hgen|reflexivity].
  - split.
    + unfold channel_history.
      erewrite channel_push; [|unfold st_r; channel_chain Hch]. done.
    + rewrite calls_push. simpl. rewrite calls_push. unfold st_r. simpl.
      rewrite !calls_push. simpl. rewrite calls_push, Hcalls, <- !app_assoc. done.
Qed.

(** ** Streams *)

Lemma pull_done (n : nat) (sid : string) (st : State) :
  pull n sid GenDone st = ([], GenDone, st).
Proof. induction n as [|n IH]; [done|]. simpl. by rewrite IH. Qed.

Lemma with_pending_lookup (q : nat) (items : list Event) (st : State) :
  heap (with_pending q items st) !! q = Some (mkQueue items (queue_history q st)).
Proof. simpl. apply lookup_insert_eq. Qed.

Lemma with_pending_twice (q : nat) (items items' : list Event) (st : State) :
  with_pending q items (with_pending q items' st) = with_pending q items st.
Proof.
  unfold with_pending. simpl. f_equal.
  unfold queue_history at 1. simpl. rewrite lookup_insert_eq. simpl.
  by rewrite insert_insert_eq.
Qed.

Lemma queue_get_with_pending (q : nat) (ev : Event) (rest : list Event)
    (st : State) :
  queue_pending q st = ev :: rest ->
  queue_get q st = Some (ev, with_pending q rest st).
Proof.
  unfold queue_pending, queue_get, with_pending, queue_history.
  destruct (heap st !! q) as [[items hist]|]; simpl; [|done]. by intros ->.
Qed.

Lemma queue_get_empty (q : nat) (st : State) :
  queue_pending q st = [] -> queue_get q st = None.
Proof.
  unfold queue_pending, queue_get.
  destruct (heap st !! q) as [[items hist]|]; simpl; [|done]. by intros ->.
Qed.

Lemma queue_pending_with_pending (q : nat) (items : list Event) (st : State) :
  queue_pending q (with_pending q items st) = items.
Proof. unfold queue_pending. by rewrite with_pending_lookup. Qed.

Lemma draining_after_message (sid : string) (q : nat) (ev : Event) (st : State) :
  is_final ev = false -> draining sid q (GenYieldedMessage q ev) st.
Proof. unfold draining. simpl. by intros ->. Qed.

Lemma draining_created (sid : string) (q : nat) (st : State) :
  message_queues st !! sid = Some q -> draining sid q GenCreated st.
Proof.
  intros Hreg. unfold draining, generate_next, is_live, lookup_item.
  rewrite Hreg. by rewrite Hreg.
Qed.

Lemma pull_to_final (sid : string) (q : nat) (response : string)
    (post : list Event) :
  forall (pre : list Event) (n : nat) (g : GenState) (st : State),
    draining sid q g st ->
    is_live sid st = true ->
    queue_pending q st = pre ++ EvFinal response :: post ->
    Forall not_final pre ->
    length pre + 2 <= n ->
    pull n sid g st =
      (map FrData pre ++ [FrData (EvFinal response)], GenDone,
       del_item sid (with_pending q post st)).
Proof.
  induction pre as [|ev pre IH]; intros n g st Hdrain Hlive Hpending Hpre Hn.
  - destruct n as [|[|n]]; simpl in Hn; try lia.
    simpl pull. rewrite Hdrain. unfold drain.
    rewrite (queue_get_with_pending q _ _ st Hpending).
    simpl generate_next.
    change (is_live sid (with_pending q post st)) with (is_live sid st).
    rewrite Hlive, pull_done. done.
  - destruct n as [|n]; simpl in Hn; [lia|].
    simpl in Hpending.
    simpl pull. rewrite Hdrain. unfold drain.
    rewrite (queue_get_with_pending q _ _ st Hpending).
    inversion Hpre as [|? ? Hev Hpre']; subst.
    rewrite (IH n (GenYieldedMessage q ev)
               (with_pending q (pre ++ EvFinal response :: post) st)).
    + by rewrite with_pending_twice.
    + by apply draining_after_message.
    + done.
    + apply queue_pending_with_pending.
    + done.
    + lia.
Qed.

(** X13: a stream opened on a session whose queue holds events up to a
    final one, pulled with nothing else running: it sends the events in
    the order they were put, each as one data frame, ends right after the
    final one and unregisters the session.  Events that were queued
    behind the final one are never sent: they stay in the queue object,
    which no later stream can find. *)
Theorem stream_ends_at_first_final (sid : string) (q : nat) (st : State)
    (pre post : list Event) (response : string) (n : nat) :
  message_queues st !! sid = Some q ->
  queue_pending q st = pre ++ EvFinal response :: post ->
  Forall not_final pre ->
  length pre + 2 <= n ->
  let '(frames, g, st') := pull n sid GenCreated st in
  frames = map FrData pre ++ [FrData (EvFinal response)] /\
  g = GenDone /\
  message_queues st' !! sid = None /\
  queue_pending q st' = post.
Proof.
  intros Hreg Hpending Hpre Hn.
  rewrite (pull_to_final sid q response post pre n GenCreated st); try done.
  - repeat split; try done.
    + simpl. apply lookup_delete_eq.
    + apply queue_pending_with_pending.
  - by apply draining_created.
  - unfold is_live. by rewrite Hreg.
Qed.

Lemma draining_after_keepalive (sid : string) (q : nat) (st : State) :
  draining sid q (GenYieldedKeepalive q) st.
Proof. reflexivity. Qed.

Lemma pull_keepalive (sid : string) (q : nat) :
  forall (k : nat) (g : GenState) (st : State),
    draining sid q g st ->
    queue_pending q st = [] ->
    (pull k sid g st).1.1 = replicate k FrKeepalive /\ (pull k sid g st).2 = st.
Proof.
  induction k as [|k IH]; intros g st Hdrain Hempty; [done|].
  simpl pull. rewrite Hdrain. unfold drain. rewrite (queue_get_empty q st Hempty).
  destruct (IH (GenYieldedKeepalive q) st (draining_after_keepalive sid q st) Hempty)
    as [Hframes Hst].
  destruct (pull k sid (GenYieldedKeepalive q) st) as [[frames g'] st'].
  simpl in *. by subst.
Qed.

Lemma pull_in_order (sid : string) (q : nat) (k : nat) :
  forall (events : list Event) (g : GenState) (st : State),
    draining sid q g st ->
    queue_pending q st = events ->
    Forall not_final events ->
    (pull (length events + k) sid g st).1.1
      = map FrData events ++ replicate k FrKeepalive /\
    (pull (length events + k) sid g st).2 = with_pending q [] st \/
    events = [] /\ (pull (length events + k) sid g st).1.1 = replicate k FrKeepalive
      /\ (pull (length events + k) sid g st).2 = st.
Proof.
  induction events as [|ev events IH]; intros g st Hdrain Hpending Hev.
  - right. split; [done|]. by apply (pull_keepalive sid q).
  - left. inversion Hev as [|? ? Hnf Hrest]; subst.
    simpl length. simpl plus. simpl pull. rewrite Hdrain. unfold drain.
    rewrite (queue_get_with_pending q _ _ st Hpending).
    destruct (IH (GenYieldedMessage q ev) (with_pending q events st))
      as [[Hframes Hst] | (-> & Hframes & Hst)].
    + by apply draining_after_message.
    + apply queue_pending_with_pending.
    + done.
    + destruct (pull _ sid (GenYieldedMessage q ev) _) as [[frames g'] st'].
      simpl in *. subst. by rewrite with_pending_twice.
    + destruct (pull _ sid (GenYieldedMessage q ev) _) as [[frames g'] st'].
      simpl in *. by subst.
Qed.

(** X14: a stream opened on a session whose queue holds events none of
    which is final, pulled with nothing else running: it sends each
    waiting event once, in the order of the puts, and keepalive frames
    only from then on; the session stays registered and nothing but the
    queue's waiting list changes. *)
Theorem stream_relays_in_order (sid : string) (q : nat) (st : State)
    (events : list Event) (k : nat) :
  message_queues st !! sid = Some q ->
  queue_pending q st = events ->
  Forall not_final events ->
  let '(frames, g, st') := pull (length events + k) sid GenCreated st in
  frames = map FrData events ++ replicate k FrKeepalive /\
  message_queues st' = message_queues st /\
  queue_pending q st' = [] /\
  queue_history q st' = queue_history q st /\
  forall q', q' <> q -> heap st' !! q' = heap st !! q'.
Proof.
  intros Hreg Hpending Hev.
  destruct (pull_in_order sid q k events GenCreated st
              (draining_created sid q st Hreg) Hpending Hev)
    as [[Hframes Hst] | (-> & Hframes & Hst)];
    destruct (pull _ sid GenCreated st) as [[frames g'] st']; simpl in *; subst.
  - repeat split; try done.
    + apply queue_pending_with_pending.
    + unfold queue_history at 1. by rewrite with_pending_lookup.
    + intros q' Hq'. simpl. by rewrite lookup_insert_ne.
  - done.
Qed.

(** ** What holds in every state the server can reach *)

Lemma not_final_frame_app (frames : list Frame) (f : Frame) :
  Forall not_final_frame frames -> not_final_frame f ->
  Forall not_final_frame (frames ++ [f]).
Proof. intros H1 H2. apply Forall_app. split; [done|]. by constructor. Qed.

Lemma drain_frame (q : nat) (st : State) :
  (exists m, (drain q st).1 = (Some (FrData m), GenYieldedMessage q m)) \/
  (drain q st).1 = (Some FrKeepalive, GenYieldedKeepalive q).
Proof.
  unfold drain. destruct (queue_get q st) as [[m st']|]; simpl; eauto.
Qed.

Lemma stream_ok_drain (sid : string) (q : nat) (frames : list Frame) (st : State) :
  Forall not_final_frame frames ->
  stream_ok (mkStream sid (drain q st).1.2
               (frames ++ match (drain q st).1.1 with
                          | Some f => [f]
                          | None => []
                          end)).
Proof.
  intros Hframes. destruct (drain_frame q st) as [[m ->] | ->]; simpl.
  - unfold stream_ok. simpl. eauto.
  - unfold stream_ok. simpl. by apply not_final_frame_app.
Qed.

Lemma stream_ok_generate_next (sid : string) (g : GenState) (frames : list Frame)
    (st : State) :
  stream_ok (mkStream sid g frames) ->
  stream_ok (mkStream sid (generate_next sid g st).1.2
               (frames ++ match (generate_next sid g st).1.1 with
                          | Some f => [f]
                          | None => []
                          end)).
Proof.
  intros Hok. destruct g as [|q m|q| |e]; unfold stream_ok in Hok; simpl in Hok.
  - simpl generate_next.
    destruct (lookup_item sid _) as [e|q]; [|by apply stream_ok_drain].
    simpl. unfold stream_ok. simpl. by rewrite app_nil_r.
  - destruct Hok as (earlier & -> & Hearlier). simpl generate_next.
    destruct (is_final m) eqn:Hm.
    + destruct m; try discriminate. simpl. rewrite app_nil_r.
      unfold stream_ok. simpl. eauto.
    + apply stream_ok_drain. by apply not_final_frame_app.
  - by apply stream_ok_drain.
  - simpl. by rewrite app_nil_r.
  - simpl. by rewrite app_nil_r.
Qed.

Lemma sys_step_stream_ok (w : World) (a : Action) (s : System) :
  Forall stream_ok (sys_streams s) ->
  Forall stream_ok (sys_streams (sys_step w a s)).
Proof.
  intros Hok. destruct a as [data|sid|i|j]; simpl.
  - by destruct (chat w data (sys_state s)) as [[reply st'] started].
  - apply Forall_app. split; [done|]. constructor; [|done].
    unfold stream_ok. simpl. constructor.
  - destruct (sys_threads s !! i) as [t|]; [|done].
    by destruct (prog_step w t (sys_state s)).
  - destruct (sys_streams s !! j) as [[sid g frames]|] eqn:Hj; [|done].
    pose proof (stream_ok_generate_next sid g frames (sys_state s)) as Hnext.
    destruct (generate_next sid g (sys_state s)) as [[frame g'] st'].
    simpl in *. apply Forall_insert; [done|]. apply Hnext.
    by apply (Forall_lookup_1 _ _ _ _ Hok Hj).
Qed.

Lemma run_stream_ok (w : World) (schedule : list Action) (s : System) :
  Forall stream_ok (sys_streams s) ->
  Forall stream_ok (sys_streams (run w schedule s)).
Proof.
  revert s. induction schedule as [|a rest IH]; intros s Hs; [done|].
  rewrite run_cons. apply IH. by apply sys_step_stream_ok.
Qed.

Lemma final_frame_is_last (earlier pre post : list Frame) (x f : Frame) :
  Forall not_final_frame earlier ->
  earlier ++ [x] = pre ++ f :: post ->
  is_final_frame f = true ->
  post = [] /\ pre = earlier /\ f = x.
Proof.
  intros Hearlier Heq Hf.
  destruct post as [|y post _] using rev_ind.
  - apply app_inj_tail in Heq as [-> ->]. done.
  - change (pre ++ f :: post ++ [y]) with (pre ++ (f :: post) ++ [y]) in Heq.
    rewrite app_assoc in Heq. apply app_inj_tail in Heq as [-> _].
    apply Forall_app in Hearlier as [_ Hrest].
    inversion Hrest as [|? ? Hnf _]; subst. unfold not_final_frame in Hnf.
    congruence.
Qed.

Lemma no_final_frame (frames pre post : list Frame) (f : Frame) :
  Forall not_final_frame frames ->
  frames = pre ++ f :: post ->
  is_final_frame f = true -> False.
Proof.
  intros Hframes -> Hf. apply Forall_app in Hframes as [_ Hrest].
  inversion Hrest as [|? ? Hnf _]; subst. unfold not_final_frame in Hnf.
  congruence.
Qed.

(** X15: on every stream of every state the server can reach, whatever
    the requests, runs and subscribers and however they interleave: a final
    frame is the last frame the stream has sent and the only final one, so
    a client never receives anything after a final frame; and a stream
    whose generator has ended has ended on a final frame. *)
Theorem stream_sends_nothing_after_final (w : World) (schedule : list Action)
    (j : nat) (S : Stream) :
  sys_streams (run w schedule initial_system) !! j = Some S ->
  (forall pre f post,
     stream_frames S = pre ++ f :: post -> is_final_frame f = true ->
     post = [] /\ Forall not_final_frame pre) /\
  (stream_gen S = GenDone ->
   exists pre response, stream_frames S = pre ++ [FrData (EvFinal response)]).
Proof.
  intros Hj.
  assert (Hok : stream_ok S).
  { apply (Forall_lookup_1 _ _ _ _ (run_stream_ok w schedule initial_system
                                      (Forall_nil_2 _)) Hj). }
  unfold stream_ok in Hok. split.
  - intros pre f post Hframes Hf.
    destruct (stream_gen S) as [|q m|q| |e].
    + destruct (no_final_frame _ _ _ _ Hok Hframes Hf).
    + destruct Hok as (earlier & Heq & Hearlier). rewrite Heq in Hframes.
      by destruct (final_frame_is_last _ _ _ _ _ Hearlier Hframes Hf) as (-> & -> & _).
    + destruct (no_final_frame _ _ _ _ Hok Hframes Hf).
    + destruct Hok as (earlier & response & Heq & Hearlier). rewrite Heq in Hframes.
      by destruct (final_frame_is_last _ _ _ _ _ Hearlier Hframes Hf) as (-> & -> & _).
    + destruct (no_final_frame _ _ _ _ Hok Hframes Hf).
  - intros Hdone. rewrite Hdone in Hok.
    destruct Hok as (earlier & response & Heq & _). eauto.
Qed.

Lemma registered_below_next (st : State) (sid : string) (q : nat) :
  heap_wf st -> message_queues st !! sid = Some q -> q < next_queue st.
Proof.
  intros [Hfresh Hreg] Hsid.
  destruct (decide (q < next_queue st)) as [|Hge]; [done|].
  destruct (Hreg _ _ Hsid) as [Q HQ]. rewrite Hfresh in HQ; [done|lia].
Qed.

Lemma new_queue_preserves_injective (sid : string) (st : State) :
  heap_wf st -> registry_injective st ->
  registry_injective (set_item sid (next_queue st) (new_queue st).2).
Proof.
  intros Hwf Hinj sid1 sid2 q. simpl.
  destruct (decide (sid = sid1)) as [<-|H1], (decide (sid = sid2)) as [<-|H2];
    rewrite ?lookup_insert_eq, ?lookup_insert_ne by done; try done.
  - intros [= <-] Hsid2.
    pose proof (registered_below_next st sid2 _ Hwf Hsid2). lia.
  - intros Hsid1 [= <-].
    pose proof (registered_below_next st sid1 _ Hwf Hsid1). lia.
  - apply Hinj.
Qed.

Lemma del_item_preserves_injective (sid : string) (st : State) :
  registry_injective st -> registry_injective (del_item sid st).
Proof.
  intros Hinj sid1 sid2 q. simpl. intros H1 H2.
  apply lookup_delete_Some in H1 as [_ H1].
  apply lookup_delete_Some in H2 as [_ H2]. eauto.
Qed.

Lemma drain_message_queues (q : nat) (st : State) :
  message_queues (drain q st).2 = message_queues st.
Proof.
  unfold drain, queue_get.
  by destruct (heap st !! q) as [[[|m rest] hist]|].
Qed.

Lemma generate_next_preserves_injective (sid : string) (g : GenState) (st : State) :
  heap_wf st -> registry_injective st ->
  registry_injective (generate_next sid g st).2.
Proof.
  intros Hwf Hinj.
  assert (Hdrain : forall q st0, registry_injective st0 ->
                                 registry_injective (drain q st0).2).
  { intros q st0 H0. unfold registry_injective. by rewrite drain_message_queues. }
  destruct g as [|q message|q| |e]; simpl; try done.
  - destruct (is_live sid st) eqn:Hlive.
    + destruct (lookup_item sid st); [done|]. by apply Hdrain.
    + simpl. unfold lookup_item. simpl. rewrite lookup_insert_eq.
      apply Hdrain. by apply (new_queue_preserves_injective sid st).
  - destruct (is_final message); [|by apply Hdrain]. simpl.
    destruct (is_live sid st); [|done]. by apply del_item_preserves_injective.
  - by apply Hdrain.
Qed.

Lemma sys_step_preserves_injective (w : World) (a : Action) (s : System) :
  heap_wf (sys_state s) -> registry_injective (sys_state s) ->
  registry_injective (sys_state (sys_step w a s)).
Proof.
  intros Hwf Hinj. destruct a as [data|sid|i|j]; simpl.
  - destruct (valid_submission data) eqn:Hvalid.
    + rewrite (chat_accepts w data _ Hvalid). simpl.
      by apply (new_queue_preserves_injective (session_key data)).
    + by rewrite (chat_rejects w data _ Hvalid).
  - done.
  - destruct (sys_threads s !! i) as [t|]; [|done].
    assert (H : message_queues (prog_step w t (sys_state s)).2
                = message_queues (sys_state s)) by (by destruct t).
    destruct (prog_step w t (sys_state s)). simpl in *.
    unfold registry_injective. by rewrite H.
  - destruct (sys_streams s !! j) as [[sid g frames]|]; [|done].
    pose proof (generate_next_preserves_injective sid g _ Hwf Hinj) as H.
    by destruct (generate_next sid g (sys_state s)) as [[frame g'] st'].
Qed.

Lemma run_preserves_injective (w : World) (schedule : list Action) (s : System) :
  heap_wf (sys_state s) -> registry_injective (sys_state s) ->
  registry_injective (sys_state (run w schedule s)).
Proof.
  revert s. induction schedule as [|a rest IH]; intros s Hwf Hinj; [done|].
  rewrite run_cons. apply IH.
  - by apply sys_step_preserves_wf.
  - by apply sys_step_preserves_injective.
Qed.

(** X16: in every state the server can reach, two different session ids
    are never registered to the same queue object, and every registered
    queue object exists: [chat] and [stream] register only queues they
    have just created, and nothing else writes the registry. *)
Theorem sessions_never_share_a_queue (w : World) (schedule : list Action)
    (sid1 sid2 : string) (q : nat) :
  let st := sys_state (run w schedule initial_system) in
  message_queues st !! sid1 = Some q ->
  message_queues st !! sid2 = Some q ->
  sid1 = sid2 /\ is_Some (heap st !! q).
Proof.
  intros st H1 H2. split.
  - revert H1 H2. apply run_preserves_injective.
    + apply (reachable_wf w []).
    + intros ? ? ?. simpl. by rewrite lookup_empty.
  - destruct (reachable_wf w schedule) as [_ Hreg]. eauto.
Qed.

(** X17: accepting a submission, in a reachable state, registers one newly
    created empty queue under the submission's key and leaves everything
    else as it was: the other sessions' registrations, every queue object
    that existed, with its waiting events (the one the key pointed to
    before included), and the log of external calls. *)
Theorem chat_leaves_other_sessions_alone (w : World) (data : ChatData)
    (st : State) :
  heap_wf st ->
  valid_submission data = true ->
  let st' := accepted w data st in
  channel (session_key data) st' = Some empty_queue /\
  (forall sid, sid <> session_key data ->
     message_queues st' !! sid = message_queues st !! sid) /\
  (forall q Q, heap st !! q = Some Q -> heap st' !! q = Some Q) /\
  calls st' = calls st /\
  heap_wf st'.
Proof.
  intros Hwf Hvalid st'.
  destruct (chat_registers_new_queue w data st Hvalid) as (_ & Hch & _).
  split; [exact Hch|].
  subst st'. unfold accepted. rewrite (chat_accepts w data st Hvalid). simpl.
  split; [|split; [|split]].
  - intros sid Hsid. by rewrite lookup_insert_ne.
  - intros q Q HQ. destruct Hwf as [Hfresh _].
    destruct (decide (q = next_queue st)) as [->|Hne].
    + rewrite Hfresh in HQ; [done|lia].
    + by rewrite lookup_insert_ne.
  - done.
  - by apply (new_queue_preserves_wf (session_key data)).
Qed.

(** * Properties of the tool server *)

Lemma bind_inr {A B : Type} (r : Srv A) (f : A -> Srv B) (y : B) :
  r ≫= f = inr y -> exists x, r = inr x /\ f x = inr y.
Proof. destruct r as [e|x]; [done|]. simpl. eauto. Qed.

Lemma weather_info_shape (w : World) (b : Backend) (data info : PyVal) :
  weather_info w b data = inr info ->
  exists location temperature condition humidity wind feels_like,
    info = PyDict [("location", PyStr location);
                   ("temperature", PyStr temperature);
                   ("condition", condition);
                   ("humidity", PyStr humidity);
                   ("wind", PyStr wind);
                   ("feels_like", PyStr feels_like)].
Proof.
  unfold weather_info. intros H.
  repeat (apply bind_inr in H as (? & _ & H)).
  injection H as <-. by repeat eexists.
Qed.

Lemma search_results_shape (items hits : list PyVal) :
  search_results items = inr hits ->
  length hits = length items /\ Forall search_hit hits.
Proof.
  revert hits. induction items as [|item rest IH]; intros hits H.
  - injection H as <-. by split.
  - simpl in H. apply bind_inr in H as (hit & Hhit & H).
    apply bind_inr in H as (hits' & Hrest & H). injection H as <-.
    destruct (IH hits' Hrest) as [Hlen Hall]. split; [simpl; by rewrite Hlen|].
    constructor; [|done]. unfold search_result in Hhit.
    repeat (apply bind_inr in Hhit as (? & _ & Hhit)).
    injection Hhit as <-. by repeat eexists.
Qed.

Lemma py_slice5_length (b : Backend) (v : PyVal) (top : list PyVal) :
  py_slice5 b v = inr top -> length top <= 5.
Proof.
  destruct v; try done; simpl; intros [= <-].
  - rewrite length_fmap, length_take. lia.
  - rewrite length_take. lia.
Qed.

Lemma search_data_shape (b : Backend) (query data result : PyVal) :
  search_data b query data = inr result ->
  exists hits knowledge,
    result = success (PyDict [("query", query); ("results", PyList hits);
                              ("knowledge_graph", knowledge)]) /\
    length hits <= 5 /\ Forall search_hit hits.
Proof.
  unfold search_data. intros H.
  apply bind_inr in H as (organic & _ & H).
  apply bind_inr in H as (top & Htop & H).
  apply bind_inr in H as (hits & Hhits & H).
  apply bind_inr in H as (knowledge & _ & H).
  apply bind_inr in H as (description & _ & H).
  injection H as <-. exists hits, description. split; [done|].
  destruct (search_results_shape _ _ Hhits) as [Hlen Hall].
  apply py_slice5_length in Htop. split; [lia|done].
Qed.

(** X18: [get_weather] never raises and makes exactly one request, a GET to
    [wttr.in] for the city.  Whatever comes back (an exception, a status
    other than 200, a body that is not JSON or lacks one of the fields
    read), the result is [{success: False, error: <text>}]; otherwise it
    is [{success: True, data: ...}] whose data has exactly the six keys
    [location], [temperature], [condition], [humidity], [wind] and
    [feels_like], all but [condition] formatted as strings. *)
Theorem get_weather_reports_in_band (w : World) (b : Backend) (city : PyVal) :
  let '(result, log) := get_weather w b city in
  log = [OutGet (wttr_url w city)] /\
  ((exists error, result = failure error) \/
   (exists location temperature condition humidity wind feels_like,
      result = success (PyDict [("location", PyStr location);
                                ("temperature", PyStr temperature);
                                ("condition", condition);
                                ("humidity", PyStr humidity);
                                ("wind", PyStr wind);
                                ("feels_like", PyStr feels_like)]) /\
      exists response,
        backend_get b (wttr_url w city) = inr response /\
        status_code response = 200%Z)).
Proof.
  unfold get_weather. split; [done|].
  destruct (backend_get b (wttr_url w city)) as [e|response]; simpl;
    [left; eauto|].
  destruct (Z.eqb (status_code response) 200) eqn:Hstatus; simpl;
    [|left; eauto].
  destruct (json response) as [e|data]; simpl; [left; eauto|].
  destruct (weather_info w b data) as [e|info] eqn:Hinfo; simpl; [left; eauto|].
  right. destruct (weather_info_shape w b data info Hinfo)
    as (l & t & c & h & wd & f & ->).
  exists l, t, c, h, wd, f. split; [done|].
  exists response. split; [done|]. by apply Z.eqb_eq.
Qed.

Lemma get_weather_shape (w : World) (b : Backend) (city : PyVal) :
  tool_result_shape (get_weather w b city).1 /\
  length (get_weather w b city).2 <= 1.
Proof.
  unfold get_weather. split; [|simpl; lia]. simpl.
  destruct (backend_get b (wttr_url w city)) as [e|response]; simpl;
    [right; eauto|].
  destruct (Z.eqb (status_code response) 200); simpl; [|right; eauto].
  destruct (json response) as [e|data]; simpl; [right; eauto|].
  destruct (weather_info w b data) as [e|info]; simpl; [right; eauto|].
  left. eauto.
Qed.

(** X19: [web_search] never raises.  Without an API key (unset or empty)
    it makes no request at all; with one it makes exactly one POST to the
    search service, asking for five results.  A successful result echoes
    the query and holds at most five hits, each reduced to the three keys
    [title], [link] and [snippet], however many hits and fields the
    service sent; everything else gives [{success: False, error: ...}]. *)
Theorem web_search_reports_in_band (w : World) (b : Backend) (query : PyVal) :
  let '(result, log) := web_search w b query in
  (configured b = false ->
   result = failure "SERPER_API_KEY not configured" /\ log = []) /\
  (configured b = true ->
   log = [OutPost serper_url (serper_headers b) (serper_payload query)]) /\
  ((exists error, result = failure error) \/
   (exists hits knowledge,
      result = success (PyDict [("query", query); ("results", PyList hits);
                                ("knowledge_graph", knowledge)]) /\
      length hits <= 5 /\ Forall search_hit hits)).
Proof.
  unfold web_search. destruct (configured b); simpl.
  2:{ split; [done|]. split; [done|]. left. eauto. }
  split; [done|]. split; [done|].
  destruct (backend_post b _ _ _) as [e|response]; simpl; [left; eauto|].
  destruct (Z.eqb (status_code response) 200); simpl; [|left; eauto].
  destruct (json response) as [e|data]; simpl; [left; eauto|].
  destruct (search_data b query data) as [e|result] eqn:Hdata; simpl;
    [left; eauto|].
  right. by apply (search_data_shape b query data).
Qed.

Lemma web_search_shape (w : World) (b : Backend) (query : PyVal) :
  tool_result_shape (web_search w b query).1 /\
  length (web_search w b query).2 <= 1.
Proof.
  unfold web_search. destruct (configured b); simpl.
  2:{ split; [right; eauto|lia]. }
  split; [|lia].
  destruct (backend_post b _ _ _) as [e|response]; simpl; [right; eauto|].
  destruct (Z.eqb (status_code response) 200); simpl; [|right; eauto].
  destruct (json response) as [e|data]; simpl; [right; eauto|].
  destruct (search_data b query data) as [e|result] eqn:Hdata; simpl;
    [right; eauto|].
  left. destruct (search_data_shape b query data result Hdata)
    as (hits & knowledge & -> & _). eauto.
Qed.

Lemma call_tool_shape (w : World) (b : Backend) (data body : PyVal)
    (status : Z) (log : list Outbound) :
  call_tool w b data = inr (body, status, log) -> tool_result_shape body.
Proof.
  unfold call_tool. intros H.
  apply bind_inr in H as (tool_name & _ & H).
  apply bind_inr in H as (arguments & _ & H).
  destruct (py_eq_str tool_name "get_weather").
  { apply bind_inr in H as (city & _ & H).
    destruct (negb (py_truthy city)); [injection H as <- _ _; right; eauto|].
    destruct (get_weather_shape w b city) as [Hshape _].
    destruct (get_weather w b city) as [result log']. by injection H as <- _ _. }
  destruct (py_eq_str tool_name "web_search").
  { apply bind_inr in H as (query & _ & H).
    destruct (negb (py_truthy query)); [injection H as <- _ _; right; eauto|].
    destruct (web_search_shape w b query) as [Hshape _].
    destruct (web_search w b query) as [result log']. by injection H as <- _ _. }
  injection H as <- _ _. right. eauto.
Qed.

(** X20: every JSON reply of [call_tool] is a tool result, an object with
    [success] and either [data] or a string [error], under one of the
    statuses 200, 400 and 404.  Status 200 means that a tool ran, not
    that it succeeded; under 400 and 404 the body is a failure and the
    server has made no outbound request. *)
Theorem call_tool_reply (w : World) (b : Backend) (data body : PyVal)
    (status : Z) (log : list Outbound) :
  call_tool w b data = inr (body, status, log) ->
  tool_result_shape body /\
  ((status = 200%Z /\ length log <= 1) \/
   ((status = 400%Z \/ status = 404%Z) /\ log = [] /\
    exists error, body = failure error)).
Proof.
  intros H. split; [by apply (call_tool_shape w b data body status log)|].
  unfold call_tool in H.
  apply bind_inr in H as (tool_name & _ & H).
  apply bind_inr in H as (arguments & _ & H).
  assert (Hrefused : forall error code,
            (code = 400%Z \/ code = 404%Z) ->
            @inr SrvExn _ (failure error, code, @nil Outbound)
              = inr (body, status, log) ->
            (status = 200%Z /\ length log <= 1) \/
            ((status = 400%Z \/ status = 404%Z) /\ log = [] /\
             exists error, body = failure error)).
  { intros error code Hcode [= <- <- <-]. right. eauto. }
  destruct (py_eq_str tool_name "get_weather").
  { apply bind_inr in H as (city & _ & H).
    destruct (negb (py_truthy city)); [eapply (Hrefused _ 400%Z); [auto|exact H]|].
    destruct (get_weather_shape w b city) as [_ Hlog].
    destruct (get_weather w b city) as [result log']. injection H as <- <- <-.
    by left. }
  destruct (py_eq_str tool_name "web_search").
  { apply bind_inr in H as (query & _ & H).
    destruct (negb (py_truthy query)); [eapply (Hrefused _ 400%Z); [auto|exact H]|].
    destruct (web_search_shape w b query) as [_ Hlog].
    destruct (web_search w b query) as [result log']. injection H as <- <- <-.
    by left. }
  eapply (Hrefused _ 404%Z); [auto|exact H].
Qed.

(** X21: what [call_tool] refuses, on a body that is a JSON object.  A
    name other than the two tools' (or none) gives status 404 and
    ["Unknown tool: <name>"]; a known tool whose arguments are an object
    without a truthy [city], respectively [query], gives status 400 and
    ["Missing '<key>' parameter"].  In both cases no tool runs. *)
Theorem call_tool_validates_request (w : World) (b : Backend)
    (fields : list (string * PyVal)) :
  let name := requested_tool fields in
  let arguments := requested_arguments fields in
  (py_eq_str name "get_weather" = false ->
   py_eq_str name "web_search" = false ->
   call_tool w b (PyDict fields) =
     inr (failure ("Unknown tool: " +:+ py_str w name), 404%Z, [])) /\
  (forall args,
     name = PyStr "get_weather" -> arguments = PyDict args ->
     py_truthy (default PyNone (dict_get "city" args)) = false ->
     call_tool w b (PyDict fields) =
       inr (failure "Missing 'city' parameter", 400%Z, [])) /\
  (forall args,
     name = PyStr "web_search" -> arguments = PyDict args ->
     py_truthy (default PyNone (dict_get "query" args)) = false ->
     call_tool w b (PyDict fields) =
       inr (failure "Missing 'query' parameter", 400%Z, [])).
Proof.
  intros name arguments. unfold call_tool. simpl py_get.
  fold (requested_tool fields) (requested_arguments fields). fold name arguments.
  simpl. repeat split.
  - by intros -> ->.
  - intros args -> -> Hcity. simpl. by rewrite Hcity.
  - intros args -> -> Hquery. simpl. by rewrite Hquery.
Qed.

Lemma call_tool_bare_arguments (w : World) (b : Backend) (tool : string)
    (arguments : PyVal) :
  known_tool tool ->
  is_dict arguments = false ->
  call_tool w b (tools_call_body tool arguments) =
    inl (Py (AttributeError ("'" +:+ py_type_name arguments +:+
                             "' object has no attribute 'get'"))).
Proof.
  intros [-> | ->] Hbare; destruct arguments; try discriminate; reflexivity.
Qed.

(** X22: a request for one of the two tools whose [arguments] are not a
    JSON object (a bare string, a list, [null]) makes [call_tool] raise
    on [arguments.get]: nothing catches it, the client gets status 500
    with a body that is not JSON, and the adapter of [app.py] turns that
    into [{success: False, error: "HTTP 500"}]. *)
Theorem call_tool_crashes_on_bare_arguments (w : World) (b : Backend)
    (tool : string) (arguments : PyVal) (st : State) :
  known_tool tool ->
  is_dict arguments = false ->
  served_by w b (length (calls st)) tool arguments ->
  (exists e, call_tool w b (tools_call_body tool arguments) = inl e) /\
  status_code (flask_response (call_tool w b (tools_call_body tool arguments)))
    = 500%Z /\
  (exec w (call_mcp_tool w tool arguments) st).1 = inr (failure "HTTP 500").
Proof.
  intros Hknown Hbare Hserved.
  rewrite (call_tool_bare_arguments w b tool arguments Hknown Hbare) in *.
  split; [eauto|]. split; [done|].
  rewrite exec_call_mcp_tool. unfold served_by in Hserved.
  rewrite (call_tool_bare_arguments w b tool arguments Hknown Hbare) in Hserved.
  by rewrite Hserved.
Qed.

(** ** The adapter in front of the tool server *)

Lemma sort_keys_failure (error : string) :
  sort_keys (failure error)
    = PyDict [("error", PyStr error); ("success", PyBool false)].
Proof. reflexivity. Qed.

Lemma sort_keys_success (data : PyVal) :
  sort_keys (success data)
    = PyDict [("data", sort_keys data); ("success", PyBool true)].
Proof. reflexivity. Qed.

(** X23: when the adapter's request is answered by this server, the tool
    result that reaches [generate_response] is always a JSON object with a
    boolean [success], carrying [data] when it is true and a string
    [error] when it is false: the ["Unknown error"] default and the
    handler for a result without [get] are never needed. *)
Theorem served_tool_result_is_well_formed (w : World) (b : Backend)
    (tool : string) (arguments : PyVal) (st : State) :
  served_by w b (length (calls st)) tool arguments ->
  exists v,
    (exec w (call_mcp_tool w tool arguments) st).1 = inr v /\
    ((exists data, v = PyDict [("data", data); ("success", PyBool true)]) \/
     (exists error, v = PyDict [("error", PyStr error); ("success", PyBool false)]) \/
     (exists error, v = failure error)).
Proof.
  intros Hserved. rewrite exec_call_mcp_tool. unfold served_by in Hserved.
  rewrite Hserved. eexists. split; [reflexivity|].
  destruct (call_tool w b (tools_call_body tool arguments))
    as [e|[[body status] log]] eqn:Hcall; simpl.
  { right. right. eauto. }
  destruct (Z.eqb status 200); [|right; right; eauto].
  destruct (call_tool_shape w b _ body status log Hcall)
    as [[data ->] | [error ->]].
  - left. rewrite sort_keys_success. eauto.
  - right. left. rewrite sort_keys_failure. eauto.
Qed.

Lemma call_tool_missing_parameter (w : World) (b : Backend) (tool : string)
    (params : list (string * PyVal)) :
  known_tool tool ->
  py_truthy (default PyNone (dict_get (required_parameter tool) params)) = false ->
  exists error,
    call_tool w b (tools_call_body tool (PyDict params))
      = inr (failure error, 400%Z, []).
Proof.
  intros [-> | ->] Hfalsy; unfold required_parameter in Hfalsy;
    simpl in Hfalsy; unfold call_tool; simpl; rewrite Hfalsy; simpl; eauto.
Qed.

(** X24: end to end, with this server behind the adapter: when the oracle
    picks a tool and gives its parameters as an object that lacks the key
    the server requires ([city], respectively [query]) or has it empty,
    the server refuses with status 400 and names the missing parameter,
    but the adapter keeps the status only: the session's final event
    reads ["I encountered an error: HTTP 400"] and the composer is not
    called. *)
Theorem request_with_missing_parameter_reports_http_400 (w : World)
    (b : Backend) (data : ChatData) (st : State)
    (items params : list (string * PyVal)) (tool : string) :
  let m := default EmptyString (data_message data) in
  let sid := session_key data in
  let call := CallTool tools_call_url (tools_call_body tool (PyDict params)) in
  valid_submission data = true ->
  oracle w (length (calls st)) (routing_prompt m) = inr (PyDict items) ->
  dict_get "tool" items = Some (PyStr tool) ->
  known_tool tool ->
  dict_get "parameters" items = Some (PyDict params) ->
  params <> [] ->
  py_truthy (default PyNone (dict_get (required_parameter tool) params)) = false ->
  served_by w b (S (length (calls st))) tool (PyDict params) ->
  exists st' ev,
    exec w (started_run w data) (accepted w data st) = (inr tt, st') /\
    tool_status w tool (PyDict params) = inr ev /\
    channel_history sid st' =
      [analyzing;
       EvRouting (PyStr tool) (default PyNone (dict_get "reasoning" items));
       ev; crafting; EvFinal "I encountered an error: HTTP 400"] /\
    calls st' = calls st ++ [CallOracle (routing_prompt m); call].
Proof.
  intros m sid call Hvalid Horacle Htool Hknown Hparams Hne Hfalsy Hserved.
  destruct (call_tool_missing_parameter w b tool params Hknown Hfalsy)
    as [error Hcall].
  apply (started_run_tool_failure w data st items params
           [("success", PyBool false); ("error", PyStr "HTTP 400")] tool);
    try done.
  unfold served_by in Hserved. rewrite Hserved, Hcall. reflexivity.
Qed.

(** X25: end to end, with this server behind the adapter: when the tool
    runs and fails (the weather or search service is down, answers with
    an error status or with a body the tool cannot read, or the API key
    is missing), the server answers 200 with the failure in the body, the
    adapter passes it on, and the session's final event carries the
    tool's own error text after ["I encountered an error: "]; the
    composer is not called. *)
Theorem request_reports_tool_failure_from_server (w : World) (b : Backend)
    (data : ChatData) (st : State) (items params : list (string * PyVal))
    (tool error : string) (log : list Outbound) :
  let m := default EmptyString (data_message data) in
  let sid := session_key data in
  let call := CallTool tools_call_url (tools_call_body tool (PyDict params)) in
  valid_submission data = true ->
  oracle w (length (calls st)) (routing_prompt m) = inr (PyDict items) ->
  dict_get "tool" items = Some (PyStr tool) ->
  known_tool tool ->
  dict_get "parameters" items = Some (PyDict params) ->
  params <> [] ->
  served_by w b (S (length (calls st))) tool (PyDict params) ->
  call_tool w b (tools_call_body tool (PyDict params))
    = inr (failure error, 200%Z, log) ->
  exists st' ev,
    exec w (started_run w data) (accepted w data st) = (inr tt, st') /\
    tool_status w tool (PyDict params) = inr ev /\
    channel_history sid st' =
      [analyzing;
       EvRouting (PyStr tool) (default PyNone (dict_get "reasoning" items));
       ev; crafting; EvFinal ("I encountered an error: " +:+ error)] /\
    calls st' = calls st ++ [CallOracle (routing_prompt m); call].
Proof.
  intros m sid call Hvalid Horacle Htool Hknown Hparams Hne Hserved Hcall.
  apply (started_run_tool_failure w data st items params
           [("error", PyStr error); ("success", PyBool false)] tool);
    try done.
  unfold served_by in Hserved. rewrite Hserved, Hcall. reflexivity.
Qed.

(** ** How long a run takes *)

Lemma ends_within_mono {A : Type} (n c : nat) (p : Prog A) :
  ends_within n c p -> forall n' c', n <= n' -> c <= c' -> ends_within n' c' p.
Proof.
  induction 1 as [| |n c sid k _ IH|n c sid k _ IH|n c q ev k _ IH
                  |n c prompt k _ IH|n c url body k _ IH|n c messages k _ IH];
    intros n' c' Hn Hc; try constructor.
  - destruct n' as [|n']; [lia|]. constructor. intros r. apply IH; lia.
  - destruct n' as [|n']; [lia|]. constructor. intros r. apply IH; lia.
  - destruct n' as [|n']; [lia|]. constructor. apply IH; lia.
  - destruct n' as [|n'], c' as [|c']; try lia. constructor. intros r. apply IH; lia.
  - destruct n' as [|n'], c' as [|c']; try lia. constructor. intros r. apply IH; lia.
  - destruct n' as [|n'], c' as [|c']; try lia. constructor. intros r. apply IH; lia.
Qed.

Lemma ends_within_bind {A B : Type} (n c n' c' : nat) (p : Prog A)
    (f : A -> Prog B) :
  ends_within n c p -> (forall a, ends_within n' c' (f a)) ->
  ends_within (n + n') (c + c') (p ≫= f).
Proof.
  intros Hp Hf.
  induction Hp as [n c a|n c e|n c sid k _ IH|n c sid k _ IH|n c q ev k _ IH
                   |n c prompt k _ IH|n c url body k _ IH|n c messages k _ IH].
  - apply (ends_within_mono n' c'); [apply Hf|lia|lia].
  - constructor.
  - apply ends_contains. exact IH.
  - apply ends_get_item. exact IH.
  - apply ends_queue_put. exact IH.
  - apply ends_oracle. exact IH.
  - apply ends_http_post. exact IH.
  - apply ends_composer. exact IH.
Qed.

Lemma ends_within_try_except {A : Type} (n c n' c' : nat) (p : Prog A)
    (h : Exn -> Prog A) :
  ends_within n c p -> (forall e, ends_within n' c' (h e)) ->
  ends_within (n + n') (c + c') (try_except p h).
Proof.
  intros Hp Hh.
  induction Hp as [n c a|n c e|n c sid k _ IH|n c sid k _ IH|n c q ev k _ IH
                   |n c prompt k _ IH|n c url body k _ IH|n c messages k _ IH].
  - constructor.
  - apply (ends_within_mono n' c'); [apply Hh|lia|lia].
  - apply ends_contains. exact IH.
  - apply ends_get_item. exact IH.
  - apply ends_queue_put. exact IH.
  - apply ends_oracle. exact IH.
  - apply ends_http_post. exact IH.
  - apply ends_composer. exact IH.
Qed.

Lemma ends_within_lift {A : Type} (n c : nat) (r : Exn + A) :
  ends_within n c (lift r).
Proof. destruct r; constructor. Qed.

Lemma ends_within_contains (sid : string) : ends_within 1 0 (contains sid).
Proof. apply ends_contains. intros r. constructor. Qed.

Lemma ends_within_get_item (sid : string) : ends_within 1 0 (get_item sid).
Proof. apply ends_get_item. intros r. apply ends_within_lift. Qed.

Lemma ends_within_ask_oracle (prompt : string) :
  ends_within 1 1 (ask_oracle prompt).
Proof. apply ends_oracle. intros r. apply ends_within_lift. Qed.

Lemma ends_within_requests_post (url : string) (body : PyVal) :
  ends_within 1 1 (requests_post url body).
Proof. apply ends_http_post. intros r. apply ends_within_lift. Qed.

Lemma ends_within_ask_composer (messages : list (string * string)) :
  ends_within 1 1 (ask_composer messages).
Proof. apply ends_composer. intros r. apply ends_within_lift. Qed.

Lemma ends_within_put_item (sid : string) (payload : Prog Event) :
  ends_within 0 0 payload -> ends_within 2 0 (put_item sid payload).
Proof.
  intros Hpayload. unfold put_item.
  apply (ends_within_bind 1 0 1 0); [apply ends_within_get_item|]. intros q.
  apply (ends_within_bind 0 0 1 0); [done|]. intros ev.
  apply ends_queue_put. constructor.
Qed.

Lemma ends_within_put_if_live (sid : string) (payload : Prog Event) :
  ends_within 0 0 payload -> ends_within 3 0 (put_if_live sid payload).
Proof.
  intros Hpayload. unfold put_if_live.
  apply (ends_within_bind 1 0 2 0); [apply ends_within_contains|].
  intros [|]; [by apply ends_within_put_item|constructor].
Qed.

Lemma ends_within_status (r : Exn + PyVal) (f : PyVal -> Event) :
  ends_within 0 0 (lift r ≫= fun v => Ret (f v)).
Proof. destruct r; constructor. Qed.

Lemma ends_within_call_mcp_tool (w : World) (tool : string) (arguments : PyVal) :
  ends_within 1 1 (call_mcp_tool w tool arguments).
Proof.
  unfold call_mcp_tool.
  apply (ends_within_try_except 1 1 0 0); [|intros e; constructor].
  apply (ends_within_bind 1 1 0 0); [apply ends_within_requests_post|].
  intros response. destruct (Z.eqb _ _); [apply ends_within_lift|constructor].
Qed.

Lemma ends_within_route_request (w : World) (state : AgentState) :
  ends_within 11 2 (route_request w state).
Proof.
  unfold route_request.
  apply (ends_within_bind 3 0 8 2); [apply ends_within_put_if_live; constructor|].
  intros _. apply (ends_within_try_except 8 2 0 0); [|intros e; constructor].
  apply (ends_within_bind 1 1 7 1); [apply ends_within_ask_oracle|].
  intros decision.
  apply (ends_within_bind 0 0 7 1); [apply ends_within_lift|]. intros tool.
  apply (ends_within_bind 0 0 7 1); [apply ends_within_lift|]. intros params.
  apply (ends_within_bind 0 0 7 1); [apply ends_within_lift|]. intros reasoning.
  apply (ends_within_bind 3 0 4 1); [apply ends_within_put_if_live; constructor|].
  intros _.
  destruct (py_eq_str tool "get_weather" && py_truthy params).
  { apply (ends_within_bind 3 0 1 1);
      [apply ends_within_put_if_live, ends_within_status|].
    intros _. apply (ends_within_bind 1 1 0 0); [apply ends_within_call_mcp_tool|].
    intros result. constructor. }
  destruct (py_eq_str tool "web_search" && py_truthy params).
  { apply (ends_within_bind 3 0 1 1);
      [apply ends_within_put_if_live, ends_within_status|].
    intros _. apply (ends_within_bind 1 1 0 0); [apply ends_within_call_mcp_tool|].
    intros result. constructor. }
  constructor.
Qed.

Lemma ends_within_generate_response (w : World) (state : AgentState) :
  ends_within 4 1 (generate_response w state).
Proof.
  unfold generate_response.
  apply (ends_within_bind 3 0 1 1); [apply ends_within_put_if_live; constructor|].
  intros _. apply (ends_within_try_except 1 1 0 0); [|intros e; constructor].
  assert (Hask : forall messages (f : string -> AgentState),
            ends_within 1 1 (content ← ask_composer messages; Ret (f content))).
  { intros messages f.
    apply (ends_within_bind 1 1 0 0); [apply ends_within_ask_composer|].
    intros content. constructor. }
  destruct (tool_result state) eqn:Hresult; try apply Hask;
    (apply (ends_within_bind 0 0 1 1); [apply ends_within_lift|]; intros success;
     destruct (negb (py_truthy success));
     [apply (ends_within_bind 0 0 1 1); [apply ends_within_lift|];
      intros error_msg; constructor
     |apply (ends_within_bind 0 0 1 1); [apply ends_within_lift|];
      intros data; apply Hask]).
Qed.

Lemma ends_within_process_message (w : World) (user_message sid : string) :
  ends_within 17 3 (process_message w user_message sid).
Proof.
  unfold process_message, agent_graph_invoke.
  apply (ends_within_bind 15 3 2 0).
  - apply (ends_within_bind 11 2 4 1); [apply ends_within_route_request|].
    intros routed.
    apply (ends_within_bind 4 1 0 0); [apply ends_within_generate_response|].
    intros responded. constructor.
  - intros final_state. apply ends_within_put_item.
    destruct (result final_state); constructor.
Qed.

Lemma ends_within_zero {A : Type} (c : nat) (p : Prog A) :
  ends_within 0 c p -> finished p = true.
Proof. by inversion 1. Qed.

Lemma ends_within_prog_step {A : Type} (w : World) (n c : nat) (p : Prog A)
    (st : State) :
  ends_within (S n) c p -> ends_within n c (prog_step w p st).1.
Proof.
  inversion 1; subst; simpl; try constructor; try done.
  all: apply (ends_within_mono n c0); [done|lia|lia].
Qed.

Lemma ends_within_step_through {A : Type} (w : World) (c : nat) :
  forall (states : list State) (n : nat) (p : Prog A),
    ends_within n c p -> n <= length states ->
    finished (step_through w p states) = true.
Proof.
  induction states as [|st rest IH]; intros n p Hp Hn; simpl in *.
  - assert (n = 0) as -> by lia. by apply (ends_within_zero c).
  - destruct n as [|n].
    + apply (IH 0); [|lia]. apply ends_within_zero in Hp.
      destruct p; try discriminate; constructor.
    + apply (IH n); [|lia]. by apply ends_within_prog_step.
Qed.

Lemma ends_within_exec_calls {A : Type} (w : World) (n c : nat) (p : Prog A) :
  ends_within n c p ->
  forall st, length (calls (exec w p st).2) <= length (calls st) + c.
Proof.
  induction 1 as [| |n c sid k _ IH|n c sid k _ IH|n c q ev k _ IH
                  |n c prompt k _ IH|n c url body k _ IH|n c messages k _ IH];
    intros st; simpl; try lia; try apply IH.
  all: etrans; [apply IH|]; simpl; rewrite ?length_app; simpl; lia.
Qed.

(** X26: a run never loops or retries.  Whatever the oracle, the tool
    server and the composer answer, and whatever the other threads and
    the streams do between its steps, the run that [chat] starts has ended
    (returned or raised) after at most 17 of its atomic steps; run on its
    own it makes at most three external calls. *)
Theorem run_ends_within_17_steps (w : World) (user_message sid : string) :
  (forall states,
     17 <= length states ->
     finished (step_through w (process_message w user_message sid) states) = true) /\
  (forall st,
     length (calls (exec w (process_message w user_message sid) st).2)
       <= length (calls st) + 3).
Proof.
  split.
  - intros states Hlen.
    apply (ends_within_step_through w 3 states 17); [|done].
    apply ends_within_process_message.
  - apply (ends_within_exec_calls w 17), ends_within_process_message.
Qed.

(** ** A request, submitted and then streamed *)



(** * The further properties on sample inputs *)

(** X1, witness: the tool server answers 200 with a report. *)
Lemma call_mcp_tool_passes_body_through_witness :
  (exec world_sunny
     (call_mcp_tool world_sunny "get_weather" (PyDict [("city", PyStr "Lagos")]))
     initial_state).1 = inr sunny_report.
Proof.
  pose proof (call_mcp_tool_passes_body_through world_sunny "get_weather"
                (PyDict [("city", PyStr "Lagos")]) initial_state
                (mkHttpResponse 200 (inr sunny_report)) eq_refl eq_refl) as H.
  cbv zeta in H. destruct H as (_ & H & _). by apply H.
Defined.

(** X2, witness: the oracle cannot be reached. *)
Lemma route_request_degrades_without_decision_witness :
  exec world_oracle_down (route_request world_oracle_down hello_state) initial_state
    = (inr (mkAgentState "Hello! How are you?" PyNone None (Some "s")),
       log_call (CallOracle (routing_prompt "Hello! How are you?"))
         (push "s" analyzing initial_state)).
Proof.
  apply (route_request_degrades_without_decision world_oracle_down hello_state
           initial_state).
  left. by exists (External "Connection error").
Defined.


(** X4, witness: the oracle names the weather tool without parameters. *)
Lemma route_request_skips_tool_without_parameters_witness :
  exec world_no_parameters (route_request world_no_parameters weather_state)
    initial_state
    = (inr (mkAgentState "Weather in Lagos?" PyNone None (Some "s2")),
       push "s2" (EvRouting (PyStr "get_weather") (PyStr "no city given"))
         (log_call (CallOracle (routing_prompt "Weather in Lagos?"))
            (push "s2" analyzing initial_state))).
Proof.
  by apply (route_request_skips_tool_without_parameters world_no_parameters
              weather_state initial_state
              [("tool", PyStr "get_weather"); ("parameters", PyNone);
               ("reasoning", PyStr "no city given")]).
Defined.

(** X5, witness: the city as a bare string, with and without a channel. *)
Lemma route_request_bare_parameters_witness :
  calls (exec world_bare_city (route_request world_bare_city weather_state)
           (accepted world_bare_city weather_request initial_state)).2
    = [CallOracle (routing_prompt "Weather in Lagos?")] /\
  calls (exec world_bare_city (route_request world_bare_city weather_state)
           initial_state).2
    = [CallOracle (routing_prompt "Weather in Lagos?");
       CallTool tools_call_url (tools_call_body "get_weather" (PyStr "Lagos"))].
Proof.
  split.
  - pose proof (route_request_bare_parameters world_bare_city weather_state
                  (accepted world_bare_city weather_request initial_state)
                  [("tool", PyStr "get_weather"); ("parameters", PyStr "Lagos");
                   ("reasoning", PyStr "asks for the weather")]
                  "get_weather" (PyStr "Lagos")) as H.
    cbv zeta in H.
    destruct (H eq_refl eq_refl (or_introl eq_refl) eq_refl eq_refl eq_refl)
      as [Hlive _]. by destruct (Hlive eq_refl) as [_ Hcalls].
  - pose proof (route_request_bare_parameters world_bare_city weather_state
                  initial_state
                  [("tool", PyStr "get_weather"); ("parameters", PyStr "Lagos");
                   ("reasoning", PyStr "asks for the weather")]
                  "get_weather" (PyStr "Lagos")) as H.
    cbv zeta in H.
    destruct (H eq_refl eq_refl (or_introl eq_refl) eq_refl eq_refl eq_refl)
      as [_ Hdead]. by destruct (Hdead eq_refl) as [_ Hcalls].
Defined.

(** X7, witness: a tool result that carries data and no [success]. *)
Lemma generate_response_failure_without_success_witness :
  exists st',
    exec world_chat (generate_response world_chat data_only_state) initial_state
      = (inr (mkAgentState "Weather in Lagos?"
                (PyDict [("data", PyDict [("condition", PyStr "Sunny")])])
                (Some "I encountered an error: Unknown error") (Some "s2")), st') /\
    calls st' = [].
Proof.
  destruct (generate_response_failure_without_success world_chat data_only_state
              initial_state [("data", PyDict [("condition", PyStr "Sunny")])]
              eq_refl eq_refl) as (st' & Hexec & Hcalls & _).
  exists st'. by split.
Defined.

(** X8, witness: the tool server answered 200 with a JSON array. *)
Lemma generate_response_rejects_non_object_witness :
  exec world_chat (generate_response world_chat array_result_state) initial_state
    = (inr (mkAgentState "Weather in Lagos?" (PyList [PyStr "sunny"])
              (Some "Error generating response: 'list' object has no attribute 'get'")
              (Some "s2")),
       push "s2" crafting initial_state).
Proof.
  apply (generate_response_rejects_non_object world_chat array_result_state
           initial_state); [discriminate|reflexivity].
Defined.


(** X10, witness: a weather question while the tool server answers 500. *)
Lemma request_reports_tool_transport_failure_witness :
  exists st',
    exec world_http_500 (started_run world_http_500 weather_request)
      (accepted world_http_500 weather_request initial_state) = (inr tt, st') /\
    channel_history "s2" st' =
      [analyzing;
       EvRouting (PyStr "get_weather") (PyStr "asks for the weather");
       EvStatus "🌤️ Getting weather for Lagos...";
       crafting; EvFinal "I encountered an error: HTTP 500"] /\
    filter is_tool_call (calls st') =
      [CallTool tools_call_url
         (tools_call_body "get_weather" (PyDict [("city", PyStr "Lagos")]))].
Proof.
  assert (Hne : [("city", PyStr "Lagos")] <> @nil (string * PyVal)) by discriminate.
  destruct (request_reports_tool_transport_failure world_http_500 weather_request
              initial_state
              [("tool", PyStr "get_weather");
               ("parameters", PyDict [("city", PyStr "Lagos")]);
               ("reasoning", PyStr "asks for the weather")]
              [("city", PyStr "Lagos")] "get_weather" "HTTP 500"
              eq_refl eq_refl eq_refl (or_introl eq_refl) eq_refl Hne eq_refl)
    as (st' & ev & Hexec & Hev & Hhistory & Hcalls).
  exists st'. split; [exact Hexec|]. injection Hev as <-.
  split; [exact Hhistory|]. by rewrite Hcalls.
Defined.

(** X11, witness: a greeting while the oracle cannot be reached. *)
Lemma request_survives_oracle_outage_witness :
  exists st',
    exec world_oracle_down (started_run world_oracle_down (hello "s"))
      (accepted world_oracle_down (hello "s") initial_state) = (inr tt, st') /\
    channel_history "s" st' = [analyzing; crafting; EvFinal "Hi there"].
Proof.
  destruct (request_survives_oracle_outage world_oracle_down (hello "s")
              initial_state eq_refl
              (or_introl (ex_intro _ (External "Connection error") eq_refl)))
    as (st' & Hexec & Hhistory & _).
  exists st'. by split.
Defined.

(** X12, witness: a weather question answered from the tool's report. *)
Lemma request_answers_from_tool_data_witness :
  exists st',
    exec world_sunny (started_run world_sunny weather_request)
      (accepted world_sunny weather_request initial_state) = (inr tt, st') /\
    channel_history "s2" st' =
      [analyzing;
       EvRouting (PyStr "get_weather") (PyStr "asks for the weather");
       EvStatus "🌤️ Getting weather for Lagos...";
       crafting; EvFinal "It is sunny in Lagos"] /\
    length (calls st') = 3.
Proof.
  assert (Hne : [("city", PyStr "Lagos")] <> @nil (string * PyVal)) by discriminate.
  destruct (request_answers_from_tool_data world_sunny weather_request
              initial_state
              [("tool", PyStr "get_weather");
               ("parameters", PyDict [("city", PyStr "Lagos")]);
               ("reasoning", PyStr "asks for the weather")]
              [("city", PyStr "Lagos")]
              [("success", PyBool true);
               ("data", PyDict [("condition", PyStr "Sunny")])]
              "get_weather" (mkHttpResponse 200 (inr sunny_report))
              eq_refl eq_refl eq_refl (or_introl eq_refl) eq_refl Hne
              eq_refl eq_refl eq_refl eq_refl)
    as (st' & ev & Hexec & Hev & Hhistory & Hcalls).
  exists st'. split; [exact Hexec|]. injection Hev as <-.
  split; [exact Hhistory|]. by rewrite Hcalls.
Defined.

(** X13, witness: two events are waiting behind a final one. *)
Lemma stream_ends_at_first_final_witness :
  let '(frames, g, st') := pull 5 "s" GenCreated state_final_then_more in
  frames = [FrData crafting; FrData (EvFinal "Hi there")] /\
  g = GenDone /\
  message_queues st' !! "s" = None /\
  queue_pending 0 st' = [analyzing; routing_none].
Proof.
  apply (stream_ends_at_first_final "s" 0 state_final_then_more [crafting]
           [analyzing; routing_none] "Hi there" 5).
  - reflexivity.
  - reflexivity.
  - repeat constructor.
  - simpl. lia.
Defined.

(** X14, witness: two events are waiting and no final one. *)
Lemma stream_relays_in_order_witness :
  let '(frames, g, st') := pull 4 "s" GenCreated state_two_waiting in
  frames = [FrData analyzing; FrData routing_none; FrKeepalive; FrKeepalive] /\
  message_queues st' = message_queues state_two_waiting /\
  queue_pending 0 st' = [] /\
  queue_history 0 st' = queue_history 0 state_two_waiting /\
  forall q', q' <> 0 -> heap st' !! q' = heap state_two_waiting !! q'.
Proof.
  apply (stream_relays_in_order "s" 0 state_two_waiting [analyzing; routing_none] 2).
  - reflexivity.
  - reflexivity.
  - repeat constructor.
Defined.

(** X15, witness: a subscriber that has relayed a whole run. *)
Lemma stream_sends_nothing_after_final_witness :
  exists S,
    sys_streams (run world_chat streamed_to_the_end initial_system) !! 0 = Some S /\
    stream_gen S = GenDone /\
    exists pre response, stream_frames S = pre ++ [FrData (EvFinal response)].
Proof.
  set (S := mkStream "s" GenDone
              [FrData analyzing; FrData routing_none; FrData crafting;
               FrData (EvFinal "Hi there")]).
  assert (Hj : sys_streams (run world_chat streamed_to_the_end initial_system) !! 0
               = Some S) by (vm_compute; reflexivity).
  destruct (stream_sends_nothing_after_final world_chat streamed_to_the_end 0 S Hj)
    as [_ Hdone].
  exists S. split; [exact Hj|]. split; [reflexivity|]. by apply Hdone.
Defined.

(** X16, witness: two sessions, one opened by a submission and one by a
    subscriber. *)
Lemma sessions_never_share_a_queue_witness :
  "a" = "a" /\
  is_Some (heap (sys_state (run world_chat two_sessions initial_system)) !! 0).
Proof.
  apply (sessions_never_share_a_queue world_chat two_sessions "a" "a" 0);
    vm_compute; reflexivity.
Defined.

(** X17, witness: a submission under ["t"] while ["s"] is registered. *)
Lemma chat_leaves_other_sessions_alone_witness :
  channel "t" (accepted world_chat (hello "t") state_live_s) = Some empty_queue /\
  message_queues (accepted world_chat (hello "t") state_live_s) !! "s"
    = message_queues state_live_s !! "s" /\
  calls (accepted world_chat (hello "t") state_live_s) = calls state_live_s.
Proof.
  destruct (chat_leaves_other_sessions_alone world_chat (hello "t") state_live_s
              (reachable_wf world_chat [PostChat (hello "s")]) eq_refl)
    as (Hchannel & Hothers & _ & Hcalls & _).
  split; [exact Hchannel|]. split; [|exact Hcalls]. by apply Hothers.
Defined.

(** X20, witness: the weather service is out of reach, and the reply is
    a failure under status 200. *)
Lemma call_tool_reply_witness :
  call_tool world_chat backend_down
    (tools_call_body "get_weather" (PyDict [("city", PyStr "Lagos")]))
    = inr (failure "Weather API error: Connection timed out", 200%Z,
           [OutGet "https://wttr.in/Lagos?format=j1"]) /\
  tool_result_shape (failure "Weather API error: Connection timed out").
Proof.
  assert (H : call_tool world_chat backend_down
                (tools_call_body "get_weather" (PyDict [("city", PyStr "Lagos")]))
              = inr (failure "Weather API error: Connection timed out", 200%Z,
                     [OutGet "https://wttr.in/Lagos?format=j1"]))
    by reflexivity.
  split; [exact H|].
  by destruct (call_tool_reply _ _ _ _ _ _ H) as [Hshape _].
Defined.

(** X22, witness: the city as a bare string reaches the server. *)
Lemma call_tool_crashes_on_bare_arguments_witness :
  (exec (world_served decision_bare_city backend_up)
     (call_mcp_tool (world_served decision_bare_city backend_up)
        "get_weather" (PyStr "Lagos"))
     initial_state).1 = inr (failure "HTTP 500").
Proof.
  by destruct (call_tool_crashes_on_bare_arguments
                 (world_served decision_bare_city backend_up) backend_up
                 "get_weather" (PyStr "Lagos") initial_state
                 (or_introl eq_refl) eq_refl eq_refl) as (_ & _ & H).
Defined.

(** X23, witness: a weather call answered by the server. *)
Lemma served_tool_result_is_well_formed_witness :
  exists v,
    (exec (world_served decision_weather backend_up)
       (call_mcp_tool (world_served decision_weather backend_up)
          "get_weather" (PyDict [("city", PyStr "Lagos")]))
       initial_state).1 = inr v /\
    ((exists data, v = PyDict [("data", data); ("success", PyBool true)]) \/
     (exists error, v = PyDict [("error", PyStr error); ("success", PyBool false)]) \/
     (exists error, v = failure error)).
Proof.
  by apply (served_tool_result_is_well_formed
              (world_served decision_weather backend_up) backend_up).
Defined.

(** X24, witness: the oracle names the city under the key [location]. *)
Lemma request_with_missing_parameter_reports_http_400_witness :
  exists st',
    exec (world_served decision_location backend_up)
      (started_run (world_served decision_location backend_up) weather_request)
      (accepted (world_served decision_location backend_up) weather_request
         initial_state) = (inr tt, st') /\
    channel_history "s2" st' =
      [analyzing;
       EvRouting (PyStr "get_weather") (PyStr "asks for the weather");
       EvStatus "🌤️ Getting weather for None...";
       crafting; EvFinal "I encountered an error: HTTP 400"].
Proof.
  assert (Hne : [("location", PyStr "Lagos")] <> @nil (string * PyVal))
    by discriminate.
  destruct (request_with_missing_parameter_reports_http_400
              (world_served decision_location backend_up) backend_up
              weather_request initial_state
              [("tool", PyStr "get_weather");
               ("parameters", PyDict [("location", PyStr "Lagos")]);
               ("reasoning", PyStr "asks for the weather")]
              [("location", PyStr "Lagos")] "get_weather"
              eq_refl eq_refl eq_refl (or_introl eq_refl) eq_refl Hne
              eq_refl eq_refl)
    as (st' & ev & Hexec & Hev & Hhistory & _).
  exists st'. split; [exact Hexec|]. injection Hev as <-. exact Hhistory.
Defined.

(** X25, witness: the weather service is out of reach. *)
Lemma request_reports_tool_failure_from_server_witness :
  exists st',
    exec (world_served decision_weather backend_down)
      (started_run (world_served decision_weather backend_down) weather_request)
      (accepted (world_served decision_weather backend_down) weather_request
         initial_state) = (inr tt, st') /\
    channel_history "s2" st' =
      [analyzing;
       EvRouting (PyStr "get_weather") (PyStr "asks for the weather");
       EvStatus "🌤️ Getting weather for Lagos...";
       crafting;
       EvFinal "I encountered an error: Weather API error: Connection timed out"].
Proof.
  assert (Hne : [("city", PyStr "Lagos")] <> @nil (string * PyVal)) by discriminate.
  destruct (request_reports_tool_failure_from_server
              (world_served decision_weather backend_down) backend_down
              weather_request initial_state
              [("tool", PyStr "get_weather");
               ("parameters", PyDict [("city", PyStr "Lagos")]);
               ("reasoning", PyStr "asks for the weather")]
              [("city", PyStr "Lagos")] "get_weather"
              "Weather API error: Connection timed out"
              [OutGet "https://wttr.in/Lagos?format=j1"]
              eq_refl eq_refl eq_refl (or_introl eq_refl) eq_refl Hne
              eq_refl eq_refl)
    as (st' & ev & Hexec & Hev & Hhistory & _).
  exists st'. split; [exact Hexec|]. injection Hev as <-. exact Hhistory.
Defined.

